(** * Schedule validity and recurrence: the code of the railway operations
      application, embedded and checked against its specification.

    Sources embedded here:
    - [client/src/components/TimelineView.tsx]: the calendar's event filter
      (the specification's Recurrence Evaluator, [isActiveOn]);
    - [server/routes.ts], [POST /api/schedules]: the zod schema of the request
      body, the train-type gate and the insert (the specification's Validator);
    - the socket server ([setupWebSocket], the [updateSchedule] event): the
      status update;
    - [db/schema.ts] and [migrations/0002_add_attachment_fields.ts]: columns,
      defaults and constraints of the tables;
    - [client/src/components/ImportSchedules.tsx]: the date checks of the
      import dialog.

    JavaScript values are modelled as follows: a [Date] is its time value, an
    integer number of milliseconds since the epoch ([Z]), an Invalid Date
    being the [None] of an [option Z]; a number of a request is an integer
    ([Z]); a string is the sequence of the bytes of its UTF-8 encoding;
    [undefined] and [null] are kept apart where the code keeps them
    apart. *)

From Stdlib Require Import ZArith Ascii String Lia.
From stdpp Require Import gmap strings list pretty.

#[local] Set Warnings "-register-all".
Local Open Scope string_scope.
Local Open Scope Z_scope.

(** ** JavaScript values *)

Module Js.

(** What [JSON.parse] produces. An absent property ([undefined]) is the
    [None] of an [option Json]. *)
Inductive Json : Type :=
| JNull
| JBool (b : bool)
| JNum (n : Z)
| JStr (s : string)
| JArr (items : list Json)
| JObj (fields : list (string * Json)).

(** A value of an optional, nullable property after parsing. *)
Inductive Nullish (A : Type) : Type :=
| Undefined
| Null
| Val (a : A).
Arguments Undefined {A}.
Arguments Null {A}.
Arguments Val {A} a.

(** Truthiness, per type: [0] and the empty string are falsy, a [Date]
    object is always truthy, [undefined] and [null] are falsy. *)
Definition truthyNum (n : Z) : bool := negb (n =? 0).

Definition truthyStr (s : string) : bool :=
  match s with EmptyString => false | _ => true end.

Definition truthyDate (t : Z) : bool := true.

Definition truthyOpt (ob : option bool) : bool :=
  match ob with Some b => b | None => false end.

Definition truthy {A} (f : A -> bool) (v : Nullish A) : bool :=
  match v with Val a => f a | _ => false end.

(** SQL sees [undefined] (the column default, NULL for the nullable columns
    written here) and [null] alike. *)
Definition toNullable {A} (v : Nullish A) : option A :=
  match v with Val a => Some a | _ => None end.

Fixpoint prop_lookup (k : string) (fields : list (string * Json)) : option Json :=
  match fields with
  | [] => None
  | (k', v) :: rest => if String.eqb k k' then Some v else prop_lookup k rest
  end.

(** [obj[k]] *)
Definition prop (k : string) (obj : Json) : option Json :=
  match obj with
  | JObj fields => prop_lookup k fields
  | _ => None
  end.

(** The largest time value of a [Date]: 8.64e15 ms. *)
Definition maxTimeValue : Z := 8640000000000000.

Section Date.
(** [Date.parse] on strings and [String(v)] on arrays and objects are the
    platform's. *)
Variable Date_parse : string -> option Z.
Variable ToString : Json -> string.

(** [new Date(v).getTime()], [None] for an Invalid Date. *)
Definition newDate (v : option Json) : option Z :=
  match v with
  | None => None
  | Some JNull => Some 0
  | Some (JBool b) => Some (if b then 1 else 0)
  | Some (JNum n) => if Z.abs n <=? maxTimeValue then Some n else None
  | Some (JStr s) => Date_parse s
  | Some other => Date_parse (ToString other)
  end.

(** [new Date(s)] for a string. *)
Definition newDateStr (s : string) : option Z := Date_parse s.
End Date.

End Js.

(** ** TimelineView.tsx: which schedules the calendar shows today *)

Module Timeline.

Record TrainInfo : Type := {
  trainNumber : string;
  type : option string
}.

(** The schedule as the component receives it; a timestamp is the time value
    of [new Date(...)] of the field. *)
Record Schedule : Type := {
  id : Z;
  trainId : option Z;
  train : option TrainInfo;
  scheduledDeparture : Z;
  scheduledArrival : Z;
  status : string;
  isCancelled : bool;
  runningDays : list bool;
  effectiveStartDate : Z;
  effectiveEndDate : option Z
}.

(** The title is a template string; its parts are kept. *)
Inductive Title : Type :=
| TrainTitle (trainNumber : string) (upperType : option string)
| TrainIdTitle (trainId : option Z).

Record Event : Type := {
  ev_id : Z;
  ev_title : Title;
  ev_start : Z;
  ev_end : Z;
  ev_status : string;
  ev_isCancelled : bool;
  ev_runningDays : list bool
}.

Definition upperAscii (a : ascii) : ascii :=
  let n := nat_of_ascii a in
  if (Nat.leb 97 n && Nat.leb n 122)%bool then ascii_of_nat (n - 32) else a.

Fixpoint toUpperCase (s : string) : string :=
  match s with
  | EmptyString => EmptyString
  | String a rest => String (upperAscii a) (toUpperCase rest)
  end.

Definition msPerDay : Z := 86400000.

Section LocalTime.
(** Local time is UTC plus this many milliseconds. The component asks for
    the local weekday of one instant only, [currentDate]; the offset is the
    one the zone has at that instant. *)
Variable localOffsetMs : Z.

(** The local calendar day of an instant, counted from 1970-01-01. *)
Definition localDay (t : Z) : Z := (t + localOffsetMs) / msPerDay.

(** [Date.prototype.getDay]: Sunday = 0 ... Saturday = 6; day 0 was a
    Thursday. *)
Definition getDay (t : Z) : Z := (localDay t + 4) mod 7.

(** [(currentDate.getDay() + 6) % 7] *)
Definition dayOfWeek (t : Z) : Z := (getDay t + 6) mod 7.

Definition eventOf (schedule : Schedule) : Event :=
  {| ev_id := id schedule;
     ev_title :=
       match train schedule with
       | Some t =>
           if Js.truthyStr (trainNumber t)
           then TrainTitle (trainNumber t) (option_map toUpperCase (type t))
           else TrainIdTitle (trainId schedule)
       | None => TrainIdTitle (trainId schedule)
       end;
     ev_start := scheduledDeparture schedule;
     ev_end := scheduledArrival schedule;
     ev_status := status schedule;
     ev_isCancelled := isCancelled schedule;
     ev_runningDays := runningDays schedule |}.

(** The callback of [schedules.flatMap], [currentDate] being [new Date()]. *)
Definition scheduleEvents (currentDate : Z) (schedule : Schedule) : list Event :=
  let currentDayOfWeek := dayOfWeek currentDate in
  let startDate := effectiveStartDate schedule in
  let endDate := effectiveEndDate schedule in
  if (currentDate <? startDate)
     || match endDate with Some e => e <? currentDate | None => false end
     || negb (Js.truthyOpt (runningDays schedule !! Z.to_nat currentDayOfWeek))
  then []
  else [eventOf schedule].

Definition events (currentDate : Z) (schedules : list Schedule) : list Event :=
  flat_map (scheduleEvents currentDate) schedules.

(** The Recurrence Evaluator of the specification: the schedule is active on
    [d] when the filter keeps it. *)
Definition isActiveOn (schedule : Schedule) (d : Z) : bool :=
  match scheduleEvents d schedule with
  | [] => false
  | _ :: _ => true
  end.

(** The effective window as the specification words it (steps 2 and 3 of its
    algorithm), for comparison with the filter: both bounds are compared by
    calendar day. *)
Definition withinWindowByDay (schedule : Schedule) (d : Z) : bool :=
  negb (localDay d <? localDay (effectiveStartDate schedule))
  && match effectiveEndDate schedule with
     | Some e => negb (localDay e <? localDay d)
     | None => true
     end.
End LocalTime.

Definition eventStyleGetter (event : Event) : string :=
  let backgroundColor := "#22c55e" in
  let backgroundColor :=
    if String.eqb (ev_status event) "delayed" then "#f59e0b" else backgroundColor in
  let backgroundColor :=
    if String.eqb (ev_status event) "cancelled" || ev_isCancelled event
    then "#ef4444" else backgroundColor in
  backgroundColor.

Definition setCancelled (b : bool) (s : Schedule) : Schedule :=
  {| id := id s; trainId := trainId s; train := train s;
     scheduledDeparture := scheduledDeparture s;
     scheduledArrival := scheduledArrival s;
     status := status s; isCancelled := b;
     runningDays := runningDays s;
     effectiveStartDate := effectiveStartDate s;
     effectiveEndDate := effectiveEndDate s |}.

End Timeline.

(** ** zod: the part of the library the schemas use

    A parser returns the parsed value, unless it aborted, and the issues it
    raised. A failed check ([min], [length], [refine]) raises an issue and
    keeps the value; a value of the wrong type aborts. *)

Module Zod.
Import Js.

Inductive PathSeg : Type :=
| Key (k : string)
| Index (i : nat).

Inductive IssueCode : Type :=
| invalid_type
| invalid_date
| invalid_enum_value
| too_small
| too_big
| custom.

(** [message] is the text the schema supplies, [None] for the library's own
    wording. *)
Record ZodIssue : Type := {
  code : IssueCode;
  path : list PathSeg;
  message : option string
}.

Record ParseReturn (A : Type) : Type := {
  value : option A;
  issues : list ZodIssue
}.
Arguments value {A} _.
Arguments issues {A} _.

Definition OK {A} (a : A) : ParseReturn A := {| value := Some a; issues := [] |}.
Definition INVALID {A} (i : ZodIssue) : ParseReturn A :=
  {| value := None; issues := [i] |}.

Definition issue (c : IssueCode) (msg : option string) : ZodIssue :=
  {| code := c; path := []; message := msg |}.

Definition under (seg : PathSeg) (i : ZodIssue) : ZodIssue :=
  {| code := code i; path := seg :: path i; message := message i |}.

Definition addPath {A} (seg : PathSeg) (r : ParseReturn A) : ParseReturn A :=
  {| value := value r; issues := map (under seg) (issues r) |}.

Definition mapP {A B} (f : A -> B) (r : ParseReturn A) : ParseReturn B :=
  {| value := option_map f (value r); issues := issues r |}.

(** Merging the members of an object or an array: every member is parsed,
    all issues are kept, one aborted member aborts the whole. *)
Definition apP {A B} (f : ParseReturn (A -> B)) (x : ParseReturn A) : ParseReturn B :=
  {| value := match value f, value x with
              | Some g, Some a => Some (g a)
              | _, _ => None
              end;
     issues := issues f ++ issues x |}.

Notation "f <.> x" := (apP f x) (at level 61, left associativity).

Definition Parser (A : Type) : Type := option Json -> ParseReturn A.

(** [z.number()] *)
Definition number : Parser Z := fun v =>
  match v with
  | Some (JNum n) => OK n
  | _ => INVALID (issue invalid_type None)
  end.

(** [.min(bound, msg)] on a number *)
Definition min (bound : Z) (msg : string) (p : Parser Z) : Parser Z := fun v =>
  let r := p v in
  match value r with
  | Some n =>
      if (n <? bound)
      then {| value := Some n; issues := issues r ++ [issue too_small (Some msg)] |}
      else r
  | None => r
  end.

(** [z.string()] *)
Definition string_ : Parser string := fun v =>
  match v with
  | Some (JStr s) => OK s
  | _ => INVALID (issue invalid_type None)
  end.

(** [z.boolean()] *)
Definition boolean : Parser bool := fun v =>
  match v with
  | Some (JBool b) => OK b
  | _ => INVALID (issue invalid_type None)
  end.

(** [z.enum([...])] *)
Definition enum (values : list string) : Parser string := fun v =>
  match v with
  | Some (JStr s) =>
      if existsb (String.eqb s) values then OK s
      else INVALID (issue invalid_enum_value None)
  | _ => INVALID (issue invalid_type None)
  end.

Fixpoint parseItems {A} (elem : Parser A) (i : nat) (items : list Json)
  : ParseReturn (list A) :=
  match items with
  | [] => OK []
  | x :: rest =>
      OK cons <.> addPath (Index i) (elem (Some x)) <.> parseItems elem (S i) rest
  end.

(** [z.array(elem)], with [.length(n)] when [exactLength] is given: the
    length issue comes first and does not abort. *)
Definition array {A} (exactLength : option nat) (elem : Parser A) : Parser (list A) :=
  fun v =>
  match v with
  | Some (JArr items) =>
      let r := parseItems elem 0 items in
      match exactLength with
      | Some n =>
          if (n <? length items)%nat
          then {| value := value r; issues := issue too_big None :: issues r |}
          else if (length items <? n)%nat
          then {| value := value r; issues := issue too_small None :: issues r |}
          else r
      | None => r
      end
  | _ => INVALID (issue invalid_type None)
  end.

(** [.default(d)]: the default goes through the inner parser. *)
Definition default {A} (d : Json) (p : Parser A) : Parser A := fun v =>
  match v with
  | None => p (Some d)
  | Some _ => p v
  end.

(** [.optional()] *)
Definition optional {A} (p : Parser A) : Parser (option A) := fun v =>
  match v with
  | None => OK None
  | Some _ => mapP Some (p v)
  end.

(** [.nullable().optional()] *)
Definition nullable_optional {A} (p : Parser A) : Parser (Nullish A) := fun v =>
  match v with
  | None => OK Undefined
  | Some JNull => OK Null
  | Some _ => mapP Val (p v)
  end.

(** A key of [z.object({...})]. *)
Definition field {A} (k : string) (p : Parser A) (obj : Json) : ParseReturn A :=
  addPath (Key k) (p (prop k obj)).

(** [.refine(check, {message, path})]: skipped when the inner parse
    aborted. *)
Definition refine {A} (check : A -> bool) (msg : string) (at_ : list PathSeg)
  (r : ParseReturn A) : ParseReturn A :=
  match value r with
  | Some a =>
      if check a then r
      else {| value := Some a;
              issues := issues r ++ [{| code := custom; path := at_; message := Some msg |}] |}
  | None => r
  end.

Inductive SafeParseResult (A : Type) : Type :=
| success (data : A)
| failure (error : list ZodIssue).
Arguments success {A} data.
Arguments failure {A} error.

(** [schema.safeParse(x)]: success when no issue was raised. *)
Definition safeParse {A} (r : ParseReturn A) : SafeParseResult A :=
  match value r, issues r with
  | Some a, [] => success a
  | _, errs => failure errs
  end.

Section Coerce.
Variable Date_parse : string -> option Z.
Variable ToString : Json -> string.

(** [z.coerce.date()]: [new Date(input)], refused when the date is invalid. *)
Definition coerce_date : Parser Z := fun v =>
  match newDate Date_parse ToString v with
  | Some t => OK t
  | None => INVALID (issue invalid_date None)
  end.
End Coerce.

End Zod.

(** ** db/schema.ts: the tables *)

Module Db.

(** [trains]; the columns no modelled code reads (speed, capacities,
    priority, features) are left out. *)
Record Train : Type := {
  trainNumber : string;
  description : option string;
  type : string
}.

Record Location : Type := {
  name : string;
  code : string
}.

Record Station : Type := {
  locationId : Z;
  arrivalTime : string;
  departureTime : string
}.

(** A row of [schedules]; [None] is SQL NULL. The columns no modelled code
    writes ([shortRouteLocationId], [remarks], [takingOverTime],
    [handingOverTime]) are left out: they stay NULL. *)
Record ScheduleRow : Type := {
  id : Z;
  trainId : option Z;
  departureLocationId : option Z;
  arrivalLocationId : option Z;
  scheduledDeparture : Z;
  scheduledArrival : Z;
  actualDeparture : option Z;
  actualArrival : option Z;
  status : string;
  isCancelled : bool;
  runningDays : list bool;
  effectiveStartDate : Z;
  effectiveEndDate : option Z;
  detachLocationId : option Z;
  attachLocationId : option Z;
  detachTime : option Z;
  attachTime : option Z;
  attachTrainNumber : option string;
  attachStatus : option string;
  importantStations : list Station
}.

(** Tables are keyed by their identity column; [scheduleSeq] is the last
    identity value handed out for [schedules]. *)
Record Database : Type := {
  trains : gmap Z Train;
  locations : gmap Z Location;
  schedules : gmap Z ScheduleRow;
  scheduleSeq : Z
}.

(** The column default of [runningDays] (schema.ts, line 71). *)
Definition runningDaysDefault : list bool :=
  [true; true; true; true; true; true; true].

(** What a column can hold. An [integer] is a 32-bit number. A [timestamp]
    is sent as [toISOString] writes it, which the database reads for the
    years 0001 to 9999 only (a larger or a negative year is written with a
    sign and six digits, and there is no year 0000). A [text] has no NUL
    character. A parameter outside these is refused when the statement is
    bound, before it is run. *)
Definition int4 (n : Z) : bool := (-2147483648 <=? n) && (n <=? 2147483647).

Definition timestamp (t : Z) : bool :=
  (-62135596800000 <=? t) && (t <=? 253402300799999).

Fixpoint text (s : string) : bool :=
  match s with
  | EmptyString => true
  | String a rest => negb (Ascii.eqb a "000"%char) && text rest
  end.

Definition nullable {A} (ok : A -> bool) (v : option A) : bool :=
  match v with Some a => ok a | None => true end.

(** The parameters of an insert or update of [schedules]. *)
Definition values_ok (row : ScheduleRow) : bool :=
  nullable int4 (trainId row)
  && nullable int4 (departureLocationId row)
  && nullable int4 (arrivalLocationId row)
  && timestamp (scheduledDeparture row) && timestamp (scheduledArrival row)
  && nullable timestamp (actualDeparture row)
  && nullable timestamp (actualArrival row)
  && text (status row)
  && timestamp (effectiveStartDate row)
  && nullable timestamp (effectiveEndDate row)
  && nullable int4 (detachLocationId row)
  && nullable int4 (attachLocationId row)
  && nullable timestamp (detachTime row)
  && nullable timestamp (attachTime row)
  && nullable text (attachTrainNumber row)
  && nullable text (attachStatus row).

(** The messages of the errors the database raises. *)
Definition quote : string := String "034"%char EmptyString.

Definition invalidByteSequence : string :=
  "invalid byte sequence for encoding " ++ quote ++ "UTF8" ++ quote ++ ": 0x00".

Definition integerOutOfRange (n : Z) : string :=
  "value " ++ quote ++ pretty n ++ quote ++ " is out of range for type integer".

Definition sequenceExhausted (table : string) : string :=
  "nextval: reached maximum value of sequence " ++ quote ++ table ++ "_id_seq"
  ++ quote ++ " (2147483647)".

Definition transactionAborted : string :=
  "current transaction is aborted, commands ignored until end of transaction block".

(** [select().from(table).where(eq(table.id, id)).limit(1)]: the row,
    [Some None] when no row has the id, [None] when the id is no [integer]
    and the driver throws. *)
Definition selectById {V} (table : gmap Z V) (id : Z) : option (option V) :=
  match table !! id with
  | Some v => Some (Some v)
  | None => if int4 id then Some None else None
  end.

(** [.references(() => table.id)] on a nullable column. *)
Definition references {V} (table : gmap Z V) (fk : option Z) : bool :=
  match fk with
  | Some k => bool_decide (is_Some (table !! k))
  | None => true
  end.

(** [check_attach_time_range] and [check_detach_time_range] of migration
    0002. *)
Definition check_time_range (t : option Z) (departure arrival : Z) : bool :=
  match t with
  | None => true
  | Some x => (departure <=? x) && (x <=? arrival)
  end.

(** The constraints a row of [schedules] has to meet. *)
Definition constraints_ok (db : Database) (row : ScheduleRow) : bool :=
  references (trains db) (trainId row)
  && references (locations db) (departureLocationId row)
  && references (locations db) (arrivalLocationId row)
  && references (locations db) (detachLocationId row)
  && references (locations db) (attachLocationId row)
  && check_time_range (attachTime row) (scheduledDeparture row) (scheduledArrival row)
  && check_time_range (detachTime row) (scheduledDeparture row) (scheduledArrival row).

Definition withId (i : Z) (r : ScheduleRow) : ScheduleRow :=
  {| id := i; trainId := trainId r;
     departureLocationId := departureLocationId r;
     arrivalLocationId := arrivalLocationId r;
     scheduledDeparture := scheduledDeparture r;
     scheduledArrival := scheduledArrival r;
     actualDeparture := actualDeparture r;
     actualArrival := actualArrival r;
     status := status r; isCancelled := isCancelled r;
     runningDays := runningDays r;
     effectiveStartDate := effectiveStartDate r;
     effectiveEndDate := effectiveEndDate r;
     detachLocationId := detachLocationId r;
     attachLocationId := attachLocationId r;
     detachTime := detachTime r; attachTime := attachTime r;
     attachTrainNumber := attachTrainNumber r;
     attachStatus := attachStatus r;
     importantStations := importantStations r |}.

(** [db.insert(schedules).values(v).returning()]: the database afterwards
    and the row returned, which gets the next identity value; [None] when
    the driver throws. A statement that cannot be bound, or for which the
    identity sequence has no value left, changes nothing. A row that a
    foreign key or a check refuses is not stored, but the identity value it
    was given is used up: the sequence does not go back. *)
Definition insertSchedule (db : Database) (values : ScheduleRow)
  : Database * option ScheduleRow :=
  if negb (values_ok values) || negb (int4 (scheduleSeq db + 1)) then (db, None)
  else
    let row := withId (scheduleSeq db + 1) values in
    if constraints_ok db row
    then ({| trains := trains db; locations := locations db;
             schedules := <[id row := row]> (schedules db);
             scheduleSeq := scheduleSeq db + 1 |}, Some row)
    else ({| trains := trains db; locations := locations db;
             schedules := schedules db;
             scheduleSeq := scheduleSeq db + 1 |}, None).

(** [db.update(schedules).set(...).where(eq(schedules.id, i)).returning()]:
    [Some None] when no row has the id, [None] when a constraint fails. *)
Definition updateSchedule (db : Database) (i : Z) (set : ScheduleRow -> ScheduleRow)
  : option (Database * option ScheduleRow) :=
  match schedules db !! i with
  | None => Some (db, None)
  | Some old =>
      let row := set old in
      if constraints_ok db row
      then Some ({| trains := trains db; locations := locations db;
                    schedules := <[i := row]> (schedules db);
                    scheduleSeq := scheduleSeq db |}, Some row)
      else None
  end.

End Db.

(** ** server/routes.ts: POST /api/schedules *)

Module Routes.
Import Js Zod.

(** [result.data] *)
Record ScheduleData : Type := {
  trainId : Z;
  departureLocationId : Z;
  arrivalLocationId : Z;
  scheduledDeparture : Z;
  scheduledArrival : Z;
  status : string;
  isCancelled : bool;
  runningDays : list bool;
  effectiveStartDate : Z;
  effectiveEndDate : Nullish Z;
  detachLocationId : Nullish Z;
  attachLocationId : Nullish Z;
  detachTime : Nullish Z;
  attachTime : Nullish Z;
  attachTrainNumber : Nullish string;
  attachStatus : Nullish string;
  importantStations : option (list Db.Station)
}.

Inductive Response : Type :=
| BadRequest (error : string) (details : list ZodIssue)
| ErrorMessage (statusCode : Z) (error message : string)
| Success (data : Db.ScheduleRow) (train : Db.Train)
| ServerError (error : string).

(** [Array(7).fill(true)] *)
Definition sevenTrue : Json := JArr (replicate 7 (JBool true)).

Section Handler.
Variable Date_parse : string -> option Z.
Variable ToString : Json -> string.

Definition date : Parser Z := coerce_date Date_parse ToString.

Definition stationSchema : Parser Db.Station := fun v =>
  match v with
  | Some (JObj fields) =>
      let o := JObj fields in
      OK Db.Build_Station
        <.> field "locationId" number o
        <.> field "arrivalTime" string_ o
        <.> field "departureTime" string_ o
  | _ => INVALID (issue invalid_type None)
  end.

(** The refinements of lines 331-353; a [Date] is truthy, so the guard is
    on the presence of the time alone. *)
Definition timeWithinJourney (time : ScheduleData -> Nullish Z) (data : ScheduleData) : bool :=
  match time data with
  | Val t =>
      if truthyDate t && truthyDate (scheduledDeparture data)
         && truthyDate (scheduledArrival data)
      then (scheduledDeparture data <=? t) && (t <=? scheduledArrival data)
      else true
  | _ => true
  end.

Definition scheduleObject (body : Json) : ParseReturn ScheduleData :=
  match body with
  | JObj _ =>
      OK Build_ScheduleData
        <.> field "trainId" (min 1 "Train selection is required" number) body
        <.> field "departureLocationId" (min 1 "Departure location is required" number) body
        <.> field "arrivalLocationId" (min 1 "Arrival location is required" number) body
        <.> field "scheduledDeparture" date body
        <.> field "scheduledArrival" date body
        <.> field "status"
              (default (JStr "scheduled")
                 (enum ["scheduled"; "delayed"; "completed"; "cancelled"])) body
        <.> field "isCancelled" (default (JBool false) boolean) body
        <.> field "runningDays" (default sevenTrue (array (Some 7%nat) boolean)) body
        <.> field "effectiveStartDate" date body
        <.> field "effectiveEndDate" (nullable_optional date) body
        <.> field "detachLocationId" (nullable_optional number) body
        <.> field "attachLocationId" (nullable_optional number) body
        <.> field "detachTime" (nullable_optional date) body
        <.> field "attachTime" (nullable_optional date) body
        <.> field "attachTrainNumber" (nullable_optional string_) body
        <.> field "attachStatus"
              (nullable_optional (enum ["pending"; "completed"; "cancelled"])) body
        <.> field "importantStations" (optional (array None stationSchema)) body
  | _ => INVALID (issue invalid_type None)
  end.

Definition scheduleSchema (body : Json) : ParseReturn ScheduleData :=
  refine (timeWithinJourney attachTime)
    "Attach time must be between departure and arrival times" [Key "attachTime"]
    (refine (timeWithinJourney detachTime)
       "Detach time must be between departure and arrival times" [Key "detachTime"]
       (scheduleObject body)).

Definition isSpecial (train : Db.Train) : bool :=
  String.eqb (Db.type train) "saloon" || String.eqb (Db.type train) "ftr".

Definition attachAny (d : ScheduleData) : bool :=
  truthy truthyNum (attachLocationId d) || truthy truthyStr (attachTrainNumber d)
  || truthy truthyDate (attachTime d).

Definition attachAll (d : ScheduleData) : bool :=
  truthy truthyNum (attachLocationId d) && truthy truthyStr (attachTrainNumber d)
  && truthy truthyDate (attachTime d).

Definition detachAny (d : ScheduleData) : bool :=
  truthy truthyNum (detachLocationId d) || truthy truthyDate (detachTime d).

Definition detachAll (d : ScheduleData) : bool :=
  truthy truthyNum (detachLocationId d) && truthy truthyDate (detachTime d).

Definition locationExists (db : Db.Database) (l : Nullish Z) : bool :=
  match l with
  | Val k => bool_decide (is_Some (Db.locations db !! k))
  | _ => false
  end.

(** The id of a select is an [integer]; otherwise the driver throws, which
    the handler answers with status 500. *)
Definition selectable (l : Nullish Z) : bool :=
  match l with
  | Val k => Db.int4 k
  | _ => true
  end.

(** Lines 380-401: the attach fields of a SALOON or FTR train; [Some] is an
    early return. *)
Definition checkAttach (db : Db.Database) (d : ScheduleData) : option Response :=
  if attachAny d then
    if negb (attachAll d) then
      Some (ErrorMessage 400 "Invalid attach configuration"
              "When specifying attach operations, all fields (location, train number, and time) are required")
    else if negb (locationExists db (attachLocationId d)) then
      Some (if selectable (attachLocationId d)
            then ErrorMessage 404 "Invalid attach location"
                   "The specified attach location does not exist"
            else ServerError "Failed to create schedule")
    else None
  else None.

(** Lines 403-424: the detach fields of a SALOON or FTR train. *)
Definition checkDetach (db : Db.Database) (d : ScheduleData) : option Response :=
  if detachAny d then
    if negb (detachAll d) then
      Some (ErrorMessage 400 "Invalid detach configuration"
              "When specifying detach operations, both location and time are required")
    else if negb (locationExists db (detachLocationId d)) then
      Some (if selectable (detachLocationId d)
            then ErrorMessage 404 "Invalid detach location"
                   "The specified detach location does not exist"
            else ServerError "Failed to create schedule")
    else None
  else None.

(** Lines 378-430: the train-type gate. *)
Definition checkSpecialOperations (db : Db.Database) (train : Db.Train) (d : ScheduleData)
  : option Response :=
  if isSpecial train then
    match checkAttach db d with
    | Some r => Some r
    | None => checkDetach db d
    end
  else if truthy truthyNum (attachLocationId d) || truthy truthyNum (detachLocationId d)
          || truthy truthyStr (attachTrainNumber d) then
    Some (ErrorMessage 400 "Invalid train type for attach/detach operations"
            "Attach and detach operations are only available for SALOON and FTR trains")
  else None.

(** Lines 433-441: [scheduleData], as the insert sees it. *)
Definition scheduleData (d : ScheduleData) : Db.ScheduleRow :=
  {| Db.id := 0;
     Db.trainId := Some (trainId d);
     Db.departureLocationId := Some (departureLocationId d);
     Db.arrivalLocationId := Some (arrivalLocationId d);
     Db.scheduledDeparture := scheduledDeparture d;
     Db.scheduledArrival := scheduledArrival d;
     Db.actualDeparture := None;
     Db.actualArrival := None;
     Db.status := status d;
     Db.isCancelled := isCancelled d;
     Db.runningDays := runningDays d;
     Db.effectiveStartDate := effectiveStartDate d;
     Db.effectiveEndDate := toNullable (effectiveEndDate d);
     Db.detachLocationId := toNullable (detachLocationId d);
     Db.attachLocationId := toNullable (attachLocationId d);
     Db.detachTime := toNullable (detachTime d);
     Db.attachTime := toNullable (attachTime d);
     Db.attachTrainNumber := toNullable (attachTrainNumber d);
     Db.attachStatus :=
       if truthy truthyStr (attachTrainNumber d) then Some "pending" else None;
     Db.importantStations :=
       match importantStations d with Some l => l | None => [] end |}.

(** The handler: the database after the request and the response, [body]
    being [req.body]. A thrown error of the driver is caught and answered
    with status 500. *)
Definition postSchedule (db : Db.Database) (body : Json) : Db.Database * Response :=
  match safeParse (scheduleSchema body) with
  | failure errs => (db, BadRequest "Invalid schedule data" errs)
  | success data =>
      match Db.selectById (Db.trains db) (trainId data) with
      | None => (db, ServerError "Failed to create schedule")
      | Some None =>
          (db, ErrorMessage 404 "Train not found" "The specified train does not exist")
      | Some (Some train) =>
          match checkSpecialOperations db train data with
          | Some r => (db, r)
          | None =>
              match Db.insertSchedule db (scheduleData data) with
              | (db', Some newSchedule) => (db', Success newSchedule train)
              | (db', None) => (db', ServerError "Failed to create schedule")
              end
          end
      end
  end.

End Handler.

Definition isSuccess (r : Response) : bool :=
  match r with Success _ _ => true | _ => false end.

End Routes.

(** ** The socket server: the [updateSchedule] event *)

Module Socket.
Import Js.

(** The payload of the event, as the handler types it. *)
Record UpdateData : Type := {
  id : Z;
  status : string;
  actualDeparture : Nullish string;
  actualArrival : Nullish string;
  attachTrainNumber : Nullish string;
  attachTime : Nullish string;
  attachStatus : Nullish string;
  detachLocationId : Nullish Z;
  detachTime : Nullish string
}.

(** A key of [.set({...})] whose value is [undefined] leaves the column as
    it is. *)
Definition setColumn {A} (v : Nullish A) (old : option A) : option A :=
  match v with
  | Undefined => old
  | Null => None
  | Val a => Some a
  end.

Section Handler.
Variable Date_parse : string -> option Z.

(** [x ? new Date(x) : null]; the outer [None] is a date that cannot be
    written: an Invalid Date, which the driver refuses, or one that the
    column cannot hold. *)
Definition dateOrNull (x : Nullish string) : option (option Z) :=
  if truthy truthyStr x then
    match x with
    | Val s =>
        match newDateStr Date_parse s with
        | Some t => if Db.timestamp t then Some (Some t) else None
        | None => None
        end
    | _ => Some None
    end
  else Some None.

(** The parameters that the handler passes on as they came: the id, the
    status, and the attach train number, attach status and detach location
    when the payload has them. *)
Definition paramsOk (data : UpdateData) : bool :=
  Db.int4 (id data) && Db.text (status data)
  && Db.nullable Db.text (toNullable (attachTrainNumber data))
  && Db.nullable Db.text (toNullable (attachStatus data))
  && Db.nullable Db.int4 (toNullable (detachLocationId data)).

Definition setFields (data : UpdateData) (aDep aArr aTime dTime : option Z)
  (old : Db.ScheduleRow) : Db.ScheduleRow :=
  {| Db.id := Db.id old;
     Db.trainId := Db.trainId old;
     Db.departureLocationId := Db.departureLocationId old;
     Db.arrivalLocationId := Db.arrivalLocationId old;
     Db.scheduledDeparture := Db.scheduledDeparture old;
     Db.scheduledArrival := Db.scheduledArrival old;
     Db.actualDeparture := aDep;
     Db.actualArrival := aArr;
     Db.status := status data;
     Db.isCancelled := Db.isCancelled old;
     Db.runningDays := Db.runningDays old;
     Db.effectiveStartDate := Db.effectiveStartDate old;
     Db.effectiveEndDate := Db.effectiveEndDate old;
     Db.detachLocationId := setColumn (detachLocationId data) (Db.detachLocationId old);
     Db.attachLocationId := Db.attachLocationId old;
     Db.detachTime := dTime;
     Db.attachTime := aTime;
     Db.attachTrainNumber := setColumn (attachTrainNumber data) (Db.attachTrainNumber old);
     Db.attachStatus := setColumn (attachStatus data) (Db.attachStatus old);
     Db.importantStations := Db.importantStations old |}.

(** The handler of [socket.on("updateSchedule", ...)]: the database after
    the event and the row broadcast as [scheduleUpdated], if any. An error
    (a date that cannot be written, a parameter that the statement cannot be
    bound with, a constraint) is caught and logged: nothing is written and
    nothing is broadcast. *)
Definition updateSchedule (db : Db.Database) (data : UpdateData)
  : Db.Database * option Db.ScheduleRow :=
  match dateOrNull (actualDeparture data), dateOrNull (actualArrival data),
        dateOrNull (attachTime data), dateOrNull (detachTime data) with
  | Some aDep, Some aArr, Some aTime, Some dTime =>
      if paramsOk data then
        match Db.updateSchedule db (id data) (setFields data aDep aArr aTime dTime) with
        | Some (db', updated) => (db', updated)
        | None => (db, None)
        end
      else (db, None)
  | _, _, _, _ => (db, None)
  end.

End Handler.

(** The payload of a plain status change: every optional key absent. *)
Definition statusOnly (i : Z) (newStatus : string) : UpdateData :=
  {| id := i; status := newStatus;
     actualDeparture := Undefined; actualArrival := Undefined;
     attachTrainNumber := Undefined; attachTime := Undefined;
     attachStatus := Undefined; detachLocationId := Undefined;
     detachTime := Undefined |}.

End Socket.

(** ** TrainControls: the schedule the control panel acts on *)

Module TrainControls.

(** [schedules?.find(s => !s.isCancelled && s.status !== 'completed')] *)
Definition selectedSchedule (schedules : list Db.ScheduleRow) : option Db.ScheduleRow :=
  find (fun s => negb (Db.isCancelled s) && negb (String.eqb (Db.status s) "completed"))
       schedules.

End TrainControls.

(** ** ImportSchedules.tsx: the date checks of the import dialog *)

Module ImportSchedules.

(** Lines 127-140, for one schedule of the file: the error thrown, if any. *)
Definition dateRelationshipError (departure arrival startDate : Z) (endDate : option Z)
  : option string :=
  if arrival <=? departure then Some "Arrival time must be after departure time"
  else
    match endDate with
    | Some e =>
        if e <=? startDate then Some "Effective end date must be after start date"
        else None
    | None => None
    end.

End ImportSchedules.

(** ** Concrete schedules, requests and databases used in the examples *)

Module Fixtures.
Import Js.

(** 2024-03-01, 2024-03-04 (a Monday) and 2024-03-10 (a Sunday), 00:00 UTC. *)
Definition mar01 : Z := 1709251200000.
Definition mar04 : Z := 1709510400000.
Definition mar10 : Z := 1710028800000.
Definition hour : Z := 3600000.

(** The schedule of the specification's example: Monday only, effective from
    2024-03-01, no end date. *)
Definition mondayOnly (cancelled : bool) : Timeline.Schedule :=
  {| Timeline.id := 1; Timeline.trainId := Some 1; Timeline.train := None;
     Timeline.scheduledDeparture := mar04 + 8 * hour;
     Timeline.scheduledArrival := mar04 + 14 * hour;
     Timeline.status := "scheduled"; Timeline.isCancelled := cancelled;
     Timeline.runningDays := [true; false; false; false; false; false; false];
     Timeline.effectiveStartDate := mar01;
     Timeline.effectiveEndDate := None |}.

(** A daily schedule whose last effective day is 2024-03-10. *)
Definition dailyUntilMar10 : Timeline.Schedule :=
  {| Timeline.id := 2; Timeline.trainId := Some 1; Timeline.train := None;
     Timeline.scheduledDeparture := mar04 + 8 * hour;
     Timeline.scheduledArrival := mar04 + 14 * hour;
     Timeline.status := "scheduled"; Timeline.isCancelled := false;
     Timeline.runningDays := [true; true; true; true; true; true; true];
     Timeline.effectiveStartDate := mar01;
     Timeline.effectiveEndDate := Some mar10 |}.

(** [Date.parse] on the ISO strings of the examples (every other string is
    taken as unparseable), and a [String] the examples never reach. *)
Definition isoDates : list (string * Z) :=
  [("2024-03-01T00:00:00.000Z", mar01);
   ("2024-03-04T07:00:00.000Z", mar04 + 7 * hour);
   ("2024-03-04T08:00:00.000Z", mar04 + 8 * hour);
   ("2024-03-04T09:00:00.000Z", mar04 + 9 * hour);
   ("2024-03-04T10:00:00.000Z", mar04 + 10 * hour);
   ("2024-03-04T14:00:00.000Z", mar04 + 14 * hour)].

Fixpoint lookupDate (s : string) (table : list (string * Z)) : option Z :=
  match table with
  | [] => None
  | (k, t) :: rest => if String.eqb s k then Some t else lookupDate s rest
  end.

Definition isoDateParse : string -> option Z := fun s => lookupDate s isoDates.
Definition noToString : Json -> string := fun _ => "".

Definition express1 : Db.Train :=
  {| Db.trainNumber := "12001"; Db.description := None; Db.type := "express" |}.
Definition ftr2 : Db.Train :=
  {| Db.trainNumber := "F-7"; Db.description := None; Db.type := "ftr" |}.

Definition loc (n c : string) : Db.Location := {| Db.name := n; Db.code := c |}.

(** Train 1 is an express, train 2 an FTR; locations 1 to 5 exist. *)
Definition db0 : Db.Database :=
  {| Db.trains := <[1 := express1]> (<[2 := ftr2]> ∅);
     Db.locations :=
       <[1 := loc "Alpha" "ALP"]> (<[2 := loc "Beta" "BET"]> (<[3 := loc "Gamma" "GAM"]>
         (<[4 := loc "Delta" "DEL"]> (<[5 := loc "Epsilon" "EPS"]> ∅))));
     Db.schedules := ∅;
     Db.scheduleSeq := 0 |}.

(** Train 1 from location 1 to location 2, 2024-03-04 08:00 to 14:00. *)
Definition baseFields : list (string * Json) :=
  [("trainId", JNum 1); ("departureLocationId", JNum 1); ("arrivalLocationId", JNum 2);
   ("scheduledDeparture", JStr "2024-03-04T08:00:00.000Z");
   ("scheduledArrival", JStr "2024-03-04T14:00:00.000Z");
   ("effectiveStartDate", JStr "2024-03-01T00:00:00.000Z")].

Definition baseBody : Json := JObj baseFields.

(** Arrival at 07:00, an hour before the departure. *)
Definition arrivalBeforeDeparture : Json :=
  JObj (("scheduledArrival", JStr "2024-03-04T07:00:00.000Z") :: baseFields).

(** The express train with an attach time and a detach time and nothing
    else of the attach and detach fields. *)
Definition expressWithTimes : Json :=
  JObj (("attachTime", JStr "2024-03-04T09:00:00.000Z")
        :: ("detachTime", JStr "2024-03-04T10:00:00.000Z") :: baseFields).

(** The specification's example: the FTR train, [attachLocationId = 5], an
    attach time, no [attachTrainNumber]. *)
Definition ftrPartialAttach : Json :=
  JObj (("trainId", JNum 2) :: ("attachLocationId", JNum 5)
        :: ("attachTime", JStr "2024-03-04T09:00:00.000Z") :: baseFields).

(** Departure and arrival at the same location. *)
Definition sameLocation : Json :=
  JObj (("arrivalLocationId", JNum 1) :: baseFields).

(** The FTR train with the whole attach triple, the caller asking for
    [attachStatus = "completed"]. *)
Definition ftrFullAttach : Json :=
  JObj (("trainId", JNum 2) :: ("attachLocationId", JNum 5)
        :: ("attachTrainNumber", JStr "12001")
        :: ("attachTime", JStr "2024-03-04T09:00:00.000Z")
        :: ("attachStatus", JStr "completed") :: baseFields).

(** A stored schedule that has been completed. *)
Definition completedRow : Db.ScheduleRow :=
  {| Db.id := 1; Db.trainId := Some 1;
     Db.departureLocationId := Some 1; Db.arrivalLocationId := Some 2;
     Db.scheduledDeparture := mar04 + 8 * hour;
     Db.scheduledArrival := mar04 + 14 * hour;
     Db.actualDeparture := Some (mar04 + 8 * hour);
     Db.actualArrival := Some (mar04 + 14 * hour);
     Db.status := "completed"; Db.isCancelled := false;
     Db.runningDays := Db.runningDaysDefault;
     Db.effectiveStartDate := mar01; Db.effectiveEndDate := None;
     Db.detachLocationId := None; Db.attachLocationId := None;
     Db.detachTime := None; Db.attachTime := None;
     Db.attachTrainNumber := None; Db.attachStatus := None;
     Db.importantStations := [] |}.

Definition db1 : Db.Database :=
  {| Db.trains := Db.trains db0; Db.locations := Db.locations db0;
     Db.schedules := <[1 := completedRow]> ∅;
     Db.scheduleSeq := 1 |}.

End Fixtures.

(** ** server/auth.ts: roles and registration *)

Module Auth.

(** [UserRole] of db/schema.ts *)
Definition Admin : string := "admin".
Definition Operator : string := "operator".
Definition Viewer : string := "viewer".

(** A row of [users]; the key of the table is its [id]. *)
Record User : Type := {
  username : string;
  password : string;
  role : string
}.

(** What a middleware or a handler of this file does with the request:
    hand it on, or answer with a status and a text. *)
Inductive Outcome : Type :=
| Next
| Send (status : Z) (text : string).

(** [requireRole(...roles)], [user] being [req.user] (absent when the
    request is not authenticated). *)
Definition requireRole (roles : list string) (user : option User) : Outcome :=
  match user with
  | None => Send 401 "Not authenticated"
  | Some u =>
      if negb (existsb (String.eqb (role u)) roles)
      then Send 403 "Insufficient permissions"
      else Next
  end.

(** [result.data] of [insertUserSchema], as far as the handler reads it. *)
Record RegisterData : Type := {
  reg_username : string;
  reg_password : string;
  reg_role : Js.Nullish string
}.

Inductive RegisterResponse : Type :=
| InvalidInput (issues : list Zod.ZodIssue)
| Refused (status : Z) (text : string)
| Registered (id : Z) (user : User).

Record Users : Type := {
  users : gmap Z User;
  userSeq : Z
}.

(** [select().from(users).where(eq(users.username, name)).limit(1)] finds a
    row. *)
Definition usernameTaken (table : gmap Z User) (name : string) : bool :=
  bool_decide (map_Exists (fun _ u => username u = name) table).

(** Lines 131-133: the role the new user gets. *)
Definition registerRole (requester : option User) (data : RegisterData) : string :=
  if match requester with
     | Some u => String.eqb (role u) Admin
     | None => false
     end && Js.truthy Js.truthyStr (reg_role data)
  then match reg_role data with Js.Val r => r | _ => Viewer end
  else Viewer.

Section Register.
(** [crypto.hash]: scrypt with a fresh random salt. *)
Variable hash : string -> string.

(** The handler of [POST /api/register], from the parsed body on: the table
    afterwards, the response, and the user logged in by [req.login], if
    any. *)
Definition register (st : Users) (requester : option User)
  (result : Zod.SafeParseResult RegisterData) : Users * RegisterResponse :=
  match result with
  | Zod.failure errs => (st, InvalidInput errs)
  | Zod.success data =>
      let role := registerRole requester data in
      if String.eqb role Admin
         && match requester with
            | None => true
            | Some u => negb (String.eqb (Auth.role u) Admin)
            end
      then (st, Refused 403 "Only admins can create admin users")
      else if usernameTaken (users st) (reg_username data)
      then (st, Refused 400 "Username already exists")
      else
        let newUser := {| username := reg_username data;
                          password := hash (reg_password data);
                          role := role |} in
        let newId := userSeq st + 1 in
        ({| users := <[newId := newUser]> (users st); userSeq := newId |},
         Registered newId newUser)
  end.
End Register.

(** No two rows have the same user name (the [unique] of the column). *)
Definition usernamesUnique (table : gmap Z User) : Prop :=
  forall i j a b, table !! i = Some a -> table !! j = Some b ->
                  username a = username b -> i = j.

(** Every key was handed out by the identity sequence. *)
Definition keysIssued (st : Users) : Prop :=
  forall k, is_Some (users st !! k) -> k <= userSeq st.

End Auth.

(** ** zod: strings, bounds and native enums *)

Module ZodMore.
Import Js Zod.

(** [s.length]: the number of UTF-16 code units of a string. A string is
    kept here as the bytes of its UTF-8 encoding: a character of one, two or
    three bytes is one code unit, a character of four bytes is two (a
    surrogate pair, the second of which is counted at the last byte).
    [pending] is the number of continuation bytes the character at hand still
    has to come; a byte that is not part of a well-formed character counts as
    one unit. *)
Fixpoint utf16From (pending : nat) (astral : bool) (s : string) : nat :=
  match s with
  | EmptyString => 0%nat
  | String a rest =>
      let b := nat_of_ascii a in
      if (0 <? pending)%nat && (128 <=? b)%nat && (b <? 192)%nat then
        ((if (pending =? 1)%nat && astral then 1 else 0)
         + utf16From (pending - 1) astral rest)%nat
      else if (b <? 192)%nat then S (utf16From 0 false rest)
      else if (b <? 224)%nat then S (utf16From 1 false rest)
      else if (b <? 240)%nat then S (utf16From 2 false rest)
      else if (b <? 248)%nat then S (utf16From 3 true rest)
      else S (utf16From 0 false rest)
  end.

Definition utf16Length (s : string) : nat := utf16From 0 false s.

(** [.min(n, msg)] on a string *)
Definition minLength (n : nat) (msg : option string) (p : Parser string) : Parser string :=
  fun v =>
  let r := p v in
  match value r with
  | Some s =>
      if (utf16Length s <? n)%nat
      then {| value := Some s; issues := (issues r ++ [issue too_small msg])%list |}
      else r
  | None => r
  end.

(** [.max(n, msg)] on a string *)
Definition maxLength (n : nat) (msg : option string) (p : Parser string) : Parser string :=
  fun v =>
  let r := p v in
  match value r with
  | Some s =>
      if (n <? utf16Length s)%nat
      then {| value := Some s; issues := (issues r ++ [issue too_big msg])%list |}
      else r
  | None => r
  end.

(** [.toUpperCase()] on a string: the value handed on is the upper-cased
    one. *)
Definition upperCased (toUpperCase : string -> string) (p : Parser string)
  : Parser string :=
  fun v => mapP toUpperCase (p v).

(** [.min(n, msg)] on an array *)
Definition minItems {A} (n : nat) (msg : option string) (elem : Parser A)
  : Parser (list A) :=
  fun v =>
  match v with
  | Some (JArr items) =>
      let r := parseItems elem 0 items in
      if (length items <? n)%nat
      then {| value := value r; issues := issue too_small msg :: issues r |}
      else r
  | _ => INVALID (issue invalid_type None)
  end.

(** [.positive()] and [.max(bound)] on a number *)
Definition positive (p : Parser Z) : Parser Z := fun v =>
  let r := p v in
  match value r with
  | Some n =>
      if n <=? 0
      then {| value := Some n; issues := (issues r ++ [issue too_small None])%list |}
      else r
  | None => r
  end.

Definition max (bound : Z) (p : Parser Z) : Parser Z := fun v =>
  let r := p v in
  match value r with
  | Some n =>
      if bound <? n
      then {| value := Some n; issues := (issues r ++ [issue too_big None])%list |}
      else r
  | None => r
  end.

(** [z.nativeEnum(E)] for an enum of strings *)
Definition nativeEnum (values : list string) : Parser string := fun v =>
  match v with
  | Some (JStr s) =>
      if existsb (String.eqb s) values then OK s
      else INVALID (issue invalid_enum_value None)
  | Some (JNum _) => INVALID (issue invalid_enum_value None)
  | _ => INVALID (issue invalid_type None)
  end.

Definition pathSegment (seg : PathSeg) : string :=
  match seg with
  | Key k => k
  | Index i => pretty i
  end.

Fixpoint join (sep : string) (parts : list string) : string :=
  match parts with
  | [] => ""
  | [p] => p
  | p :: rest => p ++ sep ++ join sep rest
  end.

(** [issue => ({field: issue.path.join('.'), message: issue.message})] *)
Definition fieldDetail (i : ZodIssue) : string * option string :=
  (join "." (List.map pathSegment (path i)), message i).

End ZodMore.

(** ** server/routes.ts: locations *)

Module Locations.
Import Js Zod ZodMore.

Record Table : Type := {
  rows : gmap Z Db.Location;
  locationSeq : Z
}.

(** [{name, code}] after the schema *)
Record LocationData : Type := {
  name : string;
  code : string
}.

Inductive Response : Type :=
| Invalid (error : string) (details : list (string * option string))
| Conflict (error details : string)
| Created (message : string) (id : Z) (location : Db.Location)
| Imported (total successful failed : nat)
           (success : list (Z * Db.Location))
           (failures : list (LocationData * string))
| ServerError (error details : string).

Section Handlers.
(** [String.prototype.toUpperCase] *)
Variable toUpperCase : string -> string.

Definition locationSchema : Parser LocationData := fun v =>
  match v with
  | Some (JObj fields) =>
      let o := JObj fields in
      OK Build_LocationData
        <.> field "name" (minLength 1 (Some "Location name is required") string_) o
        <.> field "code"
              (upperCased toUpperCase
                 (maxLength 10 (Some "Location code must be 10 characters or less")
                    (minLength 1 (Some "Location code is required") string_))) o
  | _ => INVALID (issue invalid_type None)
  end.

(** A row has the code. *)
Definition codeTaken (table : gmap Z Db.Location) (c : string) : bool :=
  bool_decide (map_Exists (fun _ l => Db.code l = c) table).

(** [select().from(locations).where(eq(locations.code, code)).limit(1)]:
    whether a row was found, or the message of the error thrown when the
    code cannot be bound. *)
Definition selectByCode (table : gmap Z Db.Location) (c : string) : bool + string :=
  if codeTaken table c then inl true
  else if Db.text c then inl false
  else inr Db.invalidByteSequence.

(** [insert(locations).values({name, code}).returning()], the code being
    free (the handlers have looked it up): the table afterwards and the row
    returned, or the message of the error thrown, which changes nothing. *)
Definition insertLocation (t : Table) (d : LocationData)
  : Table * (Z * Db.Location) + string :=
  if negb (Db.text (name d) && Db.text (code d)) then inr Db.invalidByteSequence
  else if negb (Db.int4 (locationSeq t + 1)) then inr (Db.sequenceExhausted "locations")
  else
    let newId := locationSeq t + 1 in
    let row := {| Db.name := name d; Db.code := code d |} in
    inl ({| rows := <[newId := row]> (rows t); locationSeq := newId |}, (newId, row)).

(** The handler of [POST /api/locations] (lines 822-878). *)
Definition postLocation (t : Table) (body : Json) : Table * Response :=
  match safeParse (locationSchema (Some body)) with
  | failure errs => (t, Invalid "Invalid location data" (List.map fieldDetail errs))
  | success d =>
      match selectByCode (rows t) (code d) with
      | inr e => (t, ServerError "Failed to create location" e)
      | inl true =>
          (t, Conflict "Location already exists"
                ("A location with code " ++ code d ++ " already exists"))
      | inl false =>
          match insertLocation t d with
          | inl (t', (newId, row)) =>
              (t', Created "Location created successfully" newId row)
          | inr e => (t, ServerError "Failed to create location" e)
          end
      end
  end.

(** One turn of the loop of the import (lines 982-1012): the table, whether
    a statement of the transaction has failed, and the results so far; and
    the location at hand. An error is caught for the item, but from then on
    the database refuses every statement of the transaction. *)
Definition importOne
  (acc : Table * bool * list (Z * Db.Location) * list (LocationData * string))
  (location : LocationData)
  : Table * bool * list (Z * Db.Location) * list (LocationData * string) :=
  let '(t, aborted, done, failures) := acc in
  if aborted then
    (t, true, done, (failures ++ [(location, Db.transactionAborted)])%list)
  else
    match selectByCode (rows t) (code location) with
    | inr e => (t, true, done, (failures ++ [(location, e)])%list)
    | inl true =>
        (t, false, done,
         (failures ++ [(location,
                        ("Location with code " ++ code location
                         ++ " already exists")%string)])%list)
    | inl false =>
        match insertLocation t location with
        | inl (t', newLocation) => (t', false, (done ++ [newLocation])%list, failures)
        | inr e => (t, true, done, (failures ++ [(location, e)])%list)
        end
    end.

(** The end of the transaction. After a failed statement the [commit] is
    answered by a rollback, without an error: the rows are those of before,
    while the identity values that were used are not given back. *)
Definition commit (before after : Table) (aborted : bool) : Table :=
  if aborted
  then {| rows := rows before; locationSeq := locationSeq after |}
  else after.

(** The handler of [POST /api/locations/import] (lines 954-1031). *)
Definition importLocations (t : Table) (body : Json) : Table * Response :=
  match safeParse (array None locationSchema (Some body)) with
  | failure errs => (t, Invalid "Invalid location data" (List.map fieldDetail errs))
  | success locations_to_import =>
      let '(t', aborted, done, failures) :=
        fold_left importOne locations_to_import (t, false, [], []) in
      (commit t t' aborted,
       Imported (length locations_to_import) (length done) (length failures)
         done failures)
  end.

(** The routes, behind [requireRole(UserRole.Admin)]. *)
Definition route (handler : Table -> Json -> Table * Response)
  (user : option Auth.User) (t : Table) (body : Json)
  : Table * (Auth.Outcome + Response) :=
  match Auth.requireRole [Auth.Admin] user with
  | Auth.Next => let '(t', r) := handler t body in (t', inr r)
  | refused => (t, inl refused)
  end.
End Handlers.

(** The messages of the errors of the database that the import can meet. *)
Definition databaseErrors : list string :=
  [Db.invalidByteSequence; Db.sequenceExhausted "locations"; Db.transactionAborted].

(** No two rows have the same code (the [unique] of the column). *)
Definition codesUnique (table : gmap Z Db.Location) : Prop :=
  forall i j a b, table !! i = Some a -> table !! j = Some b ->
                  Db.code a = Db.code b -> i = j.

(** Every key was handed out by the identity sequence. *)
Definition keysIssued (t : Table) : Prop :=
  forall k, is_Some (rows t !! k) -> k <= locationSeq t.

End Locations.

(** ** server/routes.ts: the import of train types *)

Module TrainTypes.
Import Js Zod ZodMore.

(** [Object.values(TrainType)] of db/schema.ts *)
Definition TrainType : list string :=
  ["express"; "local"; "freight"; "spic"; "ftr"; "saloon"; "trc"; "passenger";
   "mail_express"; "superfast"; "premium"; "suburban"; "memu"; "demu"].

(** [typeMapping], in the order of its keys. *)
Definition typeMapping : list (string * string) :=
  [("express", "express"); ("local", "local"); ("freight", "freight");
   ("spic", "spic"); ("ftr", "ftr"); ("saloon", "saloon"); ("trc", "trc");
   ("passenger", "passenger"); ("mail_express", "mail_express");
   ("superfast", "superfast"); ("premium", "premium"); ("suburban", "suburban");
   ("memu", "memu"); ("demu", "demu");
   ("exp", "express"); ("mail", "mail_express"); ("sf", "superfast");
   ("sub", "suburban"); ("pass", "passenger")].

(** The names every object inherits from [Object.prototype]:
    [k in typeMapping] holds for them although they are no keys of the
    mapping, and what is found under them is no string. *)
Definition inheritedNames : list string :=
  ["constructor"; "__defineGetter__"; "__defineSetter__"; "hasOwnProperty";
   "__lookupGetter__"; "__lookupSetter__"; "isPrototypeOf";
   "propertyIsEnumerable"; "toString"; "valueOf"; "__proto__"; "toLocaleString"].

Fixpoint lookupKey (k : string) (m : list (string * string)) : option string :=
  match m with
  | [] => None
  | (k', v) :: rest => if String.eqb k k' then Some v else lookupKey k rest
  end.

(** [s.includes(sub)] *)
Fixpoint includes (sub s : string) : bool :=
  String.prefix sub s
  || match s with
     | EmptyString => false
     | String _ rest => includes sub rest
     end.

Inductive MapResult : Type :=
| Return (type : string)
| ReturnInherited (name : string)
| Throw (message : string).

(** The identity sequence and rows of [trains], with the columns the import
    writes. *)
Record TrainRow : Type := {
  train : Db.Train;
  maxSpeed : option Z;
  priorityLevel : option Z;
  features : list string
}.

Record Table : Type := {
  rows : gmap Z TrainRow;
  trainSeq : Z
}.

(** [result.data.train_types[i]] *)
Record TrainTypeData : Type := {
  type : string;
  description : string;
  max_speed : option Z;
  priority_level : option Z;
  item_features : option (list string)
}.

Record Imported : Type := {
  originalType : string;
  mappedType : string;
  trainNumber : string;
  trainId : Z;
  imp_description : option string;
  imp_features : list string
}.

Inductive Response : Type :=
| Unauthorized (error : string)
| Invalid (error : string) (details : list ZodIssue)
| Completed (total successful failed : nat)
            (successfulImports : list Imported)
            (failedImports : list (TrainTypeData * string)).

(** [atLeast n]: [.min(n)] on a number, without a message. *)
Definition atLeast (bound : Z) (p : Parser Z) : Parser Z := fun v =>
  let r := p v in
  match value r with
  | Some n =>
      if n <? bound
      then {| value := Some n; issues := (issues r ++ [issue too_small None])%list |}
      else r
  | None => r
  end.

Definition trainTypeSchema : Parser TrainTypeData := fun v =>
  match v with
  | Some (JObj fields) =>
      let o := JObj fields in
      OK Build_TrainTypeData
        <.> field "type" (nativeEnum TrainType) o
        <.> field "description" (minLength 1 (Some "Description is required") string_) o
        <.> field "max_speed" (optional (positive number)) o
        <.> field "priority_level" (optional (max 10 (atLeast 1 number))) o
        <.> field "features" (optional (array None string_)) o
  | _ => INVALID (issue invalid_type None)
  end.

Definition importSchema (body : Json) : ParseReturn (list TrainTypeData) :=
  match body with
  | JObj _ =>
      field "train_types"
        (minItems 1 (Some "At least one train type is required") trainTypeSchema) body
  | _ => INVALID (issue invalid_type None)
  end.

(** [select().from(trains).where(eq(trains.trainNumber, n)).limit(1)] finds a
    row. *)
Definition numberTaken (table : gmap Z TrainRow) (n : string) : bool :=
  bool_decide (map_Exists (fun _ r => Db.trainNumber (train r) = n) table).

(** The first parameter of the insert that cannot be bound, in the order of
    the columns: the message of the error. *)
Definition textError (ok : bool) : option string :=
  if ok then None else Some Db.invalidByteSequence.

Definition intError (v : option Z) : option string :=
  match v with
  | Some n => if Db.int4 n then None else Some (Db.integerOutOfRange n)
  | None => None
  end.

Fixpoint firstError (checks : list (option string)) : option string :=
  match checks with
  | [] => None
  | Some e :: _ => Some e
  | None :: rest => firstError rest
  end.

Definition bindError (row : TrainRow) : option string :=
  firstError [textError (Db.text (Db.trainNumber (train row)));
              textError (Db.nullable Db.text (Db.description (train row)));
              textError (Db.text (Db.type (train row)));
              intError (maxSpeed row);
              intError (priorityLevel row);
              textError (forallb Db.text (features row))].

(** [insert(trains).values({...}).returning()], the train number being free
    (the loop has looked it up): the table afterwards and the id of the row,
    or the message of the error thrown, which changes nothing. *)
Definition insertTrain (t : Table) (row : TrainRow) : Table * Z + string :=
  match bindError row with
  | Some e => inr e
  | None =>
      if negb (Db.int4 (trainSeq t + 1)) then inr (Db.sequenceExhausted "trains")
      else
        let newId := trainSeq t + 1 in
        inl ({| rows := <[newId := row]> (rows t); trainSeq := newId |}, newId)
  end.

(** The end of the transaction. After a failed statement the [commit] is
    answered by a rollback, without an error: the rows are those of before,
    while the identity values that were used are not given back. *)
Definition commit (before after : Table) (aborted : bool) : Table :=
  if aborted
  then {| rows := rows before; trainSeq := trainSeq after |}
  else after.

(** [s.padStart(3, '0')] *)
Definition padStart3 (s : string) : string :=
  match String.length s with
  | 0%nat => "000" ++ s
  | 1%nat => "00" ++ s
  | 2%nat => "0" ++ s
  | _ => s
  end.

Section Importing.
(** [toLowerCase], [trim] and [toUpperCase] of strings are the platform's;
    [today] is the date of the request, as [yyyymmdd]. *)
Variable toLowerCase : string -> string.
Variable trim : string -> string.
Variable toUpperCase : string -> string.
Variable today : string.

(** Lines 153-200. *)
Definition validateAndMapTrainType (type : string) : MapResult :=
  let normalizedType := trim (toLowerCase type) in
  match lookupKey normalizedType typeMapping with
  | Some t => Return t
  | None =>
      if existsb (String.eqb normalizedType) inheritedNames
      then ReturnInherited normalizedType
      else
        let partialMatches :=
          List.filter (fun kv => includes normalizedType (fst kv)
                                 || includes (fst kv) normalizedType) typeMapping in
        match partialMatches with
        | [kv] => Return (snd kv)
        | _ :: _ :: _ =>
            Throw ("Ambiguous train type '" ++ type ++ "'. Could match: "
                   ++ join ", " (List.map fst partialMatches))
        | [] =>
            Throw ("Unsupported train type: " ++ type ++ ". Valid types are: "
                   ++ join ", " (List.map fst typeMapping))
        end
  end.

(** Lines 206-211. *)
Definition generateTrainNumber (type : string) (index : nat) : string :=
  let timestamp := today in
  let sequence := padStart3 (pretty index) in
  let typePrefix := String.substring 0 3 (toUpperCase type) in
  typePrefix ++ timestamp ++ sequence.

Definition maxRetries : nat := 3.

(** The loop of lines 221-235, [remaining] being [maxRetries - retryCount]:
    the first number that is free, [None] when the attempts are used up. *)
Fixpoint freeTrainNumber (table : gmap Z TrainRow) (type : string)
  (remaining retryCount : nat) : option string :=
  match remaining with
  | O => None
  | S remaining' =>
      let trainNumber := generateTrainNumber type retryCount in
      if numberTaken table trainNumber
      then freeTrainNumber table type remaining' (S retryCount)
      else Some trainNumber
  end.

(** One turn of the loop of lines 203-264: the table, whether a statement
    of the transaction has failed, and the results so far; and the item at
    hand. An error is caught for the item, but once the database has refused
    a statement it refuses every further one of the transaction, the first
    being the select of the next train number. *)
Definition importOne
  (acc : Table * bool * list Imported * list (TrainTypeData * string))
  (trainType : TrainTypeData)
  : Table * bool * list Imported * list (TrainTypeData * string) :=
  let '(t, aborted, done, failures) := acc in
  match validateAndMapTrainType (type trainType) with
  | Throw message => (t, aborted, done, (failures ++ [(trainType, message)])%list)
  | ReturnInherited _ =>
      (t, aborted, done,
       (failures ++ [(trainType, "type.toUpperCase is not a function")])%list)
  | Return mapped =>
      if aborted then
        (t, true, done, (failures ++ [(trainType, Db.transactionAborted)])%list)
      else
        match freeTrainNumber (rows t) mapped maxRetries 0 with
        | None =>
            (t, false, done,
             (failures ++ [(trainType,
                            "Failed to generate unique train number after 3 attempts")])%list)
        | Some number =>
            let feats := match item_features trainType with Some f => f | None => [] end in
            let row := {| train := {| Db.trainNumber := number;
                                      Db.description := Some (description trainType);
                                      Db.type := mapped |};
                          maxSpeed := max_speed trainType;
                          priorityLevel := priority_level trainType;
                          features := feats |} in
            match insertTrain t row with
            | inl (t', newId) =>
                (t', false,
                 (done ++ [{| originalType := type trainType; mappedType := mapped;
                              trainNumber := number; trainId := newId;
                              imp_description := Some (description trainType);
                              imp_features := feats |}])%list,
                 failures)
            | inr e => (t, true, done, (failures ++ [(trainType, e)])%list)
            end
        end
  end.

(** The messages of the failures that the handler raises itself for an
    item; every other message is an error of the database. *)
Definition ownFailure (x : TrainTypeData) (m : string) : Prop :=
  m = "Failed to generate unique train number after 3 attempts"
  \/ m = "type.toUpperCase is not a function"
  \/ validateAndMapTrainType (type x) = Throw m.

(** The handler of [POST /api/trains/import-types], [userId] being
    [req.user?.id]. *)
Definition importTypes (t : Table) (userId : option Z) (body : Json) : Table * Response :=
  if negb (match userId with Some i => truthyNum i | None => false end)
  then (t, Unauthorized "Authentication required")
  else
    match safeParse (importSchema body) with
    | failure errs => (t, Invalid "Invalid train types data" errs)
    | success train_types =>
        let '(t', aborted, done, failures) :=
          fold_left importOne train_types (t, false, [], []) in
        (commit t t' aborted,
         Completed (length train_types) (length done) (length failures)
           done failures)
    end.
End Importing.

(** The messages of the errors of the database that the import can meet. *)
Definition isDatabaseError (m : string) : Prop :=
  m = Db.invalidByteSequence \/ m = Db.transactionAborted
  \/ m = Db.sequenceExhausted "trains" \/ exists n, m = Db.integerOutOfRange n.

(** No two trains have the same number (the [unique] of the column). *)
Definition numbersUnique (table : gmap Z TrainRow) : Prop :=
  forall i j a b, table !! i = Some a -> table !! j = Some b ->
                  Db.trainNumber (train a) = Db.trainNumber (train b) -> i = j.

Definition keysIssued (t : Table) : Prop :=
  forall k, is_Some (rows t !! k) -> k <= trainSeq t.

(** Every train reported as imported is stored under the reported id, with
    the reported number and a type of the schema. *)
Definition importedStored (t : Table) (done : list Imported) : Prop :=
  forall e, In e done ->
    In (mappedType e) TrainType
    /\ exists r, rows t !! trainId e = Some r
         /\ Db.trainNumber (train r) = trainNumber e
         /\ Db.type (train r) = mappedType e.

End TrainTypes.

(** ** server/routes.ts: POST /api/admin/clean-tables *)

Module CleanTables.
Import Js Zod ZodMore.

(** The tables the request can name. *)
Definition tableNames : list string := ["schedules"; "trains"; "locations"; "users"].

Record Store : Type := {
  db : Db.Database;
  users : gmap Z Auth.User
}.

(** The parsed body *)
Record CleanRequest : Type := {
  tables : list string;
  preserveAdmin : bool;
  preserveReferences : bool
}.

Inductive Response : Type :=
| Unauthorized (error : string)
| Cleaned (message : string) (cleanedTables : list string)
| Failed (error : string) (details : option string).

Definition tableSchema (body : Json) : ParseReturn CleanRequest :=
  match body with
  | JObj _ =>
      OK Build_CleanRequest
        <.> field "tables" (minItems 1 None (enum tableNames)) body
        <.> field "preserveAdmin" (default (JBool true) boolean) body
        <.> field "preserveReferences" (default (JBool true) boolean) body
  | _ => INVALID (issue invalid_type None)
  end.

(** [[...tables].sort(...)] with the comparator of lines 42-46, which puts
    [schedules] before every other name and leaves the other names in the
    order given (the sort is stable). *)
Definition sortedTables (tables : list string) : list string :=
  (List.filter (fun a => String.eqb a "schedules") tables
   ++ List.filter (fun a => negb (String.eqb a "schedules")) tables)%list.

(** A schedule references a row of [table] through the column [fk]. *)
Definition refers {V} (table : gmap Z V) (fk : option Z) : bool :=
  match fk with
  | Some k => bool_decide (is_Some (table !! k))
  | None => false
  end.

(** [trains] joined with [schedules] on the train id has a row. *)
Definition trainsInUse (d : Db.Database) : bool :=
  bool_decide (map_Exists (fun _ s => refers (Db.trains d) (Db.trainId s) = true)
                 (Db.schedules d)).

(** [locations] joined with [schedules] on the departure or the arrival
    location has a row. *)
Definition locationsInUse (d : Db.Database) : bool :=
  bool_decide (map_Exists
                 (fun _ s => refers (Db.locations d) (Db.departureLocationId s)
                             || refers (Db.locations d) (Db.arrivalLocationId s) = true)
                 (Db.schedules d)).

(** A row of [locations] is referenced by a schedule through one of the four
    columns that reference the table: deleting it is refused by the
    database. *)
Definition locationsReferenced (d : Db.Database) : bool :=
  bool_decide (map_Exists
                 (fun _ s => refers (Db.locations d) (Db.departureLocationId s)
                             || refers (Db.locations d) (Db.arrivalLocationId s)
                             || refers (Db.locations d) (Db.detachLocationId s)
                             || refers (Db.locations d) (Db.attachLocationId s) = true)
                 (Db.schedules d)).

Definition withSchedules (d : Db.Database) (s : gmap Z Db.ScheduleRow) : Db.Database :=
  {| Db.trains := Db.trains d; Db.locations := Db.locations d;
     Db.schedules := s; Db.scheduleSeq := Db.scheduleSeq d |}.

Definition withTrains (d : Db.Database) (t : gmap Z Db.Train) : Db.Database :=
  {| Db.trains := t; Db.locations := Db.locations d;
     Db.schedules := Db.schedules d; Db.scheduleSeq := Db.scheduleSeq d |}.

Definition withLocations (d : Db.Database) (l : gmap Z Db.Location) : Db.Database :=
  {| Db.trains := Db.trains d; Db.locations := l;
     Db.schedules := Db.schedules d; Db.scheduleSeq := Db.scheduleSeq d |}.

(** One turn of the loop of lines 49-101, inside the transaction: the store
    afterwards, or the message of the error thrown ([None] for an error of
    the database, whose text is its own). *)
Definition cleanOne (req : CleanRequest) (st : Store) (table : string)
  : Store + option string :=
  if String.eqb table "schedules" then
    inl {| db := withSchedules (db st) ∅; users := users st |}
  else if String.eqb table "trains" then
    if preserveReferences req && trainsInUse (db st)
    then inr (Some "Cannot clean trains table while preserving references")
    else if trainsInUse (db st) then inr None
    else inl {| db := withTrains (db st) ∅; users := users st |}
  else if String.eqb table "locations" then
    if preserveReferences req && locationsInUse (db st)
    then inr (Some "Cannot clean locations table while preserving references")
    else if locationsReferenced (db st) then inr None
    else inl {| db := withLocations (db st) ∅; users := users st |}
  else if String.eqb table "users" then
    if preserveAdmin req
    then inl {| db := db st;
                users := filter (fun kv => Auth.role kv.2 = Auth.Admin) (users st) |}
    else inl {| db := db st; users := ∅ |}
  else inl st.

(** The loop: the store and the tables cleaned so far, until an error is
    thrown. *)
Fixpoint cleanAll (req : CleanRequest) (todo : list string)
  (st : Store) (cleanedTables : list string) : Store * list string + option string :=
  match todo with
  | [] => inl (st, cleanedTables)
  | table :: rest =>
      match cleanOne req st table with
      | inl st' =>
          cleanAll req rest st'
            (if existsb (String.eqb table) tableNames
             then (cleanedTables ++ [table])%list else cleanedTables)
      | inr e => inr e
      end
  end.

(** The handler, [userId] being [req.user?.id]; an error thrown inside the
    transaction rolls it back. A body that fails the schema makes [parse]
    throw, which is answered like any other error. *)
Definition cleanTables (st : Store) (userId : option Z) (body : Json) : Store * Response :=
  if negb (match userId with Some i => truthyNum i | None => false end)
  then (st, Unauthorized "User not authenticated")
  else
    match safeParse (tableSchema body) with
    | failure _ => (st, Failed "Failed to clean tables" None)
    | success req =>
        match cleanAll req (sortedTables (tables req)) st [] with
        | inl (st', cleanedTables) =>
            (st', Cleaned ("Successfully cleaned tables: " ++ join ", " cleanedTables)
                    cleanedTables)
        | inr e => (st, Failed "Failed to clean tables" e)
        end
    end.

End CleanTables.

(** ** Further requests used in the examples *)

Module MoreFixtures.
Import Js Fixtures.

(** The FTR train with its whole attach triple, the attach time an hour
    before the departure. *)
Definition ftrAttachTooEarly : Json :=
  JObj (("trainId", JNum 2) :: ("attachLocationId", JNum 5)
        :: ("attachTrainNumber", JStr "12001")
        :: ("attachTime", JStr "2024-03-04T07:00:00.000Z") :: baseFields).

(** A schedule created as already running. *)
Definition createdRunning : Json :=
  JObj (("status", JStr "running") :: baseFields).

(** The express train asked to detach at location 3. *)
Definition expressDetach : Json :=
  JObj (("detachLocationId", JNum 3) :: baseFields).

(** The departure location 9 does not exist. *)
Definition unknownDeparture : Json :=
  JObj (("departureLocationId", JNum 9) :: baseFields).

(** [Date.parse] also reading the first instant of the year 10000, and a
    schedule that is effective until then. *)
Definition farDateParse : string -> option Z := fun s =>
  if String.eqb s "+010000-01-01T00:00:00.000Z" then Some 253402300800000
  else isoDateParse s.

Definition untilYear10000 : Json :=
  JObj (("effectiveEndDate", JStr "+010000-01-01T00:00:00.000Z") :: baseFields).

(** The train of the completed schedule reported as having left at a time
    that is no date. *)
Definition badDeparture : Socket.UpdateData :=
  {| Socket.id := 1; Socket.status := "running";
     Socket.actualDeparture := Val "yesterday"; Socket.actualArrival := Undefined;
     Socket.attachTrainNumber := Undefined; Socket.attachTime := Undefined;
     Socket.attachStatus := Undefined; Socket.detachLocationId := Undefined;
     Socket.detachTime := Undefined |}.

(** The same schedule restarted at 09:00, with an attach train number. *)
Definition restart : Socket.UpdateData :=
  {| Socket.id := 1; Socket.status := "running";
     Socket.actualDeparture := Val "2024-03-04T09:00:00.000Z";
     Socket.actualArrival := Null;
     Socket.attachTrainNumber := Val "12001"; Socket.attachTime := Undefined;
     Socket.attachStatus := Undefined; Socket.detachLocationId := Undefined;
     Socket.detachTime := Undefined |}.

(** A schedule with running days for Monday to Wednesday only (three
    entries). *)
Definition threeDays : Timeline.Schedule :=
  {| Timeline.id := 3; Timeline.trainId := Some 1; Timeline.train := None;
     Timeline.scheduledDeparture := mar04 + 8 * hour;
     Timeline.scheduledArrival := mar04 + 14 * hour;
     Timeline.status := "delayed"; Timeline.isCancelled := false;
     Timeline.runningDays := [true; true; true];
     Timeline.effectiveStartDate := mar01;
     Timeline.effectiveEndDate := None |}.

(** A schedule that runs on Sundays only. *)
Definition sundayOnly : Timeline.Schedule :=
  {| Timeline.id := 4; Timeline.trainId := Some 1; Timeline.train := None;
     Timeline.scheduledDeparture := mar04 + 8 * hour;
     Timeline.scheduledArrival := mar04 + 14 * hour;
     Timeline.status := "scheduled"; Timeline.isCancelled := false;
     Timeline.runningDays := [false; false; false; false; false; false; true];
     Timeline.effectiveStartDate := mar01;
     Timeline.effectiveEndDate := None |}.

End MoreFixtures.

(** ** Users and locations used in the examples *)

Module AdminFixtures.
Import Js.

Definition root : Auth.User :=
  {| Auth.username := "root"; Auth.password := "5f4dcc.a1"; Auth.role := Auth.Admin |}.
Definition olga : Auth.User :=
  {| Auth.username := "olga"; Auth.password := "9b1e07.c3"; Auth.role := Auth.Operator |}.

Definition users0 : Auth.Users :=
  {| Auth.users := <[1 := root]> (<[2 := olga]> ∅); Auth.userSeq := 2 |}.

(** A stand-in for the hash of the examples. *)
Definition hashed : string -> string := fun p => "scrypt(" ++ p ++ ")".

(** A registration asking for the admin role. *)
Definition wantsAdmin : Auth.RegisterData :=
  {| Auth.reg_username := "mallory"; Auth.reg_password := "secret";
     Auth.reg_role := Val "admin" |}.

(** The locations of [Fixtures.db0], five rows handed out so far. *)
Definition locations0 : Locations.Table :=
  {| Locations.rows := Db.locations Fixtures.db0; Locations.locationSeq := 5 |}.

Definition zeta : Json := JObj [("name", JStr "Zeta"); ("code", JStr "zet")].

(** Three locations: a new one, the same code again, and the code of
    location 1 in lower case. *)
Definition batch : Json :=
  JArr [zeta;
        JObj [("name", JStr "Zeta Yard"); ("code", JStr "ZET")];
        JObj [("name", JStr "Alpha South"); ("code", JStr "alp")]].

(** A location whose name has a NUL character, and a file with a new
    location followed by it. *)
Definition nulName : Json :=
  JObj [("name", JStr (String "000"%char "Yard")); ("code", JStr "nul")].

Definition batchWithNul : Json := JArr [zeta; nulName].

End AdminFixtures.

(** ** Trains used in the examples *)

Module TrainFixtures.
Import Js.

(** Lower-casing and trimming of the examples: their type names are lower
    case already and have no blanks. *)
Definition keep : string -> string := fun s => s.

Definition imported (number : string) : TrainTypes.TrainRow :=
  {| TrainTypes.train := {| Db.trainNumber := number; Db.description := Some "Express";
                            Db.type := "express" |};
     TrainTypes.maxSpeed := None; TrainTypes.priorityLevel := None;
     TrainTypes.features := [] |}.

(** Two express trains were imported on 2024-03-04. *)
Definition trains2 : TrainTypes.Table :=
  {| TrainTypes.rows := <[1 := imported "EXP20240304000"]>
                          (<[2 := imported "EXP20240304001"]> ∅);
     TrainTypes.trainSeq := 2 |}.

(** And a third. *)
Definition trains3 : TrainTypes.Table :=
  {| TrainTypes.rows := <[3 := imported "EXP20240304002"]> (TrainTypes.rows trains2);
     TrainTypes.trainSeq := 3 |}.

Definition expressItem : Json :=
  JObj [("type", JStr "express"); ("description", JStr "Express")].

(** Two express trains and a freight train. *)
Definition typesBody : Json :=
  JObj [("train_types",
         JArr [expressItem; expressItem;
               JObj [("type", JStr "freight"); ("description", JStr "Freight");
                     ("max_speed", JNum 80)]])].

(** A freight train, and an express train with a maximum speed beyond the
    32-bit integers. *)
Definition tooFast : Json :=
  JObj [("train_types",
         JArr [JObj [("type", JStr "freight"); ("description", JStr "Freight")];
               JObj [("type", JStr "express"); ("description", JStr "Express");
                     ("max_speed", JNum 3000000000)]])].

End TrainFixtures.

(** ** Stores and cleaning requests used in the examples *)

Module CleanFixtures.
Import Js.

(** One completed schedule of train 1 from location 1 to location 2, and the
    two users. *)
Definition store1 : CleanTables.Store :=
  {| CleanTables.db := Fixtures.db1;
     CleanTables.users := Auth.users AdminFixtures.users0 |}.

Definition trainsAndSchedules : Json :=
  JObj [("tables", JArr [JStr "trains"; JStr "schedules"])].

Definition trainsRegardless : Json :=
  JObj [("tables", JArr [JStr "users"; JStr "trains"]);
        ("preserveReferences", JBool false)].

Definition usersOnly : Json :=
  JObj [("tables", JArr [JStr "users"])].

End CleanFixtures.

(** * Properties *)

(** ** The Recurrence Evaluator (TimelineView) *)

Section TimelineFacts.
Import Timeline.
Variable off : Z.

Lemma isActiveOn_unfold (s : Schedule) (d : Z) :
  isActiveOn off s d =
    negb (d <? effectiveStartDate s)
    && negb (match effectiveEndDate s with Some e => e <? d | None => false end)
    && Js.truthyOpt (runningDays s !! Z.to_nat (dayOfWeek off d)).
Proof.
  unfold isActiveOn, scheduleEvents.
  destruct (d <? effectiveStartDate s); simpl; [reflexivity|].
  destruct (match effectiveEndDate s with Some e => e <? d | None => false end);
    simpl; [reflexivity|].
  destruct (Js.truthyOpt _); reflexivity.
Qed.

Lemma localDay_mono (a b : Z) : a <= b -> localDay off a <= localDay off b.
Proof.
  intros Hab. unfold localDay, msPerDay.
  apply Z.div_le_mono; lia.
Qed.

Lemma localDay_lt_inv (a b : Z) : localDay off a < localDay off b -> a < b.
Proof.
  intros Hlt. destruct (Z_lt_le_dec a b) as [|Hge]; [assumption|].
  apply localDay_mono in Hge. lia.
Qed.

Lemma getDay_range (t : Z) : 0 <= getDay off t < 7.
Proof. unfold getDay. apply Z.mod_pos_bound. lia. Qed.

Lemma dayOfWeek_range (t : Z) : 0 <= dayOfWeek off t < 7.
Proof. unfold dayOfWeek. apply Z.mod_pos_bound. lia. Qed.

(** Monday (platform day 1) is index 0, ..., Sunday (platform day 0) is
    index 6. *)
Lemma dayOfWeek_convention (t : Z) :
  getDay off t = (dayOfWeek off t + 1) mod 7.
Proof.
  unfold dayOfWeek. pose proof (getDay_range t) as Hr.
  assert (Hcases : getDay off t = 0 \/ getDay off t = 1 \/ getDay off t = 2 \/
                   getDay off t = 3 \/ getDay off t = 4 \/ getDay off t = 5 \/
                   getDay off t = 6) by lia.
  destruct Hcases as [H|[H|[H|[H|[H|[H|H]]]]]]; rewrite H; reflexivity.
Qed.

End TimelineFacts.

(** The examples of the specification, in UTC: the Monday-only schedule runs
    on Monday 2024-03-04 and not on Tuesday 2024-03-05. *)
Example mondayOnly_active_on_monday :
  Timeline.getDay 0 Fixtures.mar04 = 1
  /\ Timeline.dayOfWeek 0 Fixtures.mar04 = 0
  /\ Timeline.isActiveOn 0 (Fixtures.mondayOnly false) Fixtures.mar04 = true.
Proof. vm_compute. repeat split; reflexivity. Qed.

Example mondayOnly_inactive_on_tuesday :
  Timeline.dayOfWeek 0 (Fixtures.mar04 + 24 * Fixtures.hour) = 1
  /\ Timeline.isActiveOn 0 (Fixtures.mondayOnly false)
       (Fixtures.mar04 + 24 * Fixtures.hour) = false.
Proof. vm_compute. split; reflexivity. Qed.

(** Sunday, platform day 0, is index 6. *)
Example sunday_is_index_6 :
  Timeline.getDay 0 Fixtures.mar10 = 0 /\ Timeline.dayOfWeek 0 Fixtures.mar10 = 6.
Proof. vm_compute. split; reflexivity. Qed.

(** C4. [isActiveOn] is false on every target date whose calendar day is
    before the day of [effectiveStartDate] and, when [effectiveEndDate] is
    present, on every target date whose calendar day is after its day: the
    bounds are taken by day, time of day left aside. (The filter compares the
    instants themselves; an earlier day is an earlier instant.) *)
Theorem isActiveOn_false_outside_window
  (off : Z) (s : Timeline.Schedule) (d : Z)
  (Hout : Timeline.localDay off d < Timeline.localDay off (Timeline.effectiveStartDate s)
          \/ exists e, Timeline.effectiveEndDate s = Some e
                       /\ Timeline.localDay off e < Timeline.localDay off d) :
  Timeline.isActiveOn off s d = false.
Proof.
  rewrite isActiveOn_unfold.
  destruct Hout as [Hbefore | (e & He & Hafter)].
  - apply localDay_lt_inv in Hbefore.
    apply Z.ltb_lt in Hbefore. rewrite Hbefore. reflexivity.
  - apply localDay_lt_inv in Hafter.
    apply Z.ltb_lt in Hafter. rewrite He, Hafter.
    destruct (d <? _); reflexivity.
Qed.

Lemma isActiveOn_false_outside_window_witness :
  (Timeline.localDay 0 (Fixtures.mar10 + 24 * Fixtures.hour + 5)
     < Timeline.localDay 0 (Timeline.effectiveStartDate Fixtures.dailyUntilMar10)
   \/ exists e, Timeline.effectiveEndDate Fixtures.dailyUntilMar10 = Some e
                /\ Timeline.localDay 0 e
                   < Timeline.localDay 0 (Fixtures.mar10 + 24 * Fixtures.hour + 5))
  /\ Timeline.isActiveOn 0 Fixtures.dailyUntilMar10
       (Fixtures.mar10 + 24 * Fixtures.hour + 5) = false.
Proof.
  assert (Hout :
    Timeline.localDay 0 (Fixtures.mar10 + 24 * Fixtures.hour + 5)
      < Timeline.localDay 0 (Timeline.effectiveStartDate Fixtures.dailyUntilMar10)
    \/ exists e, Timeline.effectiveEndDate Fixtures.dailyUntilMar10 = Some e
                 /\ Timeline.localDay 0 e
                    < Timeline.localDay 0 (Fixtures.mar10 + 24 * Fixtures.hour + 5)).
  { right. exists Fixtures.mar10. split; [reflexivity | vm_compute; reflexivity]. }
  split; [exact Hout |].
  exact (isActiveOn_false_outside_window 0 Fixtures.dailyUntilMar10 _ Hout).
Defined.

(** C3, as stated, fails: on the last effective day of a daily schedule
    (2024-03-10, a Sunday), at 10:00, the target lies within the window taken
    by day and the schedule is not cancelled, yet [isActiveOn] is false while
    [runningDays[dayOfWeek]] is true. *)
Lemma isActiveOn_not_runningDays_within_day_window :
  Timeline.withinWindowByDay 0 Fixtures.dailyUntilMar10
    (Fixtures.mar10 + 10 * Fixtures.hour) = true
  /\ Timeline.isCancelled Fixtures.dailyUntilMar10 = false
  /\ Timeline.dayOfWeek 0 (Fixtures.mar10 + 10 * Fixtures.hour) = 6
  /\ Js.truthyOpt (Timeline.runningDays Fixtures.dailyUntilMar10
                     !! Z.to_nat (Timeline.dayOfWeek 0 (Fixtures.mar10 + 10 * Fixtures.hour)))
     = true
  /\ Timeline.isActiveOn 0 Fixtures.dailyUntilMar10
       (Fixtures.mar10 + 10 * Fixtures.hour) = false.
Proof. vm_compute. repeat split; reflexivity. Qed.

(** C3, amended. For every schedule that is not cancelled and every target
    instant [d] with [effectiveStartDate <= d] and, when [effectiveEndDate]
    is present, [d <= effectiveEndDate] (instants compared, time of day
    included), [isActiveOn] equals [runningDays[dayOfWeek d]], an absent entry
    counting as false; [dayOfWeek d] is [(getDay d + 6) mod 7], so Monday is 0
    and Sunday is 6. *)
Theorem isActiveOn_runningDays_within_window
  (off : Z) (s : Timeline.Schedule) (d : Z)
  (Hnot_cancelled : Timeline.isCancelled s = false)
  (Hstart : Timeline.effectiveStartDate s <= d)
  (Hend : forall e, Timeline.effectiveEndDate s = Some e -> d <= e) :
  Timeline.isActiveOn off s d
    = Js.truthyOpt (Timeline.runningDays s !! Z.to_nat (Timeline.dayOfWeek off d))
  /\ Timeline.dayOfWeek off d = (Timeline.getDay off d + 6) mod 7
  /\ 0 <= Timeline.dayOfWeek off d < 7
  /\ Timeline.getDay off d = (Timeline.dayOfWeek off d + 1) mod 7.
Proof.
  split; [| split; [reflexivity | split;
                     [apply dayOfWeek_range | apply dayOfWeek_convention]]].
  rewrite isActiveOn_unfold.
  apply Z.ltb_ge in Hstart. rewrite Hstart.
  destruct (Timeline.effectiveEndDate s) as [e|] eqn:He; simpl.
  - specialize (Hend e eq_refl). apply Z.ltb_ge in Hend. rewrite Hend. reflexivity.
  - reflexivity.
Qed.

Lemma isActiveOn_runningDays_within_window_witness :
  Timeline.isActiveOn 0 Fixtures.dailyUntilMar10 (Fixtures.mar04 + 9 * Fixtures.hour)
    = Js.truthyOpt (Timeline.runningDays Fixtures.dailyUntilMar10
                      !! Z.to_nat (Timeline.dayOfWeek 0 (Fixtures.mar04 + 9 * Fixtures.hour)))
  /\ Timeline.dayOfWeek 0 (Fixtures.mar04 + 9 * Fixtures.hour) = 0.
Proof.
  split.
  - apply (isActiveOn_runningDays_within_window 0 Fixtures.dailyUntilMar10
             (Fixtures.mar04 + 9 * Fixtures.hour)).
    + reflexivity.
    + vm_compute. discriminate.
    + intros e [= <-]. vm_compute. discriminate.
  - vm_compute. reflexivity.
Defined.

(** C1, as stated, fails: the schedule of the specification's example,
    cancelled, is still active on Monday 2024-03-04. *)
Lemma isActiveOn_cancelled_still_active :
  Timeline.isCancelled (Fixtures.mondayOnly true) = true
  /\ Timeline.isActiveOn 0 (Fixtures.mondayOnly true) Fixtures.mar04 = true.
Proof. vm_compute. split; reflexivity. Qed.

(** C1, amended. For a schedule with [isCancelled = true], [isActiveOn] does
    not look at the flag: it returns what it returns for the same schedule
    with the flag cleared. The event of a cancelled schedule is kept, carries
    the flag and is drawn in the colour of cancellation. *)
Theorem isActiveOn_ignores_isCancelled
  (off : Z) (s : Timeline.Schedule) (d : Z)
  (Hcancelled : Timeline.isCancelled s = true) :
  Timeline.isActiveOn off s d = Timeline.isActiveOn off (Timeline.setCancelled false s) d
  /\ forall e, In e (Timeline.scheduleEvents off d s) ->
       Timeline.ev_isCancelled e = true /\ Timeline.eventStyleGetter e = "#ef4444".
Proof.
  split.
  - rewrite !isActiveOn_unfold. reflexivity.
  - unfold Timeline.scheduleEvents. intros e He.
    destruct (_ || _ || _); simpl in He; [contradiction|].
    destruct He as [<- | []]. unfold Timeline.eventStyleGetter. simpl.
    rewrite Hcancelled, orb_true_r. split; reflexivity.
Qed.

Lemma isActiveOn_ignores_isCancelled_witness :
  Timeline.isActiveOn 0 (Fixtures.mondayOnly true) Fixtures.mar04
    = Timeline.isActiveOn 0 (Timeline.setCancelled false (Fixtures.mondayOnly true))
        Fixtures.mar04
  /\ forall e, In e (Timeline.scheduleEvents 0 Fixtures.mar04 (Fixtures.mondayOnly true)) ->
       Timeline.ev_isCancelled e = true /\ Timeline.eventStyleGetter e = "#ef4444".
Proof.
  apply (isActiveOn_ignores_isCancelled 0 (Fixtures.mondayOnly true) Fixtures.mar04).
  reflexivity.
Defined.

(** ** The Validator (POST /api/schedules) *)

Section ParseFacts.
Import Js Zod.

Lemma apP_value {A B} (f : ParseReturn (A -> B)) (x : ParseReturn A) (b : B) :
  value (f <.> x) = Some b ->
  exists g a, value f = Some g /\ value x = Some a /\ b = g a.
Proof.
  unfold apP; simpl.
  destruct (value f) as [g|], (value x) as [a|]; try discriminate.
  intros [= <-]. eauto.
Qed.

Lemma apP_issues_nil {A B} (f : ParseReturn (A -> B)) (x : ParseReturn A) :
  issues (f <.> x) = [] -> issues f = [] /\ issues x = [].
Proof. unfold apP; simpl. apply app_eq_nil. Qed.

Lemma refine_value {A} (check : A -> bool) msg at_ (r : ParseReturn A) :
  value (refine check msg at_ r) = value r.
Proof.
  unfold refine. destruct (value r) as [a|] eqn:Hv; [|exact Hv].
  destruct (check a); [exact Hv | reflexivity].
Qed.

Lemma refine_issues_nil {A} (check : A -> bool) msg at_ (r : ParseReturn A) :
  issues (refine check msg at_ r) = [] -> issues r = [].
Proof.
  unfold refine. destruct (value r) as [a|]; [|tauto].
  destruct (check a); [tauto|]. simpl. intros H.
  apply app_eq_nil in H. destruct H as [_ H]. discriminate H.
Qed.

Lemma safeParse_success {A} (r : ParseReturn A) (a : A) :
  safeParse r = success a -> value r = Some a /\ issues r = [].
Proof.
  unfold safeParse. destruct (value r) as [x|]; [|discriminate].
  destruct (issues r); [|discriminate]. intros [= <-]. split; reflexivity.
Qed.

Lemma addPath_issues_nil {A} seg (r : ParseReturn A) :
  issues (addPath seg r) = [] -> issues r = [].
Proof. unfold addPath; simpl. destruct (issues r); [reflexivity | discriminate]. Qed.

(** A required id that passed: a number of the body, at least 1. *)
Lemma field_min_number k bound msg body n :
  value (field k (min bound msg number) body) = Some n ->
  issues (field k (min bound msg number) body) = [] ->
  prop k body = Some (JNum n) /\ bound <= n.
Proof.
  unfold field. intros Hv Hi. apply addPath_issues_nil in Hi.
  simpl in Hv. unfold min, number in *.
  destruct (prop k body) as [[| | m | | |]|]; simpl in *; try discriminate.
  destruct (m <? bound) eqn:Hlt; simpl in *; [discriminate|].
  injection Hv as ->. apply Z.ltb_ge in Hlt. split; [reflexivity | exact Hlt].
Qed.

Variable Date_parse : string -> option Z.
Variable ToString : Json -> string.

(** The parsed object holds, key by key, what the parser of the key
    returned. *)
Lemma scheduleObject_fields body data :
  value (Routes.scheduleObject Date_parse ToString body) = Some data ->
  value (field "departureLocationId"
           (min 1 "Departure location is required" number) body)
    = Some (Routes.departureLocationId data)
  /\ value (field "arrivalLocationId"
           (min 1 "Arrival location is required" number) body)
    = Some (Routes.arrivalLocationId data)
  /\ value (field "runningDays"
              (default Routes.sevenTrue (array (Some 7%nat) boolean)) body)
    = Some (Routes.runningDays data).
Proof.
  unfold Routes.scheduleObject. destruct body; try discriminate.
  intros H.
  repeat match type of H with
  | value (_ <.> _) = Some _ =>
      let g := fresh "g" in let a := fresh "a" in let Ha := fresh "Ha" in
      apply apP_value in H; destruct H as (g & a & H & Ha & ->)
  end.
  injection H as <-. simpl. auto.
Qed.

Lemma scheduleObject_issues body :
  issues (Routes.scheduleObject Date_parse ToString body) = [] ->
  issues (field "departureLocationId"
            (min 1 "Departure location is required" number) body) = []
  /\ issues (field "arrivalLocationId"
            (min 1 "Arrival location is required" number) body) = [].
Proof.
  unfold Routes.scheduleObject. destruct body; try discriminate.
  intros H.
  repeat match type of H with
  | issues (_ <.> _) = [] =>
      let Hx := fresh "Hx" in
      apply apP_issues_nil in H; destruct H as [H Hx]
  end.
  auto.
Qed.

Lemma scheduleSchema_success body data :
  safeParse (Routes.scheduleSchema Date_parse ToString body) = success data ->
  value (Routes.scheduleObject Date_parse ToString body) = Some data
  /\ issues (Routes.scheduleObject Date_parse ToString body) = [].
Proof.
  intros H. apply safeParse_success in H. destruct H as [Hv Hi].
  unfold Routes.scheduleSchema in *.
  rewrite !refine_value in Hv.
  apply refine_issues_nil in Hi. apply refine_issues_nil in Hi.
  split; assumption.
Qed.

End ParseFacts.

Section HandlerFacts.
Import Js Zod.
Variable Date_parse : string -> option Z.
Variable ToString : Json -> string.

Lemma checkAttach_not_success db d r :
  Routes.checkAttach db d = Some r -> Routes.isSuccess r = false.
Proof.
  unfold Routes.checkAttach.
  repeat match goal with |- context [if ?c then _ else _] => destruct c end;
    intros [= <-] || discriminate; reflexivity.
Qed.

Lemma checkDetach_not_success db d r :
  Routes.checkDetach db d = Some r -> Routes.isSuccess r = false.
Proof.
  unfold Routes.checkDetach.
  repeat match goal with |- context [if ?c then _ else _] => destruct c end;
    intros [= <-] || discriminate; reflexivity.
Qed.

Lemma checkSpecialOperations_not_success db train d r :
  Routes.checkSpecialOperations db train d = Some r -> Routes.isSuccess r = false.
Proof.
  unfold Routes.checkSpecialOperations.
  destruct (Routes.isSpecial train).
  - destruct (Routes.checkAttach db d) as [r'|] eqn:Ha.
    + intros [= <-]. eapply checkAttach_not_success; eassumption.
    + apply checkDetach_not_success.
  - destruct (_ || _ || _); [intros [= <-]; reflexivity | discriminate].
Qed.

Lemma insertSchedule_inv db values db' row :
  Db.insertSchedule db values = (db', Some row) ->
  row = Db.withId (Db.scheduleSeq db + 1) values
  /\ Db.constraints_ok db row = true
  /\ Db.schedules db' !! Db.id row = Some row.
Proof.
  unfold Db.insertSchedule.
  destruct (_ || _); [discriminate|].
  destruct (Db.constraints_ok db _) eqn:Hc; [|discriminate].
  intros [= <- <-]. split; [reflexivity|]. split; [exact Hc|].
  simpl. apply lookup_insert_eq.
Qed.

Lemma selectById_found {V} (table : gmap Z V) id v :
  Db.selectById table id = Some (Some v) <-> table !! id = Some v.
Proof.
  unfold Db.selectById. destruct (table !! id) as [x|].
  - split; intros [= <-]; reflexivity.
  - destruct (Db.int4 id); split; discriminate.
Qed.

(** What an accepted request went through. *)
Lemma postSchedule_success_inv db body db' row train :
  Routes.postSchedule Date_parse ToString db body = (db', Routes.Success row train) ->
  exists data,
    safeParse (Routes.scheduleSchema Date_parse ToString body) = success data
    /\ Db.trains db !! Routes.trainId data = Some train
    /\ Routes.checkSpecialOperations db train data = None
    /\ Db.insertSchedule db (Routes.scheduleData data) = (db', Some row).
Proof.
  unfold Routes.postSchedule.
  destruct (safeParse _) as [data|errs] eqn:Hp; [|discriminate].
  destruct (Db.selectById (Db.trains db) (Routes.trainId data)) as [[t|]|] eqn:Ht;
    [|discriminate..].
  apply selectById_found in Ht.
  destruct (Routes.checkSpecialOperations db t data) as [r|] eqn:Hc.
  - intros [= <- ->]. apply checkSpecialOperations_not_success in Hc. discriminate Hc.
  - destruct (Db.insertSchedule db _) as [db2 [row2|]] eqn:Hi; [|discriminate].
    intros [= <- <- <-]. exists data. auto.
Qed.

Lemma references_Some {V} (table : gmap Z V) k :
  Db.references table (Some k) = true -> is_Some (table !! k).
Proof. unfold Db.references. apply bool_decide_eq_true_1. Qed.

End HandlerFacts.

(** The schema at work: a body without [trainId], and one whose
    [runningDays] has six entries, are answered 400 with the issue at the
    key; a train that does not exist is answered 404. *)
Example postSchedule_requires_trainId :
  Routes.postSchedule Fixtures.isoDateParse Fixtures.noToString Fixtures.db0
    (Js.JObj (tail Fixtures.baseFields))
  = (Fixtures.db0,
     Routes.BadRequest "Invalid schedule data"
       [{| Zod.code := Zod.invalid_type; Zod.path := [Zod.Key "trainId"];
           Zod.message := None |}]).
Proof. vm_compute. reflexivity. Qed.

Example postSchedule_six_runningDays :
  snd (Routes.postSchedule Fixtures.isoDateParse Fixtures.noToString Fixtures.db0
         (Js.JObj (("runningDays", Js.JArr (replicate 6 (Js.JBool true)))
                   :: Fixtures.baseFields)))
  = Routes.BadRequest "Invalid schedule data"
      [{| Zod.code := Zod.too_small; Zod.path := [Zod.Key "runningDays"];
          Zod.message := None |}].
Proof. vm_compute. reflexivity. Qed.

Example postSchedule_unknown_train :
  snd (Routes.postSchedule Fixtures.isoDateParse Fixtures.noToString Fixtures.db0
         (Js.JObj (("trainId", Js.JNum 9) :: Fixtures.baseFields)))
  = Routes.ErrorMessage 404 "Train not found" "The specified train does not exist".
Proof. vm_compute. reflexivity. Qed.

(** C2, at the failing input: the express train leaving at 08:00 and arriving
    at 07:00 of the same day passes the schema and the gate and is stored. *)
Theorem postSchedule_stores_arrival_before_departure :
  exists db' row train,
    Routes.postSchedule Fixtures.isoDateParse Fixtures.noToString
      Fixtures.db0 Fixtures.arrivalBeforeDeparture = (db', Routes.Success row train)
    /\ Db.scheduledArrival row < Db.scheduledDeparture row
    /\ Db.schedules db' !! Db.id row = Some row.
Proof.
  do 3 eexists. split; [vm_compute; reflexivity|].
  split; vm_compute; reflexivity.
Qed.

(** The import dialog, for its part, refuses such a schedule. *)
Lemma import_refuses_arrival_not_after_departure
  (departure arrival startDate : Z) (endDate : option Z) :
  arrival <= departure ->
  ImportSchedules.dateRelationshipError departure arrival startDate endDate
    = Some "Arrival time must be after departure time".
Proof.
  intros Hle. unfold ImportSchedules.dateRelationshipError.
  apply Z.leb_le in Hle. rewrite Hle. reflexivity.
Qed.

(** C5, at the failing input: the express train (neither SALOON nor FTR) with
    an attach time and a detach time is accepted and stored with both. *)
Theorem postSchedule_stores_times_of_express_train :
  exists db' row train,
    Routes.postSchedule Fixtures.isoDateParse Fixtures.noToString
      Fixtures.db0 Fixtures.expressWithTimes = (db', Routes.Success row train)
    /\ Routes.isSpecial train = false
    /\ Db.attachTime row = Some (Fixtures.mar04 + 9 * Fixtures.hour)
    /\ Db.detachTime row = Some (Fixtures.mar04 + 10 * Fixtures.hour)
    /\ Db.schedules db' !! Db.id row = Some row.
Proof.
  do 3 eexists. split; [vm_compute; reflexivity|].
  repeat split; vm_compute; reflexivity.
Qed.

(** The gate of the other train types looks at three of the five fields. *)
Lemma gate_ignores_times db train d :
  Routes.isSpecial train = false ->
  Js.truthy Js.truthyNum (Routes.attachLocationId d) = false ->
  Js.truthy Js.truthyNum (Routes.detachLocationId d) = false ->
  Js.truthy Js.truthyStr (Routes.attachTrainNumber d) = false ->
  Routes.checkSpecialOperations db train d = None.
Proof.
  intros Hs Ha Hd Hn. unfold Routes.checkSpecialOperations.
  rewrite Hs, Ha, Hd, Hn. reflexivity.
Qed.

(** A body that fails the schema is answered 400 and nothing is stored. *)
Lemma postSchedule_rejects_invalid_body
  (Date_parse : string -> option Z) (ToString : Js.Json -> string)
  (db : Db.Database) (body : Js.Json) (errs : list Zod.ZodIssue) :
  Zod.safeParse (Routes.scheduleSchema Date_parse ToString body) = Zod.failure errs ->
  Routes.postSchedule Date_parse ToString db body
  = (db, Routes.BadRequest "Invalid schedule data" errs).
Proof. intros Hparse. unfold Routes.postSchedule. rewrite Hparse. reflexivity. Qed.

(** C6. A candidate of a SALOON or FTR train in which some but not all of
    [attachLocationId], [attachTrainNumber], [attachTime] are present (a
    non-zero id, a non-empty string, a date), or one but not both of
    [detachLocationId], [detachTime], is rejected and nothing is stored; with
    a partial attach triple the answer is the 400 response whose message
    names location, train number and time as required. (A candidate that
    fails the schema, or whose train does not exist, is answered before the
    gate and rejected as well.) *)
Theorem partial_attach_or_detach_rejected
  (Date_parse : string -> option Z) (ToString : Js.Json -> string)
  (db : Db.Database) (body : Js.Json) (data : Routes.ScheduleData) (train : Db.Train)
  (Hparse : Zod.safeParse (Routes.scheduleSchema Date_parse ToString body)
            = Zod.success data)
  (Htrain : Db.trains db !! Routes.trainId data = Some train)
  (Hspecial : Routes.isSpecial train = true)
  (Hpartial : (Routes.attachAny data && negb (Routes.attachAll data))
              || (Routes.detachAny data && negb (Routes.detachAll data)) = true) :
  exists r,
    Routes.postSchedule Date_parse ToString db body = (db, r)
    /\ Routes.isSuccess r = false
    /\ (Routes.attachAny data && negb (Routes.attachAll data) = true ->
        r = Routes.ErrorMessage 400 "Invalid attach configuration"
              "When specifying attach operations, all fields (location, train number, and time) are required").
Proof.
  apply selectById_found in Htrain.
  unfold Routes.postSchedule. rewrite Hparse, Htrain.
  unfold Routes.checkSpecialOperations. rewrite Hspecial.
  unfold Routes.checkAttach.
  destruct (Routes.attachAny data) eqn:Hany; simpl in Hpartial |- *.
  - destruct (Routes.attachAll data) eqn:Hall; simpl in Hpartial |- *.
    + destruct (Routes.locationExists db (Routes.attachLocationId data)); simpl.
      * unfold Routes.checkDetach.
        apply andb_true_iff in Hpartial. destruct Hpartial as [Hd1 Hd2].
        rewrite Hd1, Hd2. eexists. repeat split. discriminate.
      * eexists. split; [reflexivity|]. split; [|discriminate].
        destruct (Routes.selectable _); reflexivity.
    + eexists. repeat split.
  - unfold Routes.checkDetach.
    apply andb_true_iff in Hpartial. destruct Hpartial as [Hd1 Hd2].
    rewrite Hd1, Hd2. eexists. repeat split. discriminate.
Qed.

Lemma partial_attach_or_detach_rejected_witness :
  Routes.postSchedule Fixtures.isoDateParse Fixtures.noToString
    Fixtures.db0 Fixtures.ftrPartialAttach
  = (Fixtures.db0,
     Routes.ErrorMessage 400 "Invalid attach configuration"
       "When specifying attach operations, all fields (location, train number, and time) are required").
Proof.
  destruct (Zod.safeParse (Routes.scheduleSchema Fixtures.isoDateParse Fixtures.noToString
                             Fixtures.ftrPartialAttach)) as [data|errs] eqn:Hparse;
    [| vm_compute in Hparse; discriminate Hparse].
  assert (Hdata :
    Routes.trainId data = 2
    /\ Routes.attachAny data = true /\ Routes.attachAll data = false).
  { vm_compute in Hparse. injection Hparse as <-. vm_compute. auto. }
  destruct Hdata as (Hid & Hany & Hall).
  destruct (partial_attach_or_detach_rejected Fixtures.isoDateParse Fixtures.noToString
              Fixtures.db0 Fixtures.ftrPartialAttach data Fixtures.ftr2 Hparse)
    as (r & Hpost & _ & Hr).
  - rewrite Hid. vm_compute. reflexivity.
  - reflexivity.
  - rewrite Hany, Hall. reflexivity.
  - rewrite Hpost, Hr; [reflexivity|]. rewrite Hany, Hall. reflexivity.
Defined.

(** C8, as stated, fails: a candidate that departs from and arrives at
    location 1 is accepted and stored. *)
Lemma postSchedule_accepts_same_location :
  exists db' row train,
    Routes.postSchedule Fixtures.isoDateParse Fixtures.noToString
      Fixtures.db0 Fixtures.sameLocation = (db', Routes.Success row train)
    /\ Db.departureLocationId row = Db.arrivalLocationId row
    /\ Db.schedules db' !! Db.id row = Some row.
Proof.
  do 3 eexists. split; [vm_compute; reflexivity|].
  split; vm_compute; reflexivity.
Qed.

(** C8, amended. In every accepted candidate [departureLocationId] and
    [arrivalLocationId] are both given, each a number of at least 1 that
    references an existing location; the two are not compared. *)
Theorem accepted_locations_required
  (Date_parse : string -> option Z) (ToString : Js.Json -> string)
  (db db' : Db.Database) (body : Js.Json) (row : Db.ScheduleRow) (train : Db.Train)
  (Haccepted : Routes.postSchedule Date_parse ToString db body
               = (db', Routes.Success row train)) :
  exists dep arr,
    Js.prop "departureLocationId" body = Some (Js.JNum dep) /\ 1 <= dep
    /\ Js.prop "arrivalLocationId" body = Some (Js.JNum arr) /\ 1 <= arr
    /\ is_Some (Db.locations db !! dep) /\ is_Some (Db.locations db !! arr)
    /\ Db.departureLocationId row = Some dep /\ Db.arrivalLocationId row = Some arr.
Proof.
  apply postSchedule_success_inv in Haccepted.
  destruct Haccepted as (data & Hparse & _ & _ & Hins).
  apply scheduleSchema_success in Hparse. destruct Hparse as [Hv Hi].
  apply scheduleObject_fields in Hv. destruct Hv as (Hdep & Harr & _).
  apply scheduleObject_issues in Hi. destruct Hi as [Hidep Hiarr].
  destruct (field_min_number _ _ _ _ _ Hdep Hidep) as [Hpd Hd1].
  destruct (field_min_number _ _ _ _ _ Harr Hiarr) as [Hpa Ha1].
  apply insertSchedule_inv in Hins. destruct Hins as (Hrow & Hc & _).
  exists (Routes.departureLocationId data), (Routes.arrivalLocationId data).
  unfold Db.constraints_ok in Hc. rewrite !andb_true_iff in Hc.
  destruct Hc as ((((((_ & Hfd) & Hfa) & _) & _) & _) & _).
  rewrite Hrow in Hfd, Hfa |- *. simpl in *.
  apply references_Some in Hfd. apply references_Some in Hfa.
  repeat split; assumption || reflexivity.
Qed.

Lemma accepted_locations_required_witness :
  exists dep arr,
    Js.prop "departureLocationId" Fixtures.baseBody = Some (Js.JNum dep) /\ 1 <= dep
    /\ Js.prop "arrivalLocationId" Fixtures.baseBody = Some (Js.JNum arr) /\ 1 <= arr
    /\ is_Some (Db.locations Fixtures.db0 !! dep)
    /\ is_Some (Db.locations Fixtures.db0 !! arr).
Proof.
  assert (Hpost : exists db' row train,
    Routes.postSchedule Fixtures.isoDateParse Fixtures.noToString
      Fixtures.db0 Fixtures.baseBody = (db', Routes.Success row train)).
  { do 3 eexists. vm_compute. reflexivity. }
  destruct Hpost as (db' & row & train & Hpost).
  destruct (accepted_locations_required _ _ _ _ _ _ _ Hpost)
    as (dep & arr & H1 & H2 & H3 & H4 & H5 & H6 & _).
  exists dep, arr. repeat split; assumption.
Defined.

Section AttachTrainNumberFacts.
Import Js Zod.
Variable Date_parse : string -> option Z.
Variable ToString : Json -> string.

(** The attach train number of the parsed object is what the parser of the
    key returned, and that is the string of the body, or [null], or
    nothing. *)
Lemma scheduleObject_attachTrainNumber body data :
  value (Routes.scheduleObject Date_parse ToString body) = Some data ->
  value (field "attachTrainNumber" (nullable_optional string_) body)
  = Some (Routes.attachTrainNumber data).
Proof.
  unfold Routes.scheduleObject. destruct body; try discriminate.
  intros H.
  repeat match type of H with
  | value (_ <.> _) = Some _ =>
      let g := fresh "g" in let a := fresh "a" in let Ha := fresh "Ha" in
      apply apP_value in H; destruct H as (g & a & H & Ha & ->)
  end.
  injection H as <-. simpl. auto.
Qed.

Lemma field_nullable_optional_string k body x :
  value (field k (nullable_optional string_) body) = Some x ->
  match prop k body with
  | Some (JStr s) => x = Val s
  | Some JNull => x = Null
  | None => x = Undefined
  | Some _ => False
  end.
Proof.
  unfold field, nullable_optional, string_. cbn [value addPath].
  destruct (prop k body) as [[| | | s | |]|]; simpl;
    try discriminate; intros [= <-]; reflexivity.
Qed.

End AttachTrainNumberFacts.

(** C9. In every accepted request the stored row has [attachStatus =
    'pending'] exactly when the [attachTrainNumber] of the request body is
    present (a non-empty string), and NULL otherwise (the key absent, [null]
    or the empty string), whatever [attachStatus] the body carried; the
    attach train number itself is stored as the body has it. *)
Theorem stored_attachStatus_from_attachTrainNumber
  (Date_parse : string -> option Z) (ToString : Js.Json -> string)
  (db db' : Db.Database) (body : Js.Json) (row : Db.ScheduleRow) (train : Db.Train)
  (Haccepted : Routes.postSchedule Date_parse ToString db body
               = (db', Routes.Success row train)) :
  Db.schedules db' !! Db.id row = Some row
  /\ match Js.prop "attachTrainNumber" body with
     | Some (Js.JStr s) =>
         Db.attachTrainNumber row = Some s
         /\ Db.attachStatus row = if Js.truthyStr s then Some "pending" else None
     | Some Js.JNull | None =>
         Db.attachTrainNumber row = None /\ Db.attachStatus row = None
     | Some _ => False
     end.
Proof.
  apply postSchedule_success_inv in Haccepted.
  destruct Haccepted as (data & Hparse & _ & _ & Hins).
  apply scheduleSchema_success in Hparse. destruct Hparse as [Hv _].
  apply scheduleObject_attachTrainNumber in Hv.
  apply field_nullable_optional_string in Hv.
  apply insertSchedule_inv in Hins. destruct Hins as (Hrow & _ & Hstored).
  split; [exact Hstored|].
  rewrite Hrow.
  cbn [Db.withId Routes.scheduleData Db.attachTrainNumber Db.attachStatus].
  destruct (Js.prop "attachTrainNumber" body) as [[| | | s | |]|];
    try contradiction; rewrite Hv; split; reflexivity.
Qed.

Lemma stored_attachStatus_from_attachTrainNumber_witness :
  Js.prop "attachStatus" Fixtures.ftrFullAttach = Some (Js.JStr "completed")
  /\ Js.prop "attachTrainNumber" Fixtures.ftrFullAttach = Some (Js.JStr "12001")
  /\ exists db' row train,
       Routes.postSchedule Fixtures.isoDateParse Fixtures.noToString
         Fixtures.db0 Fixtures.ftrFullAttach = (db', Routes.Success row train)
       /\ Db.schedules db' !! Db.id row = Some row
       /\ Db.attachTrainNumber row = Some "12001"
       /\ Db.attachStatus row = Some "pending".
Proof.
  split; [reflexivity|]. split; [reflexivity|].
  assert (Hpost : exists db' row train,
    Routes.postSchedule Fixtures.isoDateParse Fixtures.noToString
      Fixtures.db0 Fixtures.ftrFullAttach = (db', Routes.Success row train)).
  { do 3 eexists. vm_compute. reflexivity. }
  destruct Hpost as (db' & row & train & Hpost).
  exists db', row, train. split; [exact Hpost|].
  destruct (stored_attachStatus_from_attachTrainNumber _ _ _ _ _ _ _ Hpost)
    as [Hstored Hattach].
  split; [exact Hstored|].
  change (Js.prop "attachTrainNumber" Fixtures.ftrFullAttach)
    with (Some (Js.JStr "12001")) in Hattach.
  exact Hattach.
Defined.

(** Without an attach train number nothing is pending, also when the body
    asks for it. *)
Example attachStatus_without_attachTrainNumber :
  exists db' row train,
    Routes.postSchedule Fixtures.isoDateParse Fixtures.noToString Fixtures.db0
      (Js.JObj (("attachStatus", Js.JStr "pending") :: Fixtures.baseFields))
    = (db', Routes.Success row train)
    /\ Db.attachTrainNumber row = None /\ Db.attachStatus row = None.
Proof. do 3 eexists. split; [vm_compute; reflexivity|]. split; reflexivity. Qed.

(** C10. When the request has no [runningDays], the parser of the field
    succeeds with seven entries, all true (the default [Array(7).fill(true)],
    equal to the column default), and the stored row of an accepted request
    has exactly these. *)
Theorem runningDays_default_all_true
  (Date_parse : string -> option Z) (ToString : Js.Json -> string)
  (db : Db.Database) (body : Js.Json)
  (Homitted : Js.prop "runningDays" body = None) :
  Zod.field "runningDays"
    (Zod.default Routes.sevenTrue (Zod.array (Some 7%nat) Zod.boolean)) body
    = Zod.OK [true; true; true; true; true; true; true]
  /\ Db.runningDaysDefault = [true; true; true; true; true; true; true]
  /\ forall db' row train,
       Routes.postSchedule Date_parse ToString db body = (db', Routes.Success row train) ->
       Db.runningDays row = [true; true; true; true; true; true; true]
       /\ Db.schedules db' !! Db.id row = Some row.
Proof.
  assert (Hfield :
    Zod.field "runningDays"
      (Zod.default Routes.sevenTrue (Zod.array (Some 7%nat) Zod.boolean)) body
    = Zod.OK [true; true; true; true; true; true; true]).
  { unfold Zod.field. rewrite Homitted. reflexivity. }
  split; [exact Hfield|]. split; [reflexivity|].
  intros db' row train Haccepted.
  apply postSchedule_success_inv in Haccepted.
  destruct Haccepted as (data & Hparse & _ & _ & Hins).
  apply scheduleSchema_success in Hparse. destruct Hparse as [Hv _].
  apply scheduleObject_fields in Hv. destruct Hv as (_ & _ & Hrd).
  rewrite Hfield in Hrd. simpl in Hrd. injection Hrd as Hrd.
  apply insertSchedule_inv in Hins. destruct Hins as (Hrow & _ & Hstored).
  split; [|exact Hstored].
  rewrite Hrow. simpl. symmetry. exact Hrd.
Qed.

Lemma runningDays_default_all_true_witness :
  Js.prop "runningDays" Fixtures.baseBody = None
  /\ exists db' row train,
       Routes.postSchedule Fixtures.isoDateParse Fixtures.noToString
         Fixtures.db0 Fixtures.baseBody = (db', Routes.Success row train)
       /\ Db.runningDays row = [true; true; true; true; true; true; true]
       /\ Db.schedules db' !! Db.id row = Some row.
Proof.
  split; [reflexivity|].
  assert (Hpost : exists db' row train,
    Routes.postSchedule Fixtures.isoDateParse Fixtures.noToString
      Fixtures.db0 Fixtures.baseBody = (db', Routes.Success row train)).
  { do 3 eexists. vm_compute. reflexivity. }
  destruct Hpost as (db' & row & train & Hpost).
  exists db', row, train. split; [exact Hpost|].
  destruct (runningDays_default_all_true Fixtures.isoDateParse Fixtures.noToString
              Fixtures.db0 Fixtures.baseBody eq_refl) as (_ & _ & Hstored).
  exact (Hstored db' row train Hpost).
Defined.

(** ** The status update (socket server) *)

(** C7, at the failing input: an [updateSchedule] event that asks for the
    status [running] of a completed schedule is not refused; the stored
    status becomes [running], the actual departure is cleared, and the
    changed row is broadcast. *)
Theorem updateSchedule_completed_to_running :
  Db.status <$> (Db.schedules Fixtures.db1 !! 1) = Some "completed"
  /\ exists db' row',
       Socket.updateSchedule Fixtures.isoDateParse Fixtures.db1
         (Socket.statusOnly 1 "running") = (db', Some row')
       /\ Db.status <$> (Db.schedules db' !! 1) = Some "running"
       /\ Db.actualDeparture row' = None.
Proof.
  split; [vm_compute; reflexivity|].
  do 2 eexists. split; [vm_compute; reflexivity|].
  split; vm_compute; reflexivity.
Qed.

(** The control panel of the client never picks a completed schedule, nor
    one flagged as cancelled. *)
Lemma selectedSchedule_not_completed (l : list Db.ScheduleRow) (s : Db.ScheduleRow) :
  TrainControls.selectedSchedule l = Some s ->
  Db.isCancelled s = false /\ Db.status s <> "completed".
Proof.
  unfold TrainControls.selectedSchedule. intros Hfind.
  apply find_some in Hfind. destruct Hfind as [_ Hp].
  apply andb_true_iff in Hp. destruct Hp as [Hc Hs].
  apply negb_true_iff in Hc, Hs. split; [exact Hc|].
  intros Heq. rewrite Heq in Hs. discriminate Hs.
Qed.

(** * Further properties of the embedded code *)

(** ** POST /api/schedules *)

Section MoreParseFacts.
Import Js Zod.
Variable Date_parse : string -> option Z.
Variable ToString : Json -> string.

Lemma refine_check_passed {A} (check : A -> bool) msg at_ (r : ParseReturn A) a :
  value r = Some a -> issues (refine check msg at_ r) = [] -> check a = true.
Proof.
  unfold refine. intros Hv. rewrite Hv.
  destruct (check a); [reflexivity|]. simpl. intros H.
  apply app_eq_nil in H. destruct H as [_ H]. discriminate H.
Qed.

Lemma refine_check_failed {A} (check : A -> bool) msg at_ (r : ParseReturn A) a :
  value r = Some a -> check a = false ->
  In {| code := custom; path := at_; message := Some msg |}
     (issues (refine check msg at_ r)).
Proof.
  unfold refine. intros Hv Hc. rewrite Hv, Hc. simpl.
  apply in_or_app. right. left. reflexivity.
Qed.

Lemma refine_issues_incl {A} (check : A -> bool) msg at_ (r : ParseReturn A) i :
  In i (issues r) -> In i (issues (refine check msg at_ r)).
Proof.
  unfold refine. intros Hi.
  destruct (value r) as [a|]; [|exact Hi].
  destruct (check a); [exact Hi|]. simpl. apply in_or_app. left. exact Hi.
Qed.

Lemma safeParse_with_issue {A} (r : ParseReturn A) i :
  In i (issues r) -> safeParse r = failure (issues r).
Proof.
  unfold safeParse. intros Hi.
  destruct (value r); destruct (issues r); try contradiction; reflexivity.
Qed.

(** Both refinements passed on the data of an accepted body. *)
Lemma scheduleSchema_refinements body data :
  safeParse (Routes.scheduleSchema Date_parse ToString body) = success data ->
  Routes.timeWithinJourney Routes.attachTime data = true
  /\ Routes.timeWithinJourney Routes.detachTime data = true.
Proof.
  intros H. apply safeParse_success in H. destruct H as [Hv Hi].
  unfold Routes.scheduleSchema in *.
  pose proof Hv as Hv1. rewrite refine_value in Hv1.
  split.
  - eapply refine_check_passed; eassumption.
  - apply refine_issues_nil in Hi. rewrite refine_value in Hv1.
    eapply refine_check_passed; eassumption.
Qed.

Lemma parseItems_length {A} (elem : Parser A) items : forall i l,
  value (parseItems elem i items) = Some l -> length l = length items.
Proof.
  induction items as [|x rest IH]; intros i l; simpl.
  - intros [= <-]. reflexivity.
  - destruct (value (elem (Some x))) as [hd|]; [|discriminate].
    destruct (value (parseItems elem (S i) rest)) as [tl|] eqn:Htl; [|discriminate].
    intros [= <-]. simpl. f_equal. eapply IH. exact Htl.
Qed.

(** An array that passed [.length(n)] has [n] entries. *)
Lemma array_exact_length {A} (elem : Parser A) (n : nat) v l :
  value (array (Some n) elem v) = Some l ->
  issues (array (Some n) elem v) = [] ->
  length l = n.
Proof.
  unfold array. destruct v as [[| | | | items |]|]; try discriminate.
  destruct (n <? length items)%nat eqn:Hbig; simpl; [discriminate 2|].
  destruct (length items <? n)%nat eqn:Hsmall; simpl; [discriminate 2|].
  intros Hv _. apply parseItems_length in Hv.
  apply Nat.ltb_ge in Hbig, Hsmall. lia.
Qed.

Lemma enum_member (values : list string) v s :
  value (enum values v) = Some s -> In s values.
Proof.
  unfold enum. destruct v as [[| | | x | |]|]; try discriminate.
  destruct (existsb (String.eqb x) values) eqn:Hex; [|discriminate].
  intros [= <-]. apply existsb_exists in Hex. destruct Hex as (y & Hy & Heq).
  apply String.eqb_eq in Heq. subst. exact Hy.
Qed.

(** The status and the running days of the parsed object. *)
Lemma scheduleObject_status_runningDays body data :
  value (Routes.scheduleObject Date_parse ToString body) = Some data ->
  issues (Routes.scheduleObject Date_parse ToString body) = [] ->
  In (Routes.status data) ["scheduled"; "delayed"; "completed"; "cancelled"]
  /\ length (Routes.runningDays data) = 7%nat.
Proof.
  unfold Routes.scheduleObject. destruct body; try discriminate.
  intros H Hi.
  repeat match type of H with
  | value (_ <.> _) = Some _ =>
      let g := fresh "g" in let a := fresh "a" in let Ha := fresh "Ha" in
      apply apP_value in H; destruct H as (g & a & H & Ha & ->)
  end.
  repeat match type of Hi with
  | issues (_ <.> _) = [] =>
      let Hx := fresh "Hx" in
      apply apP_issues_nil in Hi; destruct Hi as [Hi Hx]
  end.
  injection H as <-. cbn [Routes.status Routes.runningDays]. split.
  - match goal with
    | Hs : value (field "status" _ _) = Some ?s |- In ?s _ =>
        unfold field in Hs; cbn [value addPath] in Hs; unfold default in Hs;
        destruct (prop "status" _); apply enum_member in Hs; exact Hs
    end.
  - match goal with
    | Hs : value (field "runningDays" _ _) = Some ?l,
      Hz : issues (field "runningDays" _ _) = [] |- length ?l = _ =>
        unfold field in Hs, Hz; cbn [value addPath] in Hs;
        apply addPath_issues_nil in Hz; unfold default in Hs, Hz;
        destruct (prop "runningDays" _);
        eapply array_exact_length; eassumption
    end.
Qed.

End MoreParseFacts.

(** X1. An attach time or a detach time outside the journey is refused by the
    schema: the answer is 400 [Invalid schedule data], the details carry the
    issue of the refinement at the key of the time, and nothing is stored. *)
Theorem time_outside_journey_rejected
  (Date_parse : string -> option Z) (ToString : Js.Json -> string)
  (db : Db.Database) (body : Js.Json) (data : Routes.ScheduleData) (t : Z)
  (Hobject : Zod.value (Routes.scheduleObject Date_parse ToString body) = Some data)
  (Htime : (Routes.attachTime data = Js.Val t \/ Routes.detachTime data = Js.Val t)
           /\ (t < Routes.scheduledDeparture data \/ Routes.scheduledArrival data < t)) :
  exists errs,
    Routes.postSchedule Date_parse ToString db body
    = (db, Routes.BadRequest "Invalid schedule data" errs)
    /\ (Routes.attachTime data = Js.Val t ->
        In {| Zod.code := Zod.custom; Zod.path := [Zod.Key "attachTime"];
              Zod.message := Some "Attach time must be between departure and arrival times" |}
           errs)
    /\ (Routes.detachTime data = Js.Val t ->
        In {| Zod.code := Zod.custom; Zod.path := [Zod.Key "detachTime"];
              Zod.message := Some "Detach time must be between departure and arrival times" |}
           errs).
Proof.
  destruct Htime as [Hwhich Hout].
  assert (Hcheck : forall f, f data = Js.Val t -> Routes.timeWithinJourney f data = false).
  { intros f Hf. unfold Routes.timeWithinJourney. rewrite Hf. simpl.
    destruct Hout as [Hlt | Hgt].
    - apply Z.leb_gt in Hlt. rewrite Hlt. reflexivity.
    - apply Z.leb_gt in Hgt. rewrite Hgt. apply andb_false_r. }
  set (inner := Zod.refine (Routes.timeWithinJourney Routes.detachTime)
                  "Detach time must be between departure and arrival times"
                  [Zod.Key "detachTime"]
                  (Routes.scheduleObject Date_parse ToString body)).
  assert (Hinner : Zod.value inner = Some data).
  { unfold inner. rewrite refine_value. exact Hobject. }
  assert (Hissue : exists i, In i (Zod.issues (Routes.scheduleSchema Date_parse ToString body))).
  { unfold Routes.scheduleSchema. fold inner.
    destruct Hwhich as [Ha | Hd].
    - eexists. eapply refine_check_failed; [exact Hinner | apply Hcheck; exact Ha].
    - eexists. apply refine_issues_incl. unfold inner.
      eapply refine_check_failed; [exact Hobject | apply Hcheck; exact Hd]. }
  destruct Hissue as (i & Hi).
  exists (Zod.issues (Routes.scheduleSchema Date_parse ToString body)). split.
  - apply postSchedule_rejects_invalid_body. eapply safeParse_with_issue. exact Hi.
  - unfold Routes.scheduleSchema. fold inner. split.
    + intros Ha. eapply refine_check_failed; [exact Hinner | apply Hcheck; exact Ha].
    + intros Hd. apply refine_issues_incl. unfold inner.
      eapply refine_check_failed; [exact Hobject | apply Hcheck; exact Hd].
Qed.

Lemma time_outside_journey_rejected_witness :
  exists errs,
    Routes.postSchedule Fixtures.isoDateParse Fixtures.noToString
      Fixtures.db0 MoreFixtures.ftrAttachTooEarly
    = (Fixtures.db0, Routes.BadRequest "Invalid schedule data" errs)
    /\ In {| Zod.code := Zod.custom; Zod.path := [Zod.Key "attachTime"];
             Zod.message := Some "Attach time must be between departure and arrival times" |}
          errs.
Proof.
  assert (Hobj : exists data,
    Zod.value (Routes.scheduleObject Fixtures.isoDateParse Fixtures.noToString
                 MoreFixtures.ftrAttachTooEarly) = Some data
    /\ Routes.attachTime data = Js.Val (Fixtures.mar04 + 7 * Fixtures.hour)
    /\ Fixtures.mar04 + 7 * Fixtures.hour < Routes.scheduledDeparture data).
  { eexists. split; [vm_compute; reflexivity|]. split; vm_compute; reflexivity. }
  destruct Hobj as (data & Hobj & Hattach & Hearly).
  destruct (time_outside_journey_rejected Fixtures.isoDateParse Fixtures.noToString
              Fixtures.db0 MoreFixtures.ftrAttachTooEarly data
              (Fixtures.mar04 + 7 * Fixtures.hour) Hobj
              (conj (or_introl Hattach) (or_introl Hearly)))
    as (errs & Hpost & Ha & _).
  exists errs. split; [exact Hpost | exact (Ha Hattach)].
Defined.

(** X2. The row stored for an accepted request has one of the four statuses
    of the schema ([running] is not among them), exactly seven running days,
    and no actual departure or arrival. *)
Theorem accepted_row_shape
  (Date_parse : string -> option Z) (ToString : Js.Json -> string)
  (db db' : Db.Database) (body : Js.Json) (row : Db.ScheduleRow) (train : Db.Train)
  (Haccepted : Routes.postSchedule Date_parse ToString db body
               = (db', Routes.Success row train)) :
  In (Db.status row) ["scheduled"; "delayed"; "completed"; "cancelled"]
  /\ length (Db.runningDays row) = 7%nat
  /\ Db.actualDeparture row = None /\ Db.actualArrival row = None.
Proof.
  apply postSchedule_success_inv in Haccepted.
  destruct Haccepted as (data & Hparse & _ & _ & Hins).
  apply scheduleSchema_success in Hparse. destruct Hparse as [Hv Hi].
  destruct (scheduleObject_status_runningDays _ _ _ _ Hv Hi) as [Hs Hr].
  apply insertSchedule_inv in Hins. destruct Hins as (-> & _ & _).
  cbn [Db.withId Routes.scheduleData Db.status Db.runningDays
       Db.actualDeparture Db.actualArrival].
  auto.
Qed.

Lemma accepted_row_shape_witness :
  exists db' row train,
    Routes.postSchedule Fixtures.isoDateParse Fixtures.noToString
      Fixtures.db0 Fixtures.ftrFullAttach = (db', Routes.Success row train)
    /\ In (Db.status row) ["scheduled"; "delayed"; "completed"; "cancelled"]
    /\ length (Db.runningDays row) = 7%nat
    /\ Db.actualDeparture row = None /\ Db.actualArrival row = None.
Proof.
  assert (Hpost : exists db' row train,
    Routes.postSchedule Fixtures.isoDateParse Fixtures.noToString
      Fixtures.db0 Fixtures.ftrFullAttach = (db', Routes.Success row train)).
  { do 3 eexists. vm_compute. reflexivity. }
  destruct Hpost as (db' & row & train & Hpost).
  exists db', row, train. split; [exact Hpost|].
  exact (accepted_row_shape _ _ _ _ _ _ _ Hpost).
Defined.

(** A schedule cannot be created as running: a status outside
    scheduled, delayed, completed, cancelled is answered 400 and nothing is
    stored. *)
Theorem status_outside_enum_rejected
  (Date_parse : string -> option Z) (ToString : Js.Json -> string)
  (db : Db.Database) (fields : list (string * Js.Json)) (s : string)
  (Hstatus : Js.prop "status" (Js.JObj fields) = Some (Js.JStr s))
  (Hother : ~ In s ["scheduled"; "delayed"; "completed"; "cancelled"]) :
  exists errs,
    Routes.postSchedule Date_parse ToString db (Js.JObj fields)
    = (db, Routes.BadRequest "Invalid schedule data" errs)
    /\ In {| Zod.code := Zod.invalid_enum_value; Zod.path := [Zod.Key "status"];
             Zod.message := None |} errs.
Proof.
  set (i := {| Zod.code := Zod.invalid_enum_value; Zod.path := [Zod.Key "status"];
               Zod.message := None |}).
  assert (Hfield :
    Zod.field "status"
      (Zod.default (Js.JStr "scheduled")
         (Zod.enum ["scheduled"; "delayed"; "completed"; "cancelled"])) (Js.JObj fields)
    = {| Zod.value := None; Zod.issues := [i] |}).
  { unfold Zod.field. rewrite Hstatus. unfold Zod.default, Zod.enum.
    destruct (existsb (String.eqb s) _) eqn:Hex.
    - exfalso. apply Hother. apply existsb_exists in Hex.
      destruct Hex as (y & Hy & Heq). apply String.eqb_eq in Heq. subst. exact Hy.
    - reflexivity. }
  assert (Hin : In i (Zod.issues (Routes.scheduleObject Date_parse ToString (Js.JObj fields)))).
  { unfold Routes.scheduleObject.
    repeat match goal with
    | |- In _ (Zod.issues (Zod.apP _ (Zod.field "status" _ _))) =>
        unfold Zod.apP at 1; cbn [Zod.issues]; apply in_or_app; right;
        rewrite Hfield; left; reflexivity
    | |- In _ (Zod.issues (Zod.apP _ _)) =>
        unfold Zod.apP at 1; cbn [Zod.issues]; apply in_or_app; left
    end. }
  exists (Zod.issues (Routes.scheduleSchema Date_parse ToString (Js.JObj fields))).
  assert (Hin' : In i (Zod.issues (Routes.scheduleSchema Date_parse ToString (Js.JObj fields)))).
  { unfold Routes.scheduleSchema. do 2 apply refine_issues_incl. exact Hin. }
  split; [|exact Hin'].
  apply postSchedule_rejects_invalid_body. eapply safeParse_with_issue. exact Hin'.
Qed.

Lemma status_outside_enum_rejected_witness :
  exists errs,
    Routes.postSchedule Fixtures.isoDateParse Fixtures.noToString
      Fixtures.db0 MoreFixtures.createdRunning
    = (Fixtures.db0, Routes.BadRequest "Invalid schedule data" errs)
    /\ In {| Zod.code := Zod.invalid_enum_value; Zod.path := [Zod.Key "status"];
             Zod.message := None |} errs.
Proof.
  apply (status_outside_enum_rejected Fixtures.isoDateParse Fixtures.noToString
           Fixtures.db0 _ "running").
  - reflexivity.
  - simpl. intros [H | [H | [H | [H | H ] ] ] ]; [discriminate H .. | exact H].
Defined.

(** X3. Every stored attach time and detach time of an accepted request lies
    between the scheduled departure and the scheduled arrival, bounds
    included. *)
Theorem accepted_times_within_journey
  (Date_parse : string -> option Z) (ToString : Js.Json -> string)
  (db db' : Db.Database) (body : Js.Json) (row : Db.ScheduleRow) (train : Db.Train)
  (t : Z)
  (Haccepted : Routes.postSchedule Date_parse ToString db body
               = (db', Routes.Success row train))
  (Htime : Db.attachTime row = Some t \/ Db.detachTime row = Some t) :
  Db.scheduledDeparture row <= t <= Db.scheduledArrival row.
Proof.
  apply postSchedule_success_inv in Haccepted.
  destruct Haccepted as (data & Hparse & _ & _ & Hins).
  apply scheduleSchema_refinements in Hparse. destruct Hparse as [Ha Hd].
  apply insertSchedule_inv in Hins. destruct Hins as (-> & _ & _).
  cbn [Db.withId Routes.scheduleData Db.attachTime Db.detachTime
       Db.scheduledDeparture Db.scheduledArrival] in *.
  unfold Routes.timeWithinJourney in Ha, Hd.
  destruct Htime as [Ht | Ht].
  - destruct (Routes.attachTime data) as [| |x]; try discriminate.
    injection Ht as ->. simpl in Ha. apply andb_true_iff in Ha. lia.
  - destruct (Routes.detachTime data) as [| |x]; try discriminate.
    injection Ht as ->. simpl in Hd. apply andb_true_iff in Hd. lia.
Qed.

Lemma accepted_times_within_journey_witness :
  exists db' row train,
    Routes.postSchedule Fixtures.isoDateParse Fixtures.noToString
      Fixtures.db0 Fixtures.ftrFullAttach = (db', Routes.Success row train)
    /\ Db.attachTime row = Some (Fixtures.mar04 + 9 * Fixtures.hour)
    /\ Db.scheduledDeparture row <= Fixtures.mar04 + 9 * Fixtures.hour
       <= Db.scheduledArrival row.
Proof.
  assert (Hpost : exists db' row train,
    Routes.postSchedule Fixtures.isoDateParse Fixtures.noToString
      Fixtures.db0 Fixtures.ftrFullAttach = (db', Routes.Success row train)
    /\ Db.attachTime row = Some (Fixtures.mar04 + 9 * Fixtures.hour)).
  { do 3 eexists. split; vm_compute; reflexivity. }
  destruct Hpost as (db' & row & train & Hpost & Hat).
  exists db', row, train. split; [exact Hpost|]. split; [exact Hat|].
  exact (accepted_times_within_journey _ _ _ _ _ _ _ _ Hpost (or_introl Hat)).
Defined.

(** X4. A request that is not accepted stores no row: trains, locations
    and schedules are as before. After a 400 or 404 answer the database is
    as it was; after a 500 answer at most one identity value of [schedules]
    has been used up (by a row that a foreign key refused), so the next row
    skips a number. *)
Theorem rejected_request_stores_nothing
  (Date_parse : string -> option Z) (ToString : Js.Json -> string)
  (db db' : Db.Database) (body : Js.Json) (r : Routes.Response)
  (Hpost : Routes.postSchedule Date_parse ToString db body = (db', r))
  (Hrejected : Routes.isSuccess r = false) :
  Db.trains db' = Db.trains db /\ Db.locations db' = Db.locations db
  /\ Db.schedules db' = Db.schedules db
  /\ (Db.scheduleSeq db' = Db.scheduleSeq db
      \/ (Db.scheduleSeq db' = Db.scheduleSeq db + 1
          /\ r = Routes.ServerError "Failed to create schedule"))
  /\ ((forall e, r <> Routes.ServerError e) -> db' = db).
Proof.
  assert (Hsame : forall x, (db, x) = (db', r) ->
    Db.trains db' = Db.trains db /\ Db.locations db' = Db.locations db
    /\ Db.schedules db' = Db.schedules db
    /\ (Db.scheduleSeq db' = Db.scheduleSeq db
        \/ (Db.scheduleSeq db' = Db.scheduleSeq db + 1
            /\ r = Routes.ServerError "Failed to create schedule"))
    /\ ((forall e, r <> Routes.ServerError e) -> db' = db)).
  { intros x [= <- _]. auto 10. }
  unfold Routes.postSchedule in Hpost.
  destruct (Zod.safeParse _) as [data|errs]; [|eapply Hsame, Hpost].
  destruct (Db.selectById _ _) as [[t|]|]; [|eapply Hsame, Hpost..].
  destruct (Routes.checkSpecialOperations db t data); [eapply Hsame, Hpost|].
  unfold Db.insertSchedule in Hpost.
  destruct (_ || _); [eapply Hsame, Hpost|].
  destruct (Db.constraints_ok db _).
  - injection Hpost as _ <-. discriminate Hrejected.
  - injection Hpost as <- <-. simpl.
    repeat split; try reflexivity.
    + right. split; reflexivity.
    + intros Hnot. exfalso. eapply Hnot. reflexivity.
Qed.

Lemma rejected_request_stores_nothing_witness :
  fst (Routes.postSchedule Fixtures.isoDateParse Fixtures.noToString
         Fixtures.db0 MoreFixtures.expressDetach) = Fixtures.db0.
Proof.
  destruct (Routes.postSchedule Fixtures.isoDateParse Fixtures.noToString
              Fixtures.db0 MoreFixtures.expressDetach) as [db' r] eqn:Hpost.
  assert (Hr : r = Routes.ErrorMessage 400 "Invalid train type for attach/detach operations"
                 "Attach and detach operations are only available for SALOON and FTR trains").
  { vm_compute in Hpost. injection Hpost as _ <-. reflexivity. }
  destruct (rejected_request_stores_nothing Fixtures.isoDateParse Fixtures.noToString
              Fixtures.db0 db' MoreFixtures.expressDetach r Hpost)
    as (_ & _ & _ & _ & Hsame).
  - rewrite Hr. reflexivity.
  - apply Hsame. intros e. rewrite Hr. discriminate.
Defined.

(** A departure location that does not exist: the insert is refused by the
    foreign key and answered 500, and the schedule created next gets the id
    2, not 1. *)
Example refused_insert_uses_identity_value :
  exists db1 db2 row train,
    Routes.postSchedule Fixtures.isoDateParse Fixtures.noToString
      Fixtures.db0 MoreFixtures.unknownDeparture
    = (db1, Routes.ServerError "Failed to create schedule")
    /\ Db.schedules db1 = Db.schedules Fixtures.db0
    /\ Routes.postSchedule Fixtures.isoDateParse Fixtures.noToString
         db1 Fixtures.baseBody = (db2, Routes.Success row train)
    /\ Db.id row = 2.
Proof.
  do 4 eexists. split; [vm_compute; reflexivity|].
  split; [reflexivity|]. split; vm_compute; reflexivity.
Qed.

(** A train id beyond the 32-bit integers makes the select throw: the answer
    is 500, not 404. So does a timestamp of the year 10000 at the insert. *)
Example trainId_out_of_range :
  Routes.postSchedule Fixtures.isoDateParse Fixtures.noToString
    Fixtures.db0 (Js.JObj (("trainId", Js.JNum 2147483648) :: Fixtures.baseFields))
  = (Fixtures.db0, Routes.ServerError "Failed to create schedule").
Proof. vm_compute. reflexivity. Qed.

Example year_10000_not_stored :
  Routes.postSchedule MoreFixtures.farDateParse Fixtures.noToString
    Fixtures.db0 MoreFixtures.untilYear10000
  = (Fixtures.db0, Routes.ServerError "Failed to create schedule").
Proof. vm_compute. reflexivity. Qed.

(** X5. An accepted request adds one row and changes nothing else: the row
    gets the next identity value, every other row of [schedules] is as
    before, and the trains and locations are untouched. *)
Theorem accepted_request_adds_one_row
  (Date_parse : string -> option Z) (ToString : Js.Json -> string)
  (db db' : Db.Database) (body : Js.Json) (row : Db.ScheduleRow) (train : Db.Train)
  (Haccepted : Routes.postSchedule Date_parse ToString db body
               = (db', Routes.Success row train)) :
  Db.id row = Db.scheduleSeq db + 1
  /\ Db.scheduleSeq db' = Db.scheduleSeq db + 1
  /\ Db.schedules db' !! Db.id row = Some row
  /\ (forall k, k <> Db.id row -> Db.schedules db' !! k = Db.schedules db !! k)
  /\ Db.trains db' = Db.trains db /\ Db.locations db' = Db.locations db
  /\ exists k, Db.trainId row = Some k /\ Db.trains db !! k = Some train.
Proof.
  apply postSchedule_success_inv in Haccepted.
  destruct Haccepted as (data & _ & Htrain & _ & Hins).
  unfold Db.insertSchedule in Hins.
  destruct (_ || _); [discriminate|].
  destruct (Db.constraints_ok db _); [|discriminate].
  injection Hins as <- <-. simpl.
  repeat split; try reflexivity.
  - apply lookup_insert_eq.
  - intros k Hk. apply lookup_insert_ne. congruence.
  - exists (Routes.trainId data). split; [reflexivity | exact Htrain].
Qed.

Lemma accepted_request_adds_one_row_witness :
  exists db' row train,
    Routes.postSchedule Fixtures.isoDateParse Fixtures.noToString
      Fixtures.db1 Fixtures.baseBody = (db', Routes.Success row train)
    /\ Db.id row = 2
    /\ Db.schedules db' !! 1 = Some Fixtures.completedRow
    /\ Db.trains db' = Db.trains Fixtures.db1.
Proof.
  assert (Hpost : exists db' row train,
    Routes.postSchedule Fixtures.isoDateParse Fixtures.noToString
      Fixtures.db1 Fixtures.baseBody = (db', Routes.Success row train)).
  { do 3 eexists. vm_compute. reflexivity. }
  destruct Hpost as (db' & row & train & Hpost).
  destruct (accepted_request_adds_one_row _ _ _ _ _ _ _ Hpost)
    as (Hid & _ & _ & Hothers & Htrains & _).
  exists db', row, train. split; [exact Hpost|].
  split; [exact Hid|]. split; [|exact Htrains].
  rewrite Hothers; [reflexivity|]. rewrite Hid. discriminate.
Defined.

(** X6. For a train that is neither SALOON nor FTR, a request with an attach
    location, a detach location or an attach train number is answered 400
    [Invalid train type for attach/detach operations] and nothing is
    stored. *)
Theorem other_train_types_gate
  (Date_parse : string -> option Z) (ToString : Js.Json -> string)
  (db : Db.Database) (body : Js.Json) (data : Routes.ScheduleData) (train : Db.Train)
  (Hparse : Zod.safeParse (Routes.scheduleSchema Date_parse ToString body)
            = Zod.success data)
  (Htrain : Db.trains db !! Routes.trainId data = Some train)
  (Hother : Routes.isSpecial train = false)
  (Hfield : Js.truthy Js.truthyNum (Routes.attachLocationId data)
            || Js.truthy Js.truthyNum (Routes.detachLocationId data)
            || Js.truthy Js.truthyStr (Routes.attachTrainNumber data) = true) :
  Routes.postSchedule Date_parse ToString db body
  = (db, Routes.ErrorMessage 400 "Invalid train type for attach/detach operations"
           "Attach and detach operations are only available for SALOON and FTR trains").
Proof.
  apply selectById_found in Htrain.
  unfold Routes.postSchedule. rewrite Hparse, Htrain.
  unfold Routes.checkSpecialOperations. rewrite Hother, Hfield. reflexivity.
Qed.

Lemma other_train_types_gate_witness :
  Routes.postSchedule Fixtures.isoDateParse Fixtures.noToString
    Fixtures.db0 MoreFixtures.expressDetach
  = (Fixtures.db0,
     Routes.ErrorMessage 400 "Invalid train type for attach/detach operations"
       "Attach and detach operations are only available for SALOON and FTR trains").
Proof.
  assert (Hdata : exists data,
    Zod.safeParse (Routes.scheduleSchema Fixtures.isoDateParse Fixtures.noToString
                     MoreFixtures.expressDetach) = Zod.success data
    /\ Routes.trainId data = 1
    /\ Js.truthy Js.truthyNum (Routes.detachLocationId data) = true).
  { eexists. split; [vm_compute; reflexivity|]. split; vm_compute; reflexivity. }
  destruct Hdata as (data & Hparse & Hid & Hdetach).
  apply (other_train_types_gate Fixtures.isoDateParse Fixtures.noToString
           Fixtures.db0 MoreFixtures.expressDetach data Fixtures.express1 Hparse).
  - rewrite Hid. vm_compute. reflexivity.
  - reflexivity.
  - rewrite Hdetach. apply orb_true_iff. left. apply orb_true_r.
Defined.

(** X7. In every accepted request of a SALOON or FTR train the attach fields
    are all present or all absent, and so are the detach fields; an attach
    or detach location that is present exists. For the other train types an
    accepted request has no attach location, no detach location and no attach
    train number. *)
Theorem accepted_attach_detach_consistent
  (Date_parse : string -> option Z) (ToString : Js.Json -> string)
  (db db' : Db.Database) (body : Js.Json) (row : Db.ScheduleRow) (train : Db.Train)
  (Haccepted : Routes.postSchedule Date_parse ToString db body
               = (db', Routes.Success row train)) :
  exists data,
    Zod.safeParse (Routes.scheduleSchema Date_parse ToString body) = Zod.success data
    /\ row = Db.withId (Db.scheduleSeq db + 1) (Routes.scheduleData data)
    /\ (Routes.isSpecial train = true ->
        Routes.attachAny data = Routes.attachAll data
        /\ Routes.detachAny data = Routes.detachAll data
        /\ (Routes.attachAny data = true ->
            Routes.locationExists db (Routes.attachLocationId data) = true)
        /\ (Routes.detachAny data = true ->
            Routes.locationExists db (Routes.detachLocationId data) = true))
    /\ (Routes.isSpecial train = false ->
        Js.truthy Js.truthyNum (Routes.attachLocationId data) = false
        /\ Js.truthy Js.truthyNum (Routes.detachLocationId data) = false
        /\ Js.truthy Js.truthyStr (Routes.attachTrainNumber data) = false).
Proof.
  apply postSchedule_success_inv in Haccepted.
  destruct Haccepted as (data & Hparse & _ & Hcheck & Hins).
  apply insertSchedule_inv in Hins. destruct Hins as (Hrow & _ & _).
  exists data. split; [exact Hparse|]. split; [exact Hrow|].
  unfold Routes.checkSpecialOperations in Hcheck. split.
  - intros Hs. rewrite Hs in Hcheck.
    unfold Routes.checkAttach, Routes.checkDetach in Hcheck.
    unfold Routes.attachAny, Routes.attachAll, Routes.detachAny, Routes.detachAll in *.
    destruct (Js.truthy Js.truthyNum (Routes.attachLocationId data));
      destruct (Js.truthy Js.truthyStr (Routes.attachTrainNumber data));
      destruct (Js.truthy Js.truthyDate (Routes.attachTime data));
      simpl in Hcheck; try discriminate;
      destruct (Routes.locationExists db (Routes.attachLocationId data));
      simpl in Hcheck; try discriminate;
      destruct (Js.truthy Js.truthyNum (Routes.detachLocationId data));
      destruct (Js.truthy Js.truthyDate (Routes.detachTime data));
      simpl in Hcheck; try discriminate;
      destruct (Routes.locationExists db (Routes.detachLocationId data));
      simpl in Hcheck; try discriminate;
      simpl; repeat split; intros; congruence.
  - intros Hs. rewrite Hs in Hcheck.
    destruct (Js.truthy Js.truthyNum (Routes.attachLocationId data));
      destruct (Js.truthy Js.truthyNum (Routes.detachLocationId data));
      destruct (Js.truthy Js.truthyStr (Routes.attachTrainNumber data));
      simpl in Hcheck; try discriminate; auto.
Qed.

Lemma accepted_attach_detach_consistent_witness :
  exists db' row train data,
    Routes.postSchedule Fixtures.isoDateParse Fixtures.noToString
      Fixtures.db0 Fixtures.ftrFullAttach = (db', Routes.Success row train)
    /\ Zod.safeParse (Routes.scheduleSchema Fixtures.isoDateParse Fixtures.noToString
                        Fixtures.ftrFullAttach) = Zod.success data
    /\ (Routes.isSpecial train = true ->
        Routes.attachAny data = Routes.attachAll data
        /\ Routes.detachAny data = Routes.detachAll data
        /\ (Routes.attachAny data = true ->
            Routes.locationExists Fixtures.db0 (Routes.attachLocationId data) = true)
        /\ (Routes.detachAny data = true ->
            Routes.locationExists Fixtures.db0 (Routes.detachLocationId data) = true)).
Proof.
  assert (Hpost : exists db' row train,
    Routes.postSchedule Fixtures.isoDateParse Fixtures.noToString
      Fixtures.db0 Fixtures.ftrFullAttach = (db', Routes.Success row train)).
  { do 3 eexists. vm_compute. reflexivity. }
  destruct Hpost as (db' & row & train & Hpost).
  destruct (accepted_attach_detach_consistent _ _ _ _ _ _ _ Hpost)
    as (data & Hparse & _ & Hspecial & _).
  exists db', row, train, data. auto.
Defined.

(** ** The [updateSchedule] event *)

Section SocketFacts.
Variable Date_parse : string -> option Z.

Lemma socket_updateSchedule_inv db data db' row' :
  Socket.updateSchedule Date_parse db data = (db', Some row') ->
  exists aDep aArr aTime dTime old,
    Socket.dateOrNull Date_parse (Socket.actualDeparture data) = Some aDep
    /\ Socket.dateOrNull Date_parse (Socket.actualArrival data) = Some aArr
    /\ Socket.dateOrNull Date_parse (Socket.attachTime data) = Some aTime
    /\ Socket.dateOrNull Date_parse (Socket.detachTime data) = Some dTime
    /\ Db.schedules db !! Socket.id data = Some old
    /\ row' = Socket.setFields data aDep aArr aTime dTime old
    /\ Db.constraints_ok db row' = true
    /\ db' = {| Db.trains := Db.trains db; Db.locations := Db.locations db;
                Db.schedules := <[Socket.id data := row']> (Db.schedules db);
                Db.scheduleSeq := Db.scheduleSeq db |}.
Proof.
  unfold Socket.updateSchedule.
  destruct (Socket.dateOrNull _ (Socket.actualDeparture data)) as [aDep|];
    [|discriminate].
  destruct (Socket.dateOrNull _ (Socket.actualArrival data)) as [aArr|];
    [|discriminate].
  destruct (Socket.dateOrNull _ (Socket.attachTime data)) as [aTime|];
    [|discriminate].
  destruct (Socket.dateOrNull _ (Socket.detachTime data)) as [dTime|];
    [|discriminate].
  destruct (Socket.paramsOk data); [|discriminate].
  unfold Db.updateSchedule.
  destruct (Db.schedules db !! Socket.id data) as [old|] eqn:Hold; [|discriminate].
  destruct (Db.constraints_ok db _) eqn:Hok; [|discriminate].
  intros [= <- <-]. exists aDep, aArr, aTime, dTime, old. auto 10.
Qed.

End SocketFacts.

(** X8. When the handler broadcasts nothing, it has written nothing: an
    unknown id, a date that cannot be read or a refused write leave the
    database as it was. *)
Theorem updateSchedule_silent_without_write
  (Date_parse : string -> option Z) (db db' : Db.Database) (data : Socket.UpdateData)
  (Hsilent : Socket.updateSchedule Date_parse db data = (db', None)) :
  db' = db.
Proof.
  unfold Socket.updateSchedule in Hsilent.
  destruct (Socket.dateOrNull _ (Socket.actualDeparture data));
    [|injection Hsilent as <-; reflexivity].
  destruct (Socket.dateOrNull _ (Socket.actualArrival data));
    [|injection Hsilent as <-; reflexivity].
  destruct (Socket.dateOrNull _ (Socket.attachTime data));
    [|injection Hsilent as <-; reflexivity].
  destruct (Socket.dateOrNull _ (Socket.detachTime data));
    [|injection Hsilent as <-; reflexivity].
  destruct (Socket.paramsOk data); [|injection Hsilent as <-; reflexivity].
  unfold Db.updateSchedule in Hsilent.
  destruct (Db.schedules db !! Socket.id data);
    [|injection Hsilent as <-; reflexivity].
  destruct (Db.constraints_ok db _); [discriminate Hsilent|].
  injection Hsilent as <-. reflexivity.
Qed.

Lemma updateSchedule_silent_without_write_witness :
  Socket.updateSchedule Fixtures.isoDateParse Fixtures.db1 MoreFixtures.badDeparture
  = (Fixtures.db1, None).
Proof.
  destruct (Socket.updateSchedule Fixtures.isoDateParse Fixtures.db1
              MoreFixtures.badDeparture) as [db' emitted] eqn:Hupd.
  assert (Hnone : emitted = None).
  { vm_compute in Hupd. injection Hupd as _ <-. reflexivity. }
  subst emitted.
  rewrite (updateSchedule_silent_without_write _ _ _ _ Hupd). reflexivity.
Defined.

(** An update for an id that no schedule has changes nothing and is
    not broadcast. *)
Theorem updateSchedule_unknown_id
  (Date_parse : string -> option Z) (db : Db.Database) (data : Socket.UpdateData)
  (Hunknown : Db.schedules db !! Socket.id data = None) :
  Socket.updateSchedule Date_parse db data = (db, None).
Proof.
  unfold Socket.updateSchedule, Db.updateSchedule. rewrite Hunknown.
  destruct (Socket.dateOrNull _ (Socket.actualDeparture data)); [|reflexivity].
  destruct (Socket.dateOrNull _ (Socket.actualArrival data)); [|reflexivity].
  destruct (Socket.dateOrNull _ (Socket.attachTime data)); [|reflexivity].
  destruct (Socket.dateOrNull _ (Socket.detachTime data)); [|reflexivity].
  destruct (Socket.paramsOk data); reflexivity.
Qed.

Lemma updateSchedule_unknown_id_witness :
  Socket.updateSchedule Fixtures.isoDateParse Fixtures.db1
    (Socket.statusOnly 7 "running") = (Fixtures.db1, None).
Proof.
  apply updateSchedule_unknown_id. vm_compute. reflexivity.
Defined.

(** X9. A non-empty time of the payload that is no date (actual departure,
    actual arrival, attach time or detach time) makes the whole update fail:
    nothing is written, not even the status, and nothing is broadcast. *)
Theorem updateSchedule_invalid_date
  (Date_parse : string -> option Z) (db : Db.Database) (data : Socket.UpdateData)
  (s : string)
  (Hfield : Socket.actualDeparture data = Js.Val s \/ Socket.actualArrival data = Js.Val s
            \/ Socket.attachTime data = Js.Val s \/ Socket.detachTime data = Js.Val s)
  (Hnonempty : s <> "")
  (Hinvalid : Date_parse s = None) :
  Socket.updateSchedule Date_parse db data = (db, None).
Proof.
  assert (Hbad : Socket.dateOrNull Date_parse (Js.Val s) = None).
  { unfold Socket.dateOrNull, Js.newDateStr. simpl.
    destruct s; [contradiction Hnonempty; reflexivity|].
    simpl. rewrite Hinvalid. reflexivity. }
  unfold Socket.updateSchedule.
  destruct Hfield as [H | [H | [H | H]]]; rewrite H, Hbad;
    repeat match goal with
    | |- context [match Socket.dateOrNull ?p ?x with _ => _ end] =>
        destruct (Socket.dateOrNull p x)
    end; reflexivity.
Qed.

Lemma updateSchedule_invalid_date_witness :
  Socket.updateSchedule Fixtures.isoDateParse Fixtures.db1 MoreFixtures.badDeparture
  = (Fixtures.db1, None)
  /\ Db.status <$> (Db.schedules Fixtures.db1 !! 1) = Some "completed".
Proof.
  split; [|vm_compute; reflexivity].
  apply (updateSchedule_invalid_date Fixtures.isoDateParse Fixtures.db1
           MoreFixtures.badDeparture "yesterday").
  - left. reflexivity.
  - discriminate.
  - vm_compute. reflexivity.
Defined.

(** X10. An applied update touches one row and, in it, only the status, the
    actual times and the attach and detach columns of the payload: the train,
    the locations, the scheduled times, the running days, the effective
    dates and the [isCancelled] flag of the row stay as they were (also when
    the new status is [cancelled]), every other row is unchanged, and so are
    the trains and the locations. *)
Theorem updateSchedule_frame
  (Date_parse : string -> option Z) (db db' : Db.Database) (data : Socket.UpdateData)
  (row' : Db.ScheduleRow)
  (Happlied : Socket.updateSchedule Date_parse db data = (db', Some row')) :
  exists old,
    Db.schedules db !! Socket.id data = Some old
    /\ Db.schedules db' !! Socket.id data = Some row'
    /\ (forall k, k <> Socket.id data -> Db.schedules db' !! k = Db.schedules db !! k)
    /\ Db.trains db' = Db.trains db /\ Db.locations db' = Db.locations db
    /\ Db.status row' = Socket.status data
    /\ Db.id row' = Db.id old /\ Db.trainId row' = Db.trainId old
    /\ Db.departureLocationId row' = Db.departureLocationId old
    /\ Db.arrivalLocationId row' = Db.arrivalLocationId old
    /\ Db.scheduledDeparture row' = Db.scheduledDeparture old
    /\ Db.scheduledArrival row' = Db.scheduledArrival old
    /\ Db.isCancelled row' = Db.isCancelled old
    /\ Db.runningDays row' = Db.runningDays old
    /\ Db.effectiveStartDate row' = Db.effectiveStartDate old
    /\ Db.effectiveEndDate row' = Db.effectiveEndDate old
    /\ Db.attachLocationId row' = Db.attachLocationId old
    /\ Db.importantStations row' = Db.importantStations old.
Proof.
  apply socket_updateSchedule_inv in Happlied.
  destruct Happlied as (aDep & aArr & aTime & dTime & old & _ & _ & _ & _
                        & Hold & -> & _ & ->).
  exists old. simpl. split; [exact Hold|]. split; [apply lookup_insert_eq|].
  split; [intros k Hk; apply lookup_insert_ne; congruence|].
  repeat split; reflexivity.
Qed.

Lemma updateSchedule_frame_witness :
  exists db' row',
    Socket.updateSchedule Fixtures.isoDateParse Fixtures.db1
      (Socket.statusOnly 1 "cancelled") = (db', Some row')
    /\ Db.status row' = "cancelled" /\ Db.isCancelled row' = false.
Proof.
  assert (Hupd : exists db' row',
    Socket.updateSchedule Fixtures.isoDateParse Fixtures.db1
      (Socket.statusOnly 1 "cancelled") = (db', Some row')).
  { do 2 eexists. vm_compute. reflexivity. }
  destruct Hupd as (db' & row' & Hupd).
  destruct (updateSchedule_frame _ _ _ _ _ Hupd)
    as (old & Hold & _ & _ & _ & _ & Hstatus & _ & _ & _ & _ & _ & _ & Hc & _).
  exists db', row'. split; [exact Hupd|]. split; [exact Hstatus|].
  rewrite Hc. vm_compute in Hold. injection Hold as <-. reflexivity.
Defined.

(** X11. An applied update always rewrites the four times of the row from
    the payload: a non-empty text becomes its date, and an absent, null or
    empty one clears the column, whatever it held. The attach train number,
    the attach status and the detach location are rewritten only when the
    payload has the key. *)
Theorem updateSchedule_times_from_payload
  (Date_parse : string -> option Z) (db db' : Db.Database) (data : Socket.UpdateData)
  (row' : Db.ScheduleRow)
  (Happlied : Socket.updateSchedule Date_parse db data = (db', Some row')) :
  let time := fun x : Js.Nullish string =>
    match x with
    | Js.Val s => if Js.truthyStr s then Date_parse s else None
    | _ => None
    end in
  Db.actualDeparture row' = time (Socket.actualDeparture data)
  /\ Db.actualArrival row' = time (Socket.actualArrival data)
  /\ Db.attachTime row' = time (Socket.attachTime data)
  /\ Db.detachTime row' = time (Socket.detachTime data)
  /\ forall old, Db.schedules db !! Socket.id data = Some old ->
       (Socket.attachTrainNumber data = Js.Undefined ->
        Db.attachTrainNumber row' = Db.attachTrainNumber old)
       /\ (Socket.attachStatus data = Js.Undefined ->
           Db.attachStatus row' = Db.attachStatus old)
       /\ (Socket.detachLocationId data = Js.Undefined ->
           Db.detachLocationId row' = Db.detachLocationId old).
Proof.
  apply socket_updateSchedule_inv in Happlied.
  destruct Happlied as (aDep & aArr & aTime & dTime & old & H1 & H2 & H3 & H4
                        & Hold & -> & _ & _).
  assert (Hdate : forall x v, Socket.dateOrNull Date_parse x = Some v ->
            v = match x with
                | Js.Val s => if Js.truthyStr s then Date_parse s else None
                | _ => None
                end).
  { intros x v. unfold Socket.dateOrNull, Js.newDateStr.
    destruct x as [| |s]; simpl; try (intros [= <-]; reflexivity).
    destruct (Js.truthyStr s); [|intros [= <-]; reflexivity].
    destruct (Date_parse s) as [t|]; simpl; [|discriminate].
    destruct (Db.timestamp t); [intros [= <-]; reflexivity | discriminate]. }
  cbn zeta. cbn [Socket.setFields Db.actualDeparture Db.actualArrival Db.attachTime
                 Db.detachTime Db.attachTrainNumber Db.attachStatus Db.detachLocationId].
  split; [apply Hdate; assumption|]. split; [apply Hdate; assumption|].
  split; [apply Hdate; assumption|]. split; [apply Hdate; assumption|].
  intros old' Hold'. rewrite Hold in Hold'. injection Hold' as <-.
  repeat split; intros Hu; rewrite Hu; reflexivity.
Qed.

Lemma updateSchedule_times_from_payload_witness :
  exists db' row',
    Socket.updateSchedule Fixtures.isoDateParse Fixtures.db1 MoreFixtures.restart
    = (db', Some row')
    /\ Db.actualDeparture row' = Some (Fixtures.mar04 + 9 * Fixtures.hour)
    /\ Db.actualArrival row' = None.
Proof.
  assert (Hupd : exists db' row',
    Socket.updateSchedule Fixtures.isoDateParse Fixtures.db1 MoreFixtures.restart
    = (db', Some row')).
  { do 2 eexists. vm_compute. reflexivity. }
  destruct Hupd as (db' & row' & Hupd).
  destruct (updateSchedule_times_from_payload _ _ _ _ _ Hupd) as (Hd & Ha & _).
  exists db', row'. split; [exact Hupd|]. split.
  - rewrite Hd. vm_compute. reflexivity.
  - rewrite Ha. reflexivity.
Defined.

(** ** The calendar *)

(** The calendar shows exactly the active schedules, one event each, in
    the order of the schedules. *)
Theorem events_are_the_active_schedules
  (off : Z) (currentDate : Z) (schedules : list Timeline.Schedule) :
  Timeline.events off currentDate schedules
  = List.map (Timeline.eventOf)
      (List.filter (fun s => Timeline.isActiveOn off s currentDate) schedules).
Proof.
  unfold Timeline.events.
  induction schedules as [|s rest IH]; [reflexivity|].
  cbn [flat_map List.filter]. rewrite IH.
  unfold Timeline.isActiveOn, Timeline.scheduleEvents.
  destruct (_ || _ || _); reflexivity.
Qed.

(** X12. A schedule whose [runningDays] has fewer than seven entries is never
    active on a weekday without an entry. *)
Theorem isActiveOn_missing_running_day
  (off : Z) (s : Timeline.Schedule) (d : Z)
  (Hshort : (length (Timeline.runningDays s) <= Z.to_nat (Timeline.dayOfWeek off d))%nat) :
  Timeline.isActiveOn off s d = false.
Proof.
  rewrite isActiveOn_unfold.
  rewrite (lookup_ge_None_2 _ _ Hshort). simpl.
  apply andb_false_r.
Qed.

Lemma isActiveOn_missing_running_day_witness :
  Timeline.dayOfWeek 0 (Fixtures.mar04 + 72 * Fixtures.hour) = 3
  /\ Timeline.isActiveOn 0 MoreFixtures.threeDays (Fixtures.mar04 + 72 * Fixtures.hour)
     = false
  /\ Timeline.isActiveOn 0 MoreFixtures.threeDays (Fixtures.mar04 + 48 * Fixtures.hour)
     = true.
Proof.
  split; [vm_compute; reflexivity|]. split; [|vm_compute; reflexivity].
  apply isActiveOn_missing_running_day. vm_compute. lia.
Defined.

Lemma dayOfWeek_next_week (off t : Z) :
  Timeline.dayOfWeek off (t + 7 * Timeline.msPerDay) = Timeline.dayOfWeek off t.
Proof.
  unfold Timeline.dayOfWeek, Timeline.getDay, Timeline.localDay, Timeline.msPerDay.
  replace (t + 7 * 86400000 + off) with (t + off + 7 * 86400000) by lia.
  rewrite Z.div_add by lia.
  replace ((t + off) / 86400000 + 7 + 4) with ((t + off) / 86400000 + 4 + 1 * 7) by lia.
  rewrite Z.mod_add by lia. reflexivity.
Qed.

Lemma dayOfWeek_same_local_day (off off' t : Z) :
  Timeline.localDay off' t = Timeline.localDay off t ->
  Timeline.dayOfWeek off' t = Timeline.dayOfWeek off t.
Proof.
  intros Hday. unfold Timeline.dayOfWeek, Timeline.getDay. rewrite Hday. reflexivity.
Qed.

(** X13. The pattern is weekly in local time. The filter reads the weekday
    of an instant with the offset of the zone at that instant; let [off] be
    the offset at [d] and [off'] the one at [d] plus seven days (they differ
    across a change of daylight saving time). Inside the effective window a
    schedule is active seven days after [d] exactly when it is active at
    [d], provided [d] is on the same local day under both offsets, as it
    always is when the offset has not changed. *)
Theorem isActiveOn_weekly
  (off off' : Z) (s : Timeline.Schedule) (d : Z)
  (Hstart : Timeline.effectiveStartDate s <= d)
  (Hend : forall e, Timeline.effectiveEndDate s = Some e ->
                    d + 7 * Timeline.msPerDay <= e)
  (Hoffset : Timeline.localDay off' d = Timeline.localDay off d) :
  Timeline.isActiveOn off' s (d + 7 * Timeline.msPerDay) = Timeline.isActiveOn off s d.
Proof.
  rewrite !isActiveOn_unfold, dayOfWeek_next_week.
  rewrite (dayOfWeek_same_local_day off off' d Hoffset).
  assert (Hms : 0 < Timeline.msPerDay) by reflexivity.
  replace (d + 7 * Timeline.msPerDay <? Timeline.effectiveStartDate s) with false
    by (symmetry; apply Z.ltb_ge; lia).
  replace (d <? Timeline.effectiveStartDate s) with false
    by (symmetry; apply Z.ltb_ge; lia).
  destruct (Timeline.effectiveEndDate s) as [e|]; [|reflexivity].
  specialize (Hend e eq_refl).
  replace (e <? d + 7 * Timeline.msPerDay) with false
    by (symmetry; apply Z.ltb_ge; lia).
  replace (e <? d) with false by (symmetry; apply Z.ltb_ge; lia).
  reflexivity.
Qed.

Lemma isActiveOn_weekly_witness :
  Timeline.isActiveOn (2 * Fixtures.hour) (Fixtures.mondayOnly false)
    (Fixtures.mar04 + 12 * Fixtures.hour + 7 * Timeline.msPerDay)
  = Timeline.isActiveOn Fixtures.hour (Fixtures.mondayOnly false)
      (Fixtures.mar04 + 12 * Fixtures.hour)
  /\ Timeline.isActiveOn Fixtures.hour (Fixtures.mondayOnly false)
       (Fixtures.mar04 + 12 * Fixtures.hour) = true.
Proof.
  split; [|vm_compute; reflexivity].
  apply (isActiveOn_weekly Fixtures.hour (2 * Fixtures.hour)
           (Fixtures.mondayOnly false) (Fixtures.mar04 + 12 * Fixtures.hour)).
  - vm_compute. discriminate.
  - intros e He. discriminate He.
  - vm_compute. reflexivity.
Defined.

(** Across the change to daylight saving time the pattern breaks where the
    later offset moves the instant over midnight: in Berlin, a schedule that
    runs on Sundays only is active on Sunday 2024-03-24 at 23:30 (UTC+1) and
    not active seven days of 24 hours later, which is Monday 2024-04-01 at
    00:30 (UTC+2). *)
Example weekly_pattern_across_dst :
  let d := Fixtures.mar10 + 14 * Timeline.msPerDay + 81000000 in
  Timeline.isActiveOn Fixtures.hour MoreFixtures.sundayOnly d = true
  /\ Timeline.isActiveOn (2 * Fixtures.hour) MoreFixtures.sundayOnly
       (d + 7 * Timeline.msPerDay) = false.
Proof. split; vm_compute; reflexivity. Qed.

(** ** The control panel and the import dialog *)

(** X14. The control panel has no schedule to act on exactly when every
    schedule is flagged as cancelled or is completed; otherwise it acts on
    the first one, in list order, that is neither. *)
Theorem selectedSchedule_first_open (l : list Db.ScheduleRow) :
  match TrainControls.selectedSchedule l with
  | None => forall s, In s l -> Db.isCancelled s = true \/ Db.status s = "completed"
  | Some s =>
      Db.isCancelled s = false /\ Db.status s <> "completed"
      /\ exists before after,
           l = (before ++ s :: after)%list
           /\ forall x, In x before ->
                Db.isCancelled x = true \/ Db.status x = "completed"
  end.
Proof.
  unfold TrainControls.selectedSchedule.
  induction l as [|x rest IH]; simpl.
  - intros s [].
  - destruct (negb (Db.isCancelled x) && negb (String.eqb (Db.status x) "completed"))
      eqn:Hx.
    + apply andb_true_iff in Hx. destruct Hx as [Hc Hs].
      apply negb_true_iff in Hc, Hs. split; [exact Hc|]. split.
      * intros Heq. rewrite Heq in Hs. discriminate Hs.
      * exists [], rest. split; [reflexivity|]. intros y [].
    + assert (Hclosed : Db.isCancelled x = true \/ Db.status x = "completed").
      { apply andb_false_iff in Hx. destruct Hx as [Hc | Hs].
        - left. apply negb_false_iff in Hc. exact Hc.
        - right. apply negb_false_iff in Hs. apply String.eqb_eq in Hs. exact Hs. }
      destruct (find _ rest) as [s|].
      * destruct IH as (Hc & Hs & before & after & -> & Hbefore).
        split; [exact Hc|]. split; [exact Hs|].
        exists (x :: before), after. split; [reflexivity|].
        intros y [<- | Hy]; [exact Hclosed | apply Hbefore; exact Hy].
      * intros s [<- | Hs]; [exact Hclosed | apply IH; exact Hs].
Qed.

(** X15. The import dialog lets a schedule through exactly when its arrival
    is after its departure and its effective end date, if any, is after its
    effective start date; when both fail, the arrival is the one reported. *)
Theorem import_date_check
  (departure arrival startDate : Z) (endDate : option Z) :
  (ImportSchedules.dateRelationshipError departure arrival startDate endDate = None
   <-> departure < arrival /\ forall e, endDate = Some e -> startDate < e)
  /\ (arrival <= departure ->
      ImportSchedules.dateRelationshipError departure arrival startDate endDate
      = Some "Arrival time must be after departure time")
  /\ (departure < arrival -> forall e, endDate = Some e -> e <= startDate ->
      ImportSchedules.dateRelationshipError departure arrival startDate endDate
      = Some "Effective end date must be after start date").
Proof.
  unfold ImportSchedules.dateRelationshipError.
  destruct (arrival <=? departure) eqn:Ha.
  - apply Z.leb_le in Ha. split; [split|split].
    + discriminate.
    + intros [H _]. lia.
    + reflexivity.
    + intros H. lia.
  - apply Z.leb_gt in Ha. destruct endDate as [e|].
    + destruct (e <=? startDate) eqn:He.
      * apply Z.leb_le in He. split; [split|split].
        -- discriminate.
        -- intros [_ H]. specialize (H e eq_refl). lia.
        -- intros H. lia.
        -- reflexivity.
      * apply Z.leb_gt in He. split; [split|split].
        -- intros _. split; [exact Ha|]. intros e' [= <-]. exact He.
        -- reflexivity.
        -- intros H. lia.
        -- intros _ e' [= <-] Hle. lia.
    + split; [split|split].
      * intros _. split; [exact Ha|]. discriminate.
      * reflexivity.
      * intros H. lia.
      * discriminate.
Qed.

(** ** Roles and registration *)

(** [requireRole] lets a request through exactly when it is
    authenticated and the role of its user is one of the roles given; a
    request without a user is answered 401, one with another role 403. *)
Theorem requireRole_next_iff (roles : list string) (user : option Auth.User) :
  (Auth.requireRole roles user = Auth.Next
   <-> exists u, user = Some u /\ In (Auth.role u) roles)
  /\ (user = None -> Auth.requireRole roles user = Auth.Send 401 "Not authenticated")
  /\ (forall u, user = Some u -> ~ In (Auth.role u) roles ->
      Auth.requireRole roles user = Auth.Send 403 "Insufficient permissions").
Proof.
  assert (Hmem : forall u, existsb (String.eqb (Auth.role u)) roles = true
                           <-> In (Auth.role u) roles).
  { intros u. rewrite existsb_exists. split.
    - intros (x & Hx & Heq). apply String.eqb_eq in Heq. subst. exact Hx.
    - intros Hin. exists (Auth.role u). split; [exact Hin | apply String.eqb_refl]. }
  unfold Auth.requireRole. split; [|split].
  - destruct user as [u|].
    + destruct (existsb _ roles) eqn:Hex; simpl.
      * split; [|reflexivity]. intros _. exists u. split; [reflexivity|].
        apply Hmem. exact Hex.
      * split; [discriminate|]. intros (u' & [= <-] & Hin).
        apply Hmem in Hin. congruence.
    + split; [discriminate|]. intros (u & Hu & _). discriminate Hu.
  - intros ->. reflexivity.
  - intros u -> Hnot. destruct (existsb _ roles) eqn:Hex; [|reflexivity].
    exfalso. apply Hnot. apply Hmem. exact Hex.
Qed.

Lemma register_guard_passes (requester : option Auth.User) (data : Auth.RegisterData) :
  String.eqb (Auth.registerRole requester data) Auth.Admin
  && match requester with
     | None => true
     | Some u => negb (String.eqb (Auth.role u) Auth.Admin)
     end = false.
Proof.
  unfold Auth.registerRole. destruct requester as [u|]; simpl; [|reflexivity].
  destruct (String.eqb (Auth.role u) Auth.Admin); simpl;
    [apply andb_false_r | reflexivity].
Qed.

(** X16. The refusal [Only admins can create admin users] is never given:
    the role is admin only when the requester is an admin, and then the
    guard lets it pass. *)
Theorem register_admin_refusal_unreachable
  (hash : string -> string) (st : Auth.Users) (requester : option Auth.User)
  (result : Zod.SafeParseResult Auth.RegisterData) :
  snd (Auth.register hash st requester result)
  <> Auth.Refused 403 "Only admins can create admin users".
Proof.
  unfold Auth.register. destruct result as [data|errs]; [|discriminate].
  cbv zeta. rewrite register_guard_passes.
  destruct (Auth.usernameTaken _ _); simpl; discriminate.
Qed.

(** X17. Whoever is not an admin, or not logged in, registers a viewer,
    whatever role the body asks for; an admin gives the role of the body, if
    it has one. *)
Theorem register_role_of_new_user
  (hash : string -> string) (st st' : Auth.Users) (requester : option Auth.User)
  (data : Auth.RegisterData) (id : Z) (u : Auth.User)
  (Hregistered : Auth.register hash st requester (Zod.success data)
                 = (st', Auth.Registered id u)) :
  ((forall a, requester = Some a -> Auth.role a <> Auth.Admin) ->
   Auth.role u = Auth.Viewer)
  /\ (forall a r, requester = Some a -> Auth.role a = Auth.Admin ->
      Auth.reg_role data = Js.Val r -> r <> "" -> Auth.role u = r)
  /\ Auth.username u = Auth.reg_username data
  /\ Auth.password u = hash (Auth.reg_password data)
  /\ Auth.users st' !! id = Some u.
Proof.
  unfold Auth.register in Hregistered.
  destruct (_ && _) in Hregistered; [discriminate|].
  destruct (Auth.usernameTaken _ _); [discriminate|].
  injection Hregistered as <- <- <-. simpl.
  split; [|split; [|split; [reflexivity | split; [reflexivity | apply lookup_insert_eq]]]].
  - intros Hnot. unfold Auth.registerRole.
    destruct requester as [a|]; [|reflexivity].
    specialize (Hnot a eq_refl).
    destruct (String.eqb (Auth.role a) Auth.Admin) eqn:Heq; [|reflexivity].
    apply String.eqb_eq in Heq. contradiction.
  - intros a r -> Hadm Hrole Hne. unfold Auth.registerRole.
    rewrite Hadm, Hrole. simpl. destruct r; [contradiction|reflexivity].
Qed.

Lemma register_role_of_new_user_witness :
  exists st' id u,
    Auth.register AdminFixtures.hashed AdminFixtures.users0 (Some AdminFixtures.olga)
      (Zod.success AdminFixtures.wantsAdmin) = (st', Auth.Registered id u)
    /\ Auth.role u = Auth.Viewer.
Proof.
  assert (Hreg : exists st' id u,
    Auth.register AdminFixtures.hashed AdminFixtures.users0 (Some AdminFixtures.olga)
      (Zod.success AdminFixtures.wantsAdmin) = (st', Auth.Registered id u)).
  { do 3 eexists. vm_compute. reflexivity. }
  destruct Hreg as (st' & id & u & Hreg).
  exists st', id, u. split; [exact Hreg|].
  destruct (register_role_of_new_user _ _ _ _ _ _ _ Hreg) as (Hviewer & _).
  apply Hviewer. intros a [= <-]. discriminate.
Defined.

Section UserFacts.

Lemma usernameTaken_false table name :
  Auth.usernameTaken table name = false ->
  forall i u, table !! i = Some u -> Auth.username u <> name.
Proof.
  unfold Auth.usernameTaken. intros H i u Hi Heq.
  apply bool_decide_eq_false in H. apply H. exists i, u. auto.
Qed.

Lemma usernameTaken_true table name :
  Auth.usernameTaken table name = true ->
  exists i u, table !! i = Some u /\ Auth.username u = name.
Proof.
  unfold Auth.usernameTaken. intros H. apply bool_decide_eq_true in H. exact H.
Qed.

End UserFacts.

(** X18. Registration keeps the user names unique: a name that is taken is
    answered 400 [Username already exists] and the table is left alone, and a
    registration that succeeds adds one row under a new id. *)
Theorem register_keeps_usernames_unique
  (hash : string -> string) (st st' : Auth.Users) (requester : option Auth.User)
  (result : Zod.SafeParseResult Auth.RegisterData) (r : Auth.RegisterResponse)
  (Hunique : Auth.usernamesUnique (Auth.users st))
  (Hissued : Auth.keysIssued st)
  (Hreg : Auth.register hash st requester result = (st', r)) :
  Auth.usernamesUnique (Auth.users st')
  /\ Auth.keysIssued st'
  /\ (forall data i u, result = Zod.success data ->
        Auth.users st !! i = Some u -> Auth.username u = Auth.reg_username data ->
        st' = st /\ r = Auth.Refused 400 "Username already exists")
  /\ (forall id u, r = Auth.Registered id u ->
        Auth.users st !! id = None
        /\ Auth.users st' = <[id := u]> (Auth.users st)).
Proof.
  assert (Hfresh : Auth.users st !! (Auth.userSeq st + 1) = None).
  { destruct (Auth.users st !! (Auth.userSeq st + 1)) eqn:Hk; [|reflexivity].
    assert (Hle : Auth.userSeq st + 1 <= Auth.userSeq st) by (apply Hissued; eauto).
    lia. }
  unfold Auth.register in Hreg.
  destruct result as [data|errs].
  2:{ injection Hreg as <- <-. repeat split; try assumption; discriminate. }
  cbv zeta in Hreg. rewrite register_guard_passes in Hreg.
  destruct (Auth.usernameTaken (Auth.users st) (Auth.reg_username data)) eqn:Htaken.
  - injection Hreg as <- <-. split; [exact Hunique|]. split; [exact Hissued|].
    split; [|discriminate]. intros d i u _ _ _. split; reflexivity.
  - injection Hreg as <- <-. simpl. split; [|split; [|split]].
    + intros i j a b Hi Hj Heq.
      apply lookup_insert_Some in Hi. apply lookup_insert_Some in Hj.
      destruct Hi as [[<- <-] | [Hni Hi]]; destruct Hj as [[<- <-] | [Hnj Hj]].
      * reflexivity.
      * exfalso. simpl in Heq.
        eapply usernameTaken_false; [exact Htaken | exact Hj | symmetry; exact Heq].
      * exfalso. simpl in Heq.
        eapply usernameTaken_false; [exact Htaken | exact Hi | exact Heq].
      * eapply Hunique; eassumption.
    + intros k Hk. simpl in Hk |- *. apply lookup_insert_is_Some in Hk.
      destruct Hk as [<- | [_ Hk]]; [lia|]. apply Hissued in Hk. lia.
    + intros d i u [= <-] Hi Hu. exfalso.
      eapply usernameTaken_false; eassumption.
    + intros id u [= <- <-]. split; [exact Hfresh | reflexivity].
Qed.

Ltac concrete_lookups :=
  repeat match goal with
  | H : is_Some (_ !! _) |- _ => destruct H as [? H]
  | H : <[_ := _]> _ !! _ = Some _ |- _ =>
      apply lookup_insert_Some in H; destruct H as [[? ?] | [? H]]
  | H : ∅ !! _ = Some _ |- _ => rewrite lookup_empty in H; discriminate H
  end.

Lemma users0_unique : Auth.usernamesUnique (Auth.users AdminFixtures.users0).
Proof.
  intros i j a b Hi Hj Heq. simpl in Hi, Hj.
  concrete_lookups; subst; try reflexivity; discriminate Heq.
Defined.

Lemma users0_issued : Auth.keysIssued AdminFixtures.users0.
Proof.
  intros k Hk. simpl in Hk |- *. concrete_lookups; subst; lia.
Defined.

Lemma register_keeps_usernames_unique_witness :
  exists st' r,
    Auth.register AdminFixtures.hashed AdminFixtures.users0 None
      (Zod.success {| Auth.reg_username := "olga"; Auth.reg_password := "x";
                      Auth.reg_role := Js.Undefined |}) = (st', r)
    /\ Auth.usernamesUnique (Auth.users st') /\ Auth.keysIssued st'
    /\ st' = AdminFixtures.users0
    /\ r = Auth.Refused 400 "Username already exists".
Proof.
  destruct (Auth.register AdminFixtures.hashed AdminFixtures.users0 None
              (Zod.success {| Auth.reg_username := "olga"; Auth.reg_password := "x";
                              Auth.reg_role := Js.Undefined |}))
    as [st' r] eqn:Hreg.
  exists st', r. split; [reflexivity|].
  destruct (register_keeps_usernames_unique _ _ _ _ _ _ users0_unique users0_issued Hreg)
    as (Hu & Hk & Hdup & _).
  split; [exact Hu|]. split; [exact Hk|].
  apply (Hdup _ 2 AdminFixtures.olga eq_refl); reflexivity.
Defined.

(** ** Locations *)

Section LocationFacts.
Import Js Zod ZodMore.
Variable toUpperCase : string -> string.

(** A string has at most as many code units as bytes, and at least one when
    it is not empty. *)
Lemma utf16From_le s : forall pending astral,
  (utf16From pending astral s <= String.length s)%nat.
Proof.
  induction s as [|a rest IH]; intros pending astral; [simpl; lia|].
  cbn [utf16From String.length].
  pose proof (IH (pending - 1)%nat astral) as H0.
  pose proof (IH 0%nat false) as H1. pose proof (IH 1%nat false) as H2.
  pose proof (IH 2%nat false) as H3. pose proof (IH 3%nat true) as H4.
  repeat match goal with |- context [if ?c then _ else _] => destruct c end; lia.
Qed.

Lemma utf16Length_le s : (utf16Length s <= String.length s)%nat.
Proof. apply utf16From_le. Qed.

Lemma utf16Length_pos s : (1 <= String.length s -> 1 <= utf16Length s)%nat.
Proof.
  destruct s as [|a rest]; [simpl; lia|]. intros _.
  unfold utf16Length. cbn [utf16From].
  change (0 <? 0)%nat with false. cbn [andb].
  repeat match goal with |- context [if ?c then _ else _] => destruct c end; lia.
Qed.

Lemma codeTaken_false table c :
  Locations.codeTaken table c = false ->
  forall i l, table !! i = Some l -> Db.code l <> c.
Proof.
  unfold Locations.codeTaken. intros H i l Hi Heq.
  apply bool_decide_eq_false in H. apply H. exists i, l. auto.
Qed.

Lemma codeTaken_true table c :
  Locations.codeTaken table c = true <->
  exists i l, table !! i = Some l /\ Db.code l = c.
Proof.
  unfold Locations.codeTaken. rewrite bool_decide_eq_true. reflexivity.
Qed.

Lemma keysIssued_fresh t :
  Locations.keysIssued t -> Locations.rows t !! (Locations.locationSeq t + 1) = None.
Proof.
  intros Hissued.
  destruct (Locations.rows t !! (Locations.locationSeq t + 1)) eqn:Hk; [|reflexivity].
  assert (Locations.locationSeq t + 1 <= Locations.locationSeq t)
    by (apply Hissued; eauto).
  lia.
Qed.

Lemma selectByCode_inv table c r :
  Locations.selectByCode table c = r ->
  match r with
  | inl found => found = Locations.codeTaken table c
  | inr e => In e Locations.databaseErrors
             /\ Locations.codeTaken table c = false /\ Db.text c = false
  end.
Proof.
  unfold Locations.selectByCode. intros <-.
  destruct (Locations.codeTaken table c); [reflexivity|].
  destruct (Db.text c); [reflexivity|].
  split; [left; reflexivity | split; reflexivity].
Qed.

Lemma insertLocation_error t d e :
  Locations.insertLocation t d = inr e -> In e Locations.databaseErrors.
Proof.
  unfold Locations.insertLocation.
  destruct (negb _); [intros [= <-]; left; reflexivity|].
  destruct (negb _); [intros [= <-]; right; left; reflexivity | discriminate].
Qed.

(** Inserting a location whose code is free keeps the table well formed and
    keeps every code that was taken. *)
Lemma insertLocation_invariant t d t' new :
  Locations.insertLocation t d = inl (t', new) ->
  Locations.codesUnique (Locations.rows t) -> Locations.keysIssued t ->
  Locations.codeTaken (Locations.rows t) (Locations.code d) = false ->
  Locations.codesUnique (Locations.rows t') /\ Locations.keysIssued t'
  /\ Locations.codeTaken (Locations.rows t') (Locations.code d) = true
  /\ (forall c, Locations.codeTaken (Locations.rows t) c = true ->
                Locations.codeTaken (Locations.rows t') c = true)
  /\ Locations.locationSeq t' = Locations.locationSeq t + 1.
Proof.
  unfold Locations.insertLocation.
  destruct (negb (Db.text _ && Db.text _)); [discriminate|].
  destruct (negb (Db.int4 _)); [discriminate|].
  intros [= <- <-] Hunique Hissued Hfree.
  pose proof (keysIssued_fresh t Hissued) as Hfresh.
  simpl. split; [|split; [|split; [|split]]].
  - intros i j a b Hi Hj Heq.
    apply lookup_insert_Some in Hi. apply lookup_insert_Some in Hj.
    destruct Hi as [[<- <-] | [Hni Hi]]; destruct Hj as [[<- <-] | [Hnj Hj]].
    + reflexivity.
    + exfalso. simpl in Heq.
      eapply codeTaken_false; [exact Hfree | exact Hj | symmetry; exact Heq].
    + exfalso. simpl in Heq.
      eapply codeTaken_false; [exact Hfree | exact Hi | exact Heq].
    + eapply Hunique; eassumption.
  - intros k Hk. simpl in Hk |- *. apply lookup_insert_is_Some in Hk.
    destruct Hk as [<- | [_ Hk]]; [lia|]. apply Hissued in Hk. lia.
  - apply codeTaken_true. eexists _, _. split; [apply lookup_insert_eq | reflexivity].
  - intros c Hc. apply codeTaken_true in Hc. destruct Hc as (i & l & Hi & Hl).
    apply codeTaken_true. exists i, l. split; [|exact Hl].
    rewrite lookup_insert_ne; [exact Hi|]. intros <-. congruence.
  - reflexivity.
Qed.

(** One turn of the import: the table stays well formed; unless a statement
    has failed, the code of the item is taken afterwards; and a failed
    statement leaves its message among the failures. *)
Lemma importOne_invariant t ab done failures x t' ab' done' failures' :
  Locations.importOne (t, ab, done, failures) x = (t', ab', done', failures') ->
  Locations.codesUnique (Locations.rows t) -> Locations.keysIssued t ->
  Locations.codesUnique (Locations.rows t') /\ Locations.keysIssued t'
  /\ (ab' = false -> Locations.codeTaken (Locations.rows t') (Locations.code x) = true)
  /\ (forall c, Locations.codeTaken (Locations.rows t) c = true ->
                Locations.codeTaken (Locations.rows t') c = true)
  /\ (length done' + length failures' = S (length done + length failures))%nat
  /\ Locations.locationSeq t <= Locations.locationSeq t'
  /\ (ab = true -> ab' = true)
  /\ (ab' = true -> exists f, In f failures' /\ In (snd f) Locations.databaseErrors)
  /\ (forall f, In f failures -> In f failures').
Proof.
  unfold Locations.importOne. intros Hone Hunique Hissued.
  assert (Hfailed : forall m,
    In m Locations.databaseErrors ->
    (t, true, done, (failures ++ [(x, m)])%list) = (t', ab', done', failures') ->
    Locations.codesUnique (Locations.rows t') /\ Locations.keysIssued t'
    /\ (ab' = false -> Locations.codeTaken (Locations.rows t') (Locations.code x) = true)
    /\ (forall c, Locations.codeTaken (Locations.rows t) c = true ->
                  Locations.codeTaken (Locations.rows t') c = true)
    /\ (length done' + length failures' = S (length done + length failures))%nat
    /\ Locations.locationSeq t <= Locations.locationSeq t'
    /\ (ab = true -> ab' = true)
    /\ (ab' = true -> exists f, In f failures' /\ In (snd f) Locations.databaseErrors)
    /\ (forall f, In f failures -> In f failures')).
  { intros m Hm [= <- <- <- <-]. rewrite length_app. simpl.
    split; [exact Hunique|]. split; [exact Hissued|]. split; [discriminate|].
    split; [auto|]. split; [lia|]. split; [lia|]. split; [auto|]. split.
    - intros _. exists (x, m). split; [apply in_or_app; right; left; reflexivity | exact Hm].
    - intros f Hf. apply in_or_app. left. exact Hf. }
  destruct ab.
  { eapply Hfailed; [|exact Hone]. right. right. left. reflexivity. }
  destruct (Locations.selectByCode (Locations.rows t) (Locations.code x))
    as [[|]|e] eqn:Hsel; apply selectByCode_inv in Hsel.
  - injection Hone as <- <- <- <-. rewrite length_app. simpl.
    split; [exact Hunique|]. split; [exact Hissued|]. split; [auto|].
    split; [auto|]. split; [lia|]. split; [lia|]. split; [discriminate|].
    split; [discriminate|]. intros f Hf. apply in_or_app. left. exact Hf.
  - symmetry in Hsel.
    destruct (Locations.insertLocation t x) as [[t2 new]|e] eqn:Hins.
    + destruct (insertLocation_invariant _ _ _ _ Hins Hunique Hissued Hsel)
        as (H1 & H2 & H3 & H4 & H5).
      injection Hone as <- <- <- <-. rewrite length_app. simpl.
      split; [exact H1|]. split; [exact H2|]. split; [auto|].
      split; [exact H4|]. split; [lia|]. split; [lia|]. split; [discriminate|].
      split; [discriminate | auto].
    + eapply Hfailed; [|exact Hone]. eapply insertLocation_error. exact Hins.
  - destruct Hsel as (He & _). eapply Hfailed; [exact He | exact Hone].
Qed.

Lemma import_loop_invariant l : forall t ab done failures t' ab' done' failures',
  fold_left Locations.importOne l (t, ab, done, failures) = (t', ab', done', failures') ->
  Locations.codesUnique (Locations.rows t) -> Locations.keysIssued t ->
  Locations.codesUnique (Locations.rows t') /\ Locations.keysIssued t'
  /\ (ab' = false -> forall x, In x l ->
        Locations.codeTaken (Locations.rows t') (Locations.code x) = true)
  /\ (forall c, Locations.codeTaken (Locations.rows t) c = true ->
                Locations.codeTaken (Locations.rows t') c = true)
  /\ (length done' + length failures' = length l + (length done + length failures))%nat
  /\ Locations.locationSeq t <= Locations.locationSeq t'
  /\ (ab = true -> ab' = true)
  /\ (ab' = true -> ab = true
      \/ exists f, In f failures' /\ In (snd f) Locations.databaseErrors)
  /\ (forall f, In f failures -> In f failures').
Proof.
  induction l as [|x rest IH];
    intros t ab done failures t' ab' done' failures' Hfold Hu Hk.
  - injection Hfold as <- <- <- <-.
    split; [exact Hu|]. split; [exact Hk|]. split; [intros _ ? []|].
    split; [auto|]. split; [reflexivity|]. split; [lia|]. split; [auto|].
    split; [auto | auto].
  - cbn [fold_left] in Hfold.
    destruct (Locations.importOne (t, ab, done, failures) x)
      as [[[t1 ab1] d1] f1] eqn:Hone.
    destruct (importOne_invariant _ _ _ _ _ _ _ _ _ Hone Hu Hk)
      as (Hu1 & Hk1 & Hx & Hmono1 & Hlen1 & Hseq1 & Hab1 & Htrace1 & Hkeep1).
    destruct (IH _ _ _ _ _ _ _ _ Hfold Hu1 Hk1)
      as (Hu' & Hk' & Hall & Hmono & Hlen & Hseq & Hab & Htrace & Hkeep).
    split; [exact Hu'|]. split; [exact Hk'|]. split; [|split; [|split; [|split]]].
    + intros Hfalse y [<- | Hy]; [|apply Hall; assumption].
      apply Hmono, Hx. destruct ab1; [|reflexivity].
      specialize (Hab eq_refl). congruence.
    + intros c Hc. apply Hmono, Hmono1, Hc.
    + simpl. lia.
    + lia.
    + split; [auto|]. split; [|auto].
      intros Htrue. destruct (Htrace Htrue) as [Hab1' | Hf]; [|right; exact Hf].
      destruct ab; [left; reflexivity|]. right.
      destruct (Htrace1 Hab1') as (f & Hf & He). exists f. split; [apply Hkeep, Hf | exact He].
Qed.

(** When every code of the list is taken, the loop inserts nothing. *)
Lemma import_loop_all_taken l : forall t done failures,
  (forall x, In x l -> Locations.codeTaken (Locations.rows t) (Locations.code x) = true) ->
  exists failures',
    fold_left Locations.importOne l (t, false, done, failures)
    = (t, false, done, failures')
    /\ length failures' = (length l + length failures)%nat.
Proof.
  induction l as [|x rest IH]; intros t done failures Hall.
  - exists failures. split; reflexivity.
  - cbn [fold_left]. unfold Locations.importOne at 2. unfold Locations.selectByCode.
    rewrite (Hall x (or_introl eq_refl)).
    destruct (IH t done
                (failures ++ [(x, ("Location with code " ++ Locations.code x
                                   ++ " already exists")%string)])%list)
      as (f' & Hfold & Hlen).
    + intros y Hy. apply Hall. right. exact Hy.
    + exists f'. split; [exact Hfold|]. rewrite Hlen, length_app. simpl. lia.
Qed.

(** What the schema accepted: a name and a code of the body, the code of
    one to ten code units, handed on in upper case. *)
Lemma locationSchema_success v d :
  safeParse (Locations.locationSchema toUpperCase v) = success d ->
  exists body n c,
    v = Some body
    /\ prop "name" body = Some (JStr n) /\ prop "code" body = Some (JStr c)
    /\ (1 <= utf16Length n)%nat /\ (1 <= utf16Length c <= 10)%nat
    /\ d = {| Locations.name := n; Locations.code := toUpperCase c |}.
Proof.
  intros H. apply safeParse_success in H. destruct H as [Hv Hi].
  unfold Locations.locationSchema in *.
  destruct v as [[| | | | |fields]|]; try discriminate.
  apply apP_value in Hv. destruct Hv as (g & c' & Hg & Hc & ->).
  apply apP_value in Hg. destruct Hg as (g0 & n & Hg0 & Hn & ->).
  injection Hg0 as <-.
  apply apP_issues_nil in Hi. destruct Hi as [Hi Hic].
  apply apP_issues_nil in Hi. destruct Hi as [_ Hin].
  apply addPath_issues_nil in Hic, Hin.
  unfold field in Hn, Hc. cbn [value addPath] in Hn, Hc.
  exists (JObj fields).
  unfold minLength, maxLength, upperCased, mapP, string_ in *.
  remember (prop "name" (JObj fields)) as pn eqn:Hpn.
  remember (prop "code" (JObj fields)) as pc eqn:Hpc.
  destruct pn as [[| | |n0| |]|]; cbn [value issues OK INVALID] in Hn, Hin;
    try discriminate Hn.
  destruct pc as [[| | |c0| |]|]; cbn [value issues OK INVALID] in Hc, Hic;
    try discriminate Hc.
  destruct (utf16Length n0 <? 1)%nat eqn:Hn1; cbn [value issues OK] in Hn, Hin;
    [destruct (issues _); discriminate Hin|].
  destruct (utf16Length c0 <? 1)%nat eqn:Hc1; cbn [value issues OK app] in Hc, Hic.
  { destruct (10 <? utf16Length c0)%nat; cbn [value issues OK app] in Hic;
      discriminate Hic. }
  destruct (10 <? utf16Length c0)%nat eqn:Hc10; cbn [value issues OK app option_map] in Hc, Hic;
    [discriminate Hic|].
  injection Hn as <-. injection Hc as <-.
  apply Nat.ltb_ge in Hn1, Hc1, Hc10.
  exists n0, c0. repeat split; auto.
Qed.

End LocationFacts.

(** X19. A location that is created carries the name of the body and the
    code of the body in upper case. The name has at least one UTF-16 code
    unit and the code, as sent, one to ten (the schema counts the [length]
    of the JavaScript string, not bytes); neither stored text holds a NUL
    character; and no location had the upper-cased code. *)
Theorem postLocation_created
  (toUpperCase : string -> string) (t t' : Locations.Table) (body : Js.Json)
  (m : string) (id : Z) (location : Db.Location)
  (Hcreated : Locations.postLocation toUpperCase t body
              = (t', Locations.Created m id location)) :
  exists n c,
    Js.prop "name" body = Some (Js.JStr n) /\ Js.prop "code" body = Some (Js.JStr c)
    /\ (1 <= ZodMore.utf16Length n)%nat /\ (1 <= ZodMore.utf16Length c <= 10)%nat
    /\ Db.text n = true /\ Db.text (toUpperCase c) = true
    /\ location = {| Db.name := n; Db.code := toUpperCase c |}
    /\ (forall i l, Locations.rows t !! i = Some l -> Db.code l <> toUpperCase c)
    /\ id = Locations.locationSeq t + 1
    /\ Locations.rows t' = <[id := location]> (Locations.rows t).
Proof.
  unfold Locations.postLocation in Hcreated.
  destruct (Zod.safeParse _) as [d|errs] eqn:Hparse; [|discriminate].
  destruct (Locations.selectByCode _ _) as [[|]|e] eqn:Hsel; try discriminate.
  apply selectByCode_inv in Hsel. symmetry in Hsel.
  unfold Locations.insertLocation in Hcreated.
  destruct (Db.text (Locations.name d) && Db.text (Locations.code d)) eqn:Htext;
    [|discriminate].
  destruct (negb (Db.int4 _)); [discriminate|].
  cbn [negb] in Hcreated. injection Hcreated as <- _ <- <-.
  apply andb_true_iff in Htext. destruct Htext as [Htn Htc].
  apply locationSchema_success in Hparse.
  destruct Hparse as (b & n & c & [= <-] & Hn & Hc & Hln & Hlc & ->).
  exists n, c. cbn [Locations.name Locations.code Locations.rows] in *.
  split; [exact Hn|]. split; [exact Hc|]. split; [exact Hln|]. split; [exact Hlc|].
  split; [exact Htn|]. split; [exact Htc|]. split; [reflexivity|].
  split; [|split; reflexivity].
  intros i l Hi. eapply codeTaken_false; eassumption.
Qed.

Lemma postLocation_created_witness :
  exists t' id,
    Locations.postLocation Timeline.toUpperCase AdminFixtures.locations0
      AdminFixtures.zeta
    = (t', Locations.Created "Location created successfully" id
             {| Db.name := "Zeta"; Db.code := "ZET" |})
    /\ id = 6
    /\ Locations.rows t' !! 6 = Some {| Db.name := "Zeta"; Db.code := "ZET" |}.
Proof.
  assert (Hpost : exists t' id,
    Locations.postLocation Timeline.toUpperCase AdminFixtures.locations0
      AdminFixtures.zeta
    = (t', Locations.Created "Location created successfully" id
             {| Db.name := "Zeta"; Db.code := "ZET" |})).
  { do 2 eexists. vm_compute. reflexivity. }
  destruct Hpost as (t' & id & Hpost).
  destruct (postLocation_created _ _ _ _ _ _ _ Hpost)
    as (n & c & _ & _ & _ & _ & _ & _ & _ & _ & Hid & Hrows).
  exists t', id. split; [exact Hpost|]. split; [exact Hid|].
  rewrite Hrows, Hid. apply lookup_insert_eq.
Defined.

(** A code of seven letters that take two bytes each has seven code units:
    the location is created. A name with a NUL character passes the schema
    and is refused by the database. *)
Example postLocation_counts_code_units :
  String.length "ÉÉÉÉÉÉÉ" = 14%nat
  /\ exists t',
       Locations.postLocation Timeline.toUpperCase AdminFixtures.locations0
         (Js.JObj [("name", Js.JStr "Étaples"); ("code", Js.JStr "ÉÉÉÉÉÉÉ")])
       = (t', Locations.Created "Location created successfully" 6
                {| Db.name := "Étaples"; Db.code := "ÉÉÉÉÉÉÉ" |}).
Proof. split; [reflexivity|]. eexists. vm_compute. reflexivity. Qed.

Example postLocation_refused_by_database :
  Locations.postLocation Timeline.toUpperCase AdminFixtures.locations0
    AdminFixtures.nulName
  = (AdminFixtures.locations0,
     Locations.ServerError "Failed to create location" Db.invalidByteSequence).
Proof. vm_compute. reflexivity. Qed.

Lemma locations0_unique : Locations.codesUnique (Locations.rows AdminFixtures.locations0).
Proof.
  intros i j a b Hi Hj Heq. unfold AdminFixtures.locations0, Fixtures.db0 in Hi, Hj.
  simpl in Hi, Hj.
  concrete_lookups; subst; try reflexivity; discriminate Heq.
Defined.

Lemma locations0_issued : Locations.keysIssued AdminFixtures.locations0.
Proof.
  intros k Hk. unfold AdminFixtures.locations0, Fixtures.db0 in Hk. simpl in Hk |- *.
  concrete_lookups; subst; lia.
Defined.

(** X20. A location whose code, in upper case, is the code of an existing
    location is answered 409 [Location already exists], whatever the case of
    the letters sent, and the table is left as it was. *)
Theorem postLocation_conflict
  (toUpperCase : string -> string) (t : Locations.Table) (body : Js.Json)
  (n c : string) (i : Z) (l : Db.Location)
  (Hname : Js.prop "name" body = Some (Js.JStr n))
  (Hcode : Js.prop "code" body = Some (Js.JStr c))
  (Hlengths : (1 <= String.length n)%nat /\ (1 <= String.length c <= 10)%nat)
  (Hexists : Locations.rows t !! i = Some l /\ Db.code l = toUpperCase c) :
  Locations.postLocation toUpperCase t body
  = (t, Locations.Conflict "Location already exists"
          ("A location with code " ++ toUpperCase c ++ " already exists")).
Proof.
  destruct Hlengths as (Hn & Hc1 & Hc10). destruct Hexists as (Hi & Hl).
  apply utf16Length_pos in Hn, Hc1.
  pose proof (utf16Length_le c) as Hle.
  destruct body as [| | | | |fields]; try discriminate Hname.
  assert (Hparse :
    Zod.safeParse (Locations.locationSchema toUpperCase (Some (Js.JObj fields)))
    = Zod.success {| Locations.name := n; Locations.code := toUpperCase c |}).
  { unfold Locations.locationSchema, Zod.field. rewrite Hname, Hcode.
    unfold ZodMore.upperCased, ZodMore.maxLength, ZodMore.minLength, Zod.string_.
    cbn [Zod.value Zod.issues Zod.OK].
    replace (ZodMore.utf16Length n <? 1)%nat with false
      by (symmetry; apply Nat.ltb_ge; lia).
    replace (ZodMore.utf16Length c <? 1)%nat with false
      by (symmetry; apply Nat.ltb_ge; lia).
    cbn [Zod.value Zod.issues Zod.OK].
    replace (10 <? ZodMore.utf16Length c)%nat with false
      by (symmetry; apply Nat.ltb_ge; lia).
    reflexivity. }
  unfold Locations.postLocation. rewrite Hparse. cbn [Locations.code].
  unfold Locations.selectByCode.
  replace (Locations.codeTaken (Locations.rows t) (toUpperCase c)) with true;
    [reflexivity|].
  symmetry. apply codeTaken_true. exists i, l. split; assumption.
Qed.

Lemma postLocation_conflict_witness :
  Locations.postLocation Timeline.toUpperCase AdminFixtures.locations0
    (Js.JObj [("name", Js.JStr "Alpha South"); ("code", Js.JStr "alp")])
  = (AdminFixtures.locations0,
     Locations.Conflict "Location already exists"
       "A location with code ALP already exists").
Proof.
  apply (postLocation_conflict Timeline.toUpperCase AdminFixtures.locations0 _
           "Alpha South" "alp" 1 (Fixtures.loc "Alpha" "ALP")).
  - reflexivity.
  - reflexivity.
  - simpl. lia.
  - split; [vm_compute; reflexivity | reflexivity].
Defined.

(** X21. Creating a location keeps the codes of the table unique and the
    keys within the sequence, whatever the body; no code that was taken
    becomes free, and an answer other than the created location leaves the
    table as it was. *)
Theorem postLocation_keeps_codes_unique
  (toUpperCase : string -> string) (t t' : Locations.Table) (body : Js.Json)
  (r : Locations.Response)
  (Hunique : Locations.codesUnique (Locations.rows t))
  (Hissued : Locations.keysIssued t)
  (Hpost : Locations.postLocation toUpperCase t body = (t', r)) :
  Locations.codesUnique (Locations.rows t') /\ Locations.keysIssued t'
  /\ (forall c, Locations.codeTaken (Locations.rows t) c = true ->
                Locations.codeTaken (Locations.rows t') c = true)
  /\ ((forall m id l, r <> Locations.Created m id l) -> t' = t).
Proof.
  unfold Locations.postLocation in Hpost.
  destruct (Zod.safeParse _) as [d|errs].
  2:{ injection Hpost as <- <-. auto. }
  destruct (Locations.selectByCode _ _) as [[|]|e] eqn:Hsel;
    try (injection Hpost as <- <-; auto; fail).
  apply selectByCode_inv in Hsel. symmetry in Hsel.
  destruct (Locations.insertLocation t d) as [[t2 [newId row]]|e] eqn:Hins.
  - destruct (insertLocation_invariant _ _ _ _ Hins Hunique Hissued Hsel)
      as (H1 & H2 & _ & H4 & _).
    injection Hpost as <- <-.
    split; [exact H1|]. split; [exact H2|]. split; [exact H4|].
    intros Hnot. exfalso. eapply Hnot. reflexivity.
  - injection Hpost as <- <-. auto.
Qed.

Lemma postLocation_keeps_codes_unique_witness :
  Locations.codesUnique
    (Locations.rows (fst (Locations.postLocation Timeline.toUpperCase
                            AdminFixtures.locations0 AdminFixtures.zeta)))
  /\ Locations.keysIssued
       (fst (Locations.postLocation Timeline.toUpperCase
               AdminFixtures.locations0 AdminFixtures.zeta)).
Proof.
  destruct (Locations.postLocation Timeline.toUpperCase AdminFixtures.locations0
              AdminFixtures.zeta) as [t' r] eqn:Hpost.
  destruct (postLocation_keeps_codes_unique _ _ _ _ _
              locations0_unique locations0_issued Hpost) as (Hu & Hk & _).
  split; assumption.
Defined.

(** X22. The summary of an import adds up: every location of the file is
    counted once, as imported or as failed, the counts are the lengths of the
    two lists of the answer, and the codes of the table stay unique. *)
Theorem importLocations_summary
  (toUpperCase : string -> string) (t t' : Locations.Table) (body : Js.Json)
  (total successful failed : nat)
  (done : list (Z * Db.Location)) (failures : list (Locations.LocationData * string))
  (Hunique : Locations.codesUnique (Locations.rows t))
  (Hissued : Locations.keysIssued t)
  (Himport : Locations.importLocations toUpperCase t body
             = (t', Locations.Imported total successful failed done failures)) :
  total = (successful + failed)%nat
  /\ successful = length done /\ failed = length failures
  /\ (exists items, body = Js.JArr items /\ total = length items)
  /\ Locations.codesUnique (Locations.rows t') /\ Locations.keysIssued t'.
Proof.
  unfold Locations.importLocations in Himport.
  destruct (Zod.safeParse _) as [l|errs] eqn:Hparse; [|discriminate].
  destruct (fold_left _ l _) as [[[t1 ab1] d1] f1] eqn:Hfold.
  injection Himport as <- <- <- <- <- <-.
  destruct (import_loop_invariant _ _ _ _ _ _ _ _ _ Hfold Hunique Hissued)
    as (Hu & Hk & _ & _ & Hlen & Hseq & _).
  simpl in Hlen.
  apply safeParse_success in Hparse. destruct Hparse as [Hv _].
  unfold Zod.array in Hv.
  destruct body as [| | | |items|]; try discriminate Hv.
  apply parseItems_length in Hv.
  split; [lia|]. split; [reflexivity|]. split; [reflexivity|].
  split; [exists items; split; [reflexivity | exact Hv]|].
  unfold Locations.commit. destruct ab1; [|split; assumption].
  cbn [Locations.rows Locations.locationSeq]. split; [exact Hunique|].
  intros k Hk0. cbn [Locations.rows Locations.locationSeq] in Hk0 |- *.
  apply Hissued in Hk0. lia.
Qed.

Lemma importLocations_summary_witness :
  exists t' done failures,
    Locations.importLocations Timeline.toUpperCase AdminFixtures.locations0
      AdminFixtures.batch = (t', Locations.Imported 3 1 2 done failures)
    /\ 3%nat = (1 + 2)%nat /\ 1%nat = length done /\ 2%nat = length failures.
Proof.
  assert (Himp : exists t' done failures,
    Locations.importLocations Timeline.toUpperCase AdminFixtures.locations0
      AdminFixtures.batch = (t', Locations.Imported 3 1 2 done failures)).
  { do 3 eexists. vm_compute. reflexivity. }
  destruct Himp as (t' & done & failures & Himp).
  exists t', done, failures. split; [exact Himp|].
  destruct (importLocations_summary _ _ _ _ _ _ _ _ _
              locations0_unique locations0_issued Himp) as (H1 & H2 & H3 & _).
  auto.
Defined.

Lemma exists_message_no_database_error c :
  ~ In ("Location with code " ++ c ++ " already exists")%string
       Locations.databaseErrors.
Proof.
  intros Hin. vm_compute in Hin.
  repeat (destruct Hin as [Hin | Hin]; [discriminate Hin|]). exact Hin.
Qed.

(** X23. When every failure that an import reports is a location that
    existed already (so that no statement was refused by the database and
    the transaction was committed), importing the same file a second time
    imports nothing: every location of the file fails as already existing
    and the table is unchanged. *)
Theorem importLocations_twice
  (toUpperCase : string -> string) (t t' : Locations.Table) (body : Js.Json)
  (total successful failed : nat)
  (done : list (Z * Db.Location)) (failures : list (Locations.LocationData * string))
  (Hunique : Locations.codesUnique (Locations.rows t))
  (Hissued : Locations.keysIssued t)
  (Himport : Locations.importLocations toUpperCase t body
             = (t', Locations.Imported total successful failed done failures))
  (Hcommitted : forall f, In f failures ->
                 snd f = ("Location with code " ++ Locations.code (fst f)
                          ++ " already exists")%string) :
  exists failures',
    Locations.importLocations toUpperCase t' body
    = (t', Locations.Imported total 0 total [] failures').
Proof.
  unfold Locations.importLocations in *.
  destruct (Zod.safeParse _) as [l|errs] eqn:Hparse; [|discriminate].
  destruct (fold_left _ l (t, _, _, _)) as [[[t1 ab1] d1] f1] eqn:Hfold.
  injection Himport as <- <- _ _ _ <-.
  destruct (import_loop_invariant _ _ _ _ _ _ _ _ _ Hfold Hunique Hissued)
    as (_ & _ & Hall & _ & _ & _ & _ & Htrace & _).
  assert (Hab : ab1 = false).
  { destruct ab1; [|reflexivity]. exfalso.
    destruct (Htrace eq_refl) as [Hfalse | (f & Hf & He)]; [discriminate Hfalse|].
    rewrite (Hcommitted f Hf) in He.
    exact (exists_message_no_database_error _ He). }
  subst ab1. cbn [Locations.commit].
  destruct (import_loop_all_taken l t1 [] [] (Hall eq_refl)) as (f' & Hfold' & Hlen).
  rewrite Hfold'. exists f'. simpl in Hlen. rewrite Hlen, Nat.add_0_r. reflexivity.
Qed.

Lemma importLocations_twice_witness :
  exists t' failures',
    fst (Locations.importLocations Timeline.toUpperCase AdminFixtures.locations0
           AdminFixtures.batch) = t'
    /\ Locations.rows t' !! 6 = Some {| Db.name := "Zeta"; Db.code := "ZET" |}
    /\ Locations.importLocations Timeline.toUpperCase t' AdminFixtures.batch
       = (t', Locations.Imported 3 0 3 [] failures').
Proof.
  assert (Himp : exists t' done failures,
    Locations.importLocations Timeline.toUpperCase AdminFixtures.locations0
      AdminFixtures.batch = (t', Locations.Imported 3 1 2 done failures)
    /\ Locations.rows t' !! 6 = Some {| Db.name := "Zeta"; Db.code := "ZET" |}
    /\ forall f, In f failures ->
         snd f = ("Location with code " ++ Locations.code (fst f)
                  ++ " already exists")%string).
  { do 3 eexists. split; [vm_compute; reflexivity|]. split; [reflexivity|].
    intros f [<- | [<- | []]]; reflexivity. }
  destruct Himp as (t' & done & failures & Himp & Hrow & Hclean).
  destruct (importLocations_twice _ _ _ _ _ _ _ _ _
              locations0_unique locations0_issued Himp Hclean) as (f' & Htwice).
  exists t', f'. split; [rewrite Himp; reflexivity|]. split; [exact Hrow | exact Htwice].
Defined.

(** An import whose second location has a NUL character in its name: the
    insert is refused, the transaction rolls back, and the first location,
    reported as imported, is not stored; its identity value is gone. A second
    import of the same file reports it as imported again. *)
Example importLocations_rolled_back :
  exists done failures done',
    Locations.importLocations Timeline.toUpperCase AdminFixtures.locations0
      AdminFixtures.batchWithNul
    = ({| Locations.rows := Locations.rows AdminFixtures.locations0;
          Locations.locationSeq := 6 |},
       Locations.Imported 2 1 1 done failures)
    /\ List.map fst done = [6]
    /\ List.map snd failures = [Db.invalidByteSequence]
    /\ snd (Locations.importLocations Timeline.toUpperCase
              {| Locations.rows := Locations.rows AdminFixtures.locations0;
                 Locations.locationSeq := 6 |}
              AdminFixtures.batchWithNul)
       = Locations.Imported 2 1 1 done' failures
    /\ List.map fst done' = [7].
Proof.
  do 3 eexists. split; [vm_compute; reflexivity|].
  split; [reflexivity|]. split; [reflexivity|].
  split; [vm_compute; reflexivity | reflexivity].
Qed.

(** ** The import of train types *)

Lemma typeMapping_values kv :
  In kv TrainTypes.typeMapping -> In (snd kv) TrainTypes.TrainType.
Proof.
  unfold TrainTypes.typeMapping. intros Hin.
  repeat (destruct Hin as [<- | Hin]; [vm_compute; tauto|]).
  destruct Hin.
Qed.

Section TrainTypeFacts.
Import Js Zod ZodMore.
Variable toLowerCase : string -> string.
Variable trim : string -> string.
Variable toUpperCase : string -> string.
Variable today : string.

Lemma lookupKey_In k m v :
  TrainTypes.lookupKey k m = Some v -> In (k, v) m.
Proof.
  induction m as [|[k' v'] rest IH]; simpl; [discriminate|].
  destruct (String.eqb k k') eqn:Heq.
  - intros [= <-]. apply String.eqb_eq in Heq. subst. left. reflexivity.
  - intros H. right. apply IH. exact H.
Qed.

Lemma numberTaken_false table n :
  TrainTypes.numberTaken table n = false ->
  forall i r, table !! i = Some r -> Db.trainNumber (TrainTypes.train r) <> n.
Proof.
  unfold TrainTypes.numberTaken. intros H i r Hi Heq.
  apply bool_decide_eq_false in H. apply H. exists i, r. auto.
Qed.

Lemma freeTrainNumber_Some table type : forall remaining retryCount n,
  TrainTypes.freeTrainNumber toUpperCase today table type remaining retryCount = Some n ->
  TrainTypes.numberTaken table n = false
  /\ exists i, (retryCount <= i < retryCount + remaining)%nat
       /\ n = TrainTypes.generateTrainNumber toUpperCase today type i
       /\ forall j, (retryCount <= j < i)%nat ->
            TrainTypes.numberTaken table
              (TrainTypes.generateTrainNumber toUpperCase today type j) = true.
Proof.
  induction remaining as [|rem IH]; intros retryCount n; simpl; [discriminate|].
  destruct (TrainTypes.numberTaken table _) eqn:Htaken.
  - intros H. apply IH in H. destruct H as (Hfree & i & Hi & Hn & Hbefore).
    split; [exact Hfree|]. exists i. split; [lia|]. split; [exact Hn|].
    intros j Hj. destruct (Nat.eq_dec j retryCount) as [-> | Hne];
      [exact Htaken | apply Hbefore; lia].
  - intros [= <-]. split; [exact Htaken|]. exists retryCount.
    split; [lia|]. split; [reflexivity|]. intros j Hj. lia.
Qed.

Lemma freeTrainNumber_None table type : forall remaining retryCount,
  TrainTypes.freeTrainNumber toUpperCase today table type remaining retryCount = None
  <-> forall i, (retryCount <= i < retryCount + remaining)%nat ->
        TrainTypes.numberTaken table
          (TrainTypes.generateTrainNumber toUpperCase today type i) = true.
Proof.
  induction remaining as [|rem IH]; intros retryCount; simpl.
  - split; [intros _ i Hi; lia | reflexivity].
  - destruct (TrainTypes.numberTaken table _) eqn:Htaken.
    + rewrite IH. split; intros H i Hi.
      * destruct (Nat.eq_dec i retryCount) as [-> | Hne];
          [exact Htaken | apply H; lia].
      * apply H. lia.
    + split; [discriminate|]. intros H.
      rewrite H in Htaken by lia. discriminate Htaken.
Qed.

End TrainTypeFacts.

Lemma mapped_type_of_schema (toLowerCase trim : string -> string) (type t : string) :
  TrainTypes.validateAndMapTrainType toLowerCase trim type = TrainTypes.Return t ->
  exists k, In (k, t) TrainTypes.typeMapping
            /\ (k = trim (toLowerCase type)
                \/ TrainTypes.includes (trim (toLowerCase type)) k = true
                \/ TrainTypes.includes k (trim (toLowerCase type)) = true).
Proof.
  unfold TrainTypes.validateAndMapTrainType. intros Hreturn.
  destruct (TrainTypes.lookupKey _ _) as [v|] eqn:Hkey.
  - injection Hreturn as <-. apply lookupKey_In in Hkey.
    eexists. split; [exact Hkey | left; reflexivity].
  - destruct (existsb _ TrainTypes.inheritedNames); [discriminate|].
    destruct (List.filter _ TrainTypes.typeMapping) as [|kv [|kv' rest]] eqn:Hf;
      try discriminate.
    injection Hreturn as <-.
    assert (Hin : In kv (List.filter
                    (fun kv0 => TrainTypes.includes (trim (toLowerCase type)) (fst kv0)
                                || TrainTypes.includes (fst kv0) (trim (toLowerCase type)))
                    TrainTypes.typeMapping)) by (rewrite Hf; left; reflexivity).
    apply filter_In in Hin. destruct Hin as [Hin Hmatch].
    exists (fst kv). split; [destruct kv; exact Hin|].
    right. apply orb_true_iff in Hmatch. exact Hmatch.
Qed.

Lemma mapped_type_in_enum (toLowerCase trim : string -> string) (type t : string) :
  TrainTypes.validateAndMapTrainType toLowerCase trim type = TrainTypes.Return t ->
  In t TrainTypes.TrainType.
Proof.
  intros Hreturn. apply mapped_type_of_schema in Hreturn.
  destruct Hreturn as (k & Hin & _).
  exact (typeMapping_values (k, t) Hin).
Qed.



(** X25. A type that the schema of the import accepts, one of the fourteen
    train types, is mapped to itself: it is a key of the mapping, so neither
    the partial matching nor one of the two errors is ever reached for it. *)
Theorem validateAndMapTrainType_identity_on_enum
  (toLowerCase trim : string -> string) (t : string)
  (Henum : In t TrainTypes.TrainType)
  (Hlower : toLowerCase t = t)
  (Htrim : trim t = t) :
  TrainTypes.validateAndMapTrainType toLowerCase trim t = TrainTypes.Return t.
Proof.
  unfold TrainTypes.validateAndMapTrainType. rewrite Hlower, Htrim.
  unfold TrainTypes.TrainType in Henum.
  repeat (destruct Henum as [<- | Henum]; [reflexivity|]).
  destruct Henum.
Qed.

Lemma validateAndMapTrainType_identity_on_enum_witness :
  TrainTypes.validateAndMapTrainType TrainFixtures.keep TrainFixtures.keep "saloon"
  = TrainTypes.Return "saloon".
Proof.
  apply validateAndMapTrainType_identity_on_enum.
  - vm_compute. tauto.
  - reflexivity.
  - reflexivity.
Defined.

(** X26. The train number given to an imported train is free, and it is the
    first free one of the three numbers of its type and day (sequence 000,
    001, 002); when all three are taken no number is found, so a fourth train
    of a type cannot be imported on the same day. *)
Theorem freeTrainNumber_first_free
  (toUpperCase : string -> string) (today : string)
  (table : gmap Z TrainTypes.TrainRow) (type : string) :
  (forall n,
     TrainTypes.freeTrainNumber toUpperCase today table type TrainTypes.maxRetries 0
     = Some n ->
     TrainTypes.numberTaken table n = false
     /\ exists i, (i < 3)%nat
          /\ n = TrainTypes.generateTrainNumber toUpperCase today type i
          /\ forall j, (j < i)%nat ->
               TrainTypes.numberTaken table
                 (TrainTypes.generateTrainNumber toUpperCase today type j) = true)
  /\ (TrainTypes.freeTrainNumber toUpperCase today table type TrainTypes.maxRetries 0
      = None
      <-> forall i, (i < 3)%nat ->
            TrainTypes.numberTaken table
              (TrainTypes.generateTrainNumber toUpperCase today type i) = true).
Proof.
  split.
  - intros n Hn. apply freeTrainNumber_Some in Hn.
    destruct Hn as (Hfree & i & Hi & Heq & Hbefore).
    split; [exact Hfree|]. exists i. unfold TrainTypes.maxRetries in Hi.
    split; [lia|]. split; [exact Heq|]. intros j Hj. apply Hbefore. lia.
  - rewrite freeTrainNumber_None. unfold TrainTypes.maxRetries.
    split; intros H i Hi; apply H; lia.
Qed.

Section TrainImportFacts.
Import Js Zod ZodMore.
Variable toLowerCase : string -> string.
Variable trim : string -> string.
Variable toUpperCase : string -> string.
Variable today : string.

Lemma firstError_In checks e :
  TrainTypes.firstError checks = Some e -> In (Some e) checks.
Proof.
  induction checks as [|[x|] rest IH]; simpl; [discriminate | |].
  - intros [= ->]. left. reflexivity.
  - intros H. right. apply IH. exact H.
Qed.

Lemma textError_error ok e :
  TrainTypes.textError ok = Some e -> TrainTypes.isDatabaseError e.
Proof.
  unfold TrainTypes.textError. destruct ok; [discriminate|].
  intros [= <-]. left. reflexivity.
Qed.

Lemma intError_error v e :
  TrainTypes.intError v = Some e -> TrainTypes.isDatabaseError e.
Proof.
  unfold TrainTypes.intError. destruct v as [n|]; [|discriminate].
  destruct (Db.int4 n); [discriminate|].
  intros [= <-]. right. right. right. exists n. reflexivity.
Qed.

Lemma insertTrain_error t row e :
  TrainTypes.insertTrain t row = inr e -> TrainTypes.isDatabaseError e.
Proof.
  unfold TrainTypes.insertTrain.
  destruct (TrainTypes.bindError row) as [e'|] eqn:Hbind.
  - intros [= <-]. unfold TrainTypes.bindError in Hbind.
    apply firstError_In in Hbind.
    repeat (destruct Hbind as [Hbind | Hbind];
            [first [eapply textError_error; exact Hbind
                   | eapply intError_error; exact Hbind]|]).
    destruct Hbind.
  - destruct (negb _); [|discriminate].
    intros [= <-]. right. right. left. reflexivity.
Qed.

Lemma insertTrain_inv t row t' newId :
  TrainTypes.insertTrain t row = inl (t', newId) ->
  newId = TrainTypes.trainSeq t + 1
  /\ t' = {| TrainTypes.rows := <[newId := row]> (TrainTypes.rows t);
             TrainTypes.trainSeq := newId |}.
Proof.
  unfold TrainTypes.insertTrain.
  destruct (TrainTypes.bindError row); [discriminate|].
  destruct (negb _); [discriminate|].
  intros [= <- <-]. split; reflexivity.
Qed.

(** One turn of the import, on the table inside the transaction: the table
    stays well formed, what is reported as imported is in it, and a failed
    statement leaves its message among the failures. *)
Lemma train_importOne_invariant t ab done failures x t' ab' done' failures' :
  TrainTypes.importOne toLowerCase trim toUpperCase today (t, ab, done, failures) x
  = (t', ab', done', failures') ->
  TrainTypes.numbersUnique (TrainTypes.rows t) -> TrainTypes.keysIssued t ->
  TrainTypes.importedStored t done ->
  TrainTypes.numbersUnique (TrainTypes.rows t') /\ TrainTypes.keysIssued t'
  /\ TrainTypes.importedStored t' done'
  /\ (forall i r, TrainTypes.rows t !! i = Some r -> TrainTypes.rows t' !! i = Some r)
  /\ (length done' + length failures' = S (length done + length failures))%nat
  /\ TrainTypes.trainSeq t <= TrainTypes.trainSeq t'
  /\ (ab = true -> ab' = true)
  /\ (ab' = true -> ab = true
      \/ exists f, In f failures' /\ TrainTypes.isDatabaseError (snd f))
  /\ (forall f, In f failures -> In f failures').
Proof.
  unfold TrainTypes.importOne. intros Hone Hunique Hissued Hstored.
  assert (Hfail : forall b msg,
    (b = true -> ab = true \/ TrainTypes.isDatabaseError msg) ->
    (ab = true -> b = true) ->
    (t, b, done, (failures ++ [(x, msg)])%list) = (t', ab', done', failures') ->
    TrainTypes.numbersUnique (TrainTypes.rows t') /\ TrainTypes.keysIssued t'
    /\ TrainTypes.importedStored t' done'
    /\ (forall i r, TrainTypes.rows t !! i = Some r -> TrainTypes.rows t' !! i = Some r)
    /\ (length done' + length failures' = S (length done + length failures))%nat
    /\ TrainTypes.trainSeq t <= TrainTypes.trainSeq t'
    /\ (ab = true -> ab' = true)
    /\ (ab' = true -> ab = true
        \/ exists f, In f failures' /\ TrainTypes.isDatabaseError (snd f))
    /\ (forall f, In f failures -> In f failures')).
  { intros b msg Hb Hmono [= <- <- <- <-]. rewrite length_app. simpl.
    split; [exact Hunique|]. split; [exact Hissued|]. split; [exact Hstored|].
    split; [auto|]. split; [lia|]. split; [lia|]. split; [exact Hmono|]. split.
    - intros Htrue. destruct (Hb Htrue) as [Hab | Hmsg]; [left; exact Hab|].
      right. exists (x, msg). split; [apply in_or_app; right; left; reflexivity | exact Hmsg].
    - intros f Hf. apply in_or_app. left. exact Hf. }
  destruct (TrainTypes.validateAndMapTrainType toLowerCase trim (TrainTypes.type x))
    as [mapped | inherited | message] eqn:Hmap;
    [| eapply Hfail; [| |exact Hone]; auto | eapply Hfail; [| |exact Hone]; auto].
  destruct ab.
  { eapply Hfail; [| |exact Hone]; auto. }
  destruct (TrainTypes.freeTrainNumber _ _ _ _ _ _) as [number|] eqn:Hfree;
    [| eapply Hfail; [| |exact Hone]; [discriminate | discriminate]].
  apply freeTrainNumber_Some in Hfree. destruct Hfree as [Hnot _].
  apply mapped_type_in_enum in Hmap.
  destruct (TrainTypes.insertTrain t _) as [[t2 newId]|e] eqn:Hins.
  2:{ eapply Hfail; [| |exact Hone]; [|discriminate].
      intros _. right. eapply insertTrain_error. exact Hins. }
  apply insertTrain_inv in Hins. destruct Hins as [-> ->].
  assert (Hfresh : TrainTypes.rows t !! (TrainTypes.trainSeq t + 1) = None).
  { destruct (TrainTypes.rows t !! (TrainTypes.trainSeq t + 1)) eqn:Hk; [|reflexivity].
    assert (TrainTypes.trainSeq t + 1 <= TrainTypes.trainSeq t)
      by (apply Hissued; eauto).
    lia. }
  injection Hone as <- <- <- <-. cbn [TrainTypes.rows TrainTypes.trainSeq].
  split; [|split; [|split; [|split; [|split; [|split; [|split; [|split]]]]]]].
  - intros i j a b Hi Hj Heq.
    apply lookup_insert_Some in Hi. apply lookup_insert_Some in Hj.
    destruct Hi as [[<- <-] | [Hni Hi]]; destruct Hj as [[<- <-] | [Hnj Hj]].
    + reflexivity.
    + exfalso. simpl in Heq.
      eapply numberTaken_false; [exact Hnot | exact Hj | symmetry; exact Heq].
    + exfalso. simpl in Heq.
      eapply numberTaken_false; [exact Hnot | exact Hi | exact Heq].
    + eapply Hunique; eassumption.
  - intros k Hk. cbn [TrainTypes.rows TrainTypes.trainSeq] in Hk |- *.
    apply lookup_insert_is_Some in Hk.
    destruct Hk as [<- | [_ Hk]]; [lia|]. apply Hissued in Hk. lia.
  - intros e He. apply in_app_or in He. destruct He as [He | [<- | []]].
    + destruct (Hstored e He) as (Hty & r & Hr & Hn & Ht).
      split; [exact Hty|]. exists r. split; [|split; assumption].
      cbn [TrainTypes.rows]. rewrite lookup_insert_ne; [exact Hr|].
      intros Heq. rewrite <- Heq in Hr. congruence.
    + split; [exact Hmap|]. eexists. cbn [TrainTypes.rows TrainTypes.trainId].
      split; [apply lookup_insert_eq|]. split; reflexivity.
  - intros i r Hi. rewrite lookup_insert_ne; [exact Hi|]. intros <-. congruence.
  - rewrite length_app. simpl. lia.
  - lia.
  - discriminate.
  - discriminate.
  - auto.
Qed.

Lemma train_import_loop l : forall t ab done failures t' ab' done' failures',
  fold_left (TrainTypes.importOne toLowerCase trim toUpperCase today) l
    (t, ab, done, failures) = (t', ab', done', failures') ->
  TrainTypes.numbersUnique (TrainTypes.rows t) -> TrainTypes.keysIssued t ->
  TrainTypes.importedStored t done ->
  TrainTypes.numbersUnique (TrainTypes.rows t') /\ TrainTypes.keysIssued t'
  /\ TrainTypes.importedStored t' done'
  /\ (forall i r, TrainTypes.rows t !! i = Some r -> TrainTypes.rows t' !! i = Some r)
  /\ (length done' + length failures' = length l + (length done + length failures))%nat
  /\ TrainTypes.trainSeq t <= TrainTypes.trainSeq t'
  /\ (ab' = true -> ab = true
      \/ exists f, In f failures' /\ TrainTypes.isDatabaseError (snd f))
  /\ (forall f, In f failures -> In f failures').
Proof.
  induction l as [|x rest IH];
    intros t ab done failures t' ab' done' failures' Hfold Hu Hk Hs.
  - injection Hfold as <- <- <- <-.
    split; [exact Hu|]. split; [exact Hk|]. split; [exact Hs|]. split; [auto|].
    split; [reflexivity|]. split; [lia|]. split; [auto | auto].
  - cbn [fold_left] in Hfold.
    destruct (TrainTypes.importOne toLowerCase trim toUpperCase today
                (t, ab, done, failures) x) as [[[t1 ab1] d1] f1] eqn:Hone.
    destruct (train_importOne_invariant _ _ _ _ _ _ _ _ _ Hone Hu Hk Hs)
      as (Hu1 & Hk1 & Hs1 & Hkeep1 & Hlen1 & Hseq1 & _ & Htrace1 & Hf1).
    destruct (IH _ _ _ _ _ _ _ _ Hfold Hu1 Hk1 Hs1)
      as (Hu' & Hk' & Hs' & Hkeep & Hlen & Hseq & Htrace & Hf).
    split; [exact Hu'|]. split; [exact Hk'|]. split; [exact Hs'|].
    split; [auto|]. split; [simpl; lia|]. split; [lia|]. split; [|auto].
    intros Htrue. destruct (Htrace Htrue) as [Hab1 | Hfound]; [|right; exact Hfound].
    destruct (Htrace1 Hab1) as [Hab | (f & Hin & He)]; [left; exact Hab|].
    right. exists f. split; [apply Hf, Hin | exact He].
Qed.

End TrainImportFacts.

Lemma ownFailure_no_database_error
  (toLowerCase trim : string -> string) (x : TrainTypes.TrainTypeData) (m : string) :
  TrainTypes.ownFailure toLowerCase trim x m -> ~ TrainTypes.isDatabaseError m.
Proof.
  assert (Hhead : forall c rest,
    m = String c rest ->
    c <> "i"%char -> c <> "c"%char -> c <> "n"%char -> c <> "v"%char ->
    ~ TrainTypes.isDatabaseError m).
  { intros c rest -> Hi Hc Hn Hv [He | [He | [He | [n He]]]];
      vm_compute in He; injection He as He _; congruence. }
  intros [-> | [-> | Hthrow]].
  - eapply Hhead; [reflexivity | discriminate..].
  - eapply Hhead; [reflexivity | discriminate..].
  - unfold TrainTypes.validateAndMapTrainType in Hthrow.
    destruct (TrainTypes.lookupKey _ _); [discriminate|].
    destruct (existsb _ TrainTypes.inheritedNames); [discriminate|].
    destruct (List.filter _ TrainTypes.typeMapping) as [|kv [|kv' rest]];
      try discriminate; injection Hthrow as <-;
      (eapply Hhead; [cbn [String.append]; reflexivity | discriminate..]).
Qed.

(** X27. An import of train types counts every item once, as imported or as
    failed; it keeps the train numbers unique and the trains that existed.
    It is all or nothing: either every train it reports as imported is
    stored under the reported id, with the reported number and a type of the
    schema, or the database has refused a statement, the transaction is
    rolled back and no train is stored, whatever the answer reports as
    imported. When every failure reported is one the handler raises itself
    (no train number left, or a type it cannot map), the trains are
    stored. *)
Theorem importTypes_summary
  (toLowerCase trim toUpperCase : string -> string) (today : string)
  (t t' : TrainTypes.Table) (userId : option Z) (body : Js.Json)
  (total successful failed : nat)
  (done : list TrainTypes.Imported)
  (failures : list (TrainTypes.TrainTypeData * string))
  (Hunique : TrainTypes.numbersUnique (TrainTypes.rows t))
  (Hissued : TrainTypes.keysIssued t)
  (Himport : TrainTypes.importTypes toLowerCase trim toUpperCase today t userId body
             = (t', TrainTypes.Completed total successful failed done failures)) :
  total = (successful + failed)%nat
  /\ successful = length done /\ failed = length failures
  /\ TrainTypes.numbersUnique (TrainTypes.rows t') /\ TrainTypes.keysIssued t'
  /\ (forall i r, TrainTypes.rows t !! i = Some r -> TrainTypes.rows t' !! i = Some r)
  /\ (TrainTypes.importedStored t' done \/ TrainTypes.rows t' = TrainTypes.rows t)
  /\ ((forall f, In f failures ->
                 TrainTypes.ownFailure toLowerCase trim (fst f) (snd f)) ->
      TrainTypes.importedStored t' done).
Proof.
  unfold TrainTypes.importTypes in Himport.
  destruct (negb _); [discriminate|].
  destruct (Zod.safeParse _) as [l|errs]; [|discriminate].
  destruct (fold_left _ l _) as [[[t1 ab1] d1] f1] eqn:Hfold.
  injection Himport as <- <- <- <- <- <-.
  assert (Hnone : TrainTypes.importedStored t []) by (intros e []).
  destruct (train_import_loop _ _ _ _ _ _ _ _ _ _ _ _ _ Hfold Hunique Hissued Hnone)
    as (Hu & Hk & Hs & Hkeep & Hlen & Hseq & Htrace & _).
  simpl in Hlen. split; [lia|]. split; [reflexivity|]. split; [reflexivity|].
  unfold TrainTypes.commit. destruct ab1.
  - cbn [TrainTypes.rows TrainTypes.trainSeq].
    destruct (Htrace eq_refl) as [Hfalse | Hfound]; [discriminate Hfalse|].
    split; [exact Hunique|]. split.
    { intros k Hk0. cbn [TrainTypes.rows TrainTypes.trainSeq] in Hk0 |- *.
      apply Hissued in Hk0. lia. }
    split; [auto|]. split; [right; reflexivity|].
    intros Hown. exfalso. destruct Hfound as (f & Hf & He).
    exact (ownFailure_no_database_error _ _ _ _ (Hown f Hf) He).
  - split; [exact Hu|]. split; [exact Hk|]. split; [exact Hkeep|].
    split; [left; exact Hs | intros _; exact Hs].
Qed.

Lemma trains2_unique : TrainTypes.numbersUnique (TrainTypes.rows TrainFixtures.trains2).
Proof.
  intros i j a b Hi Hj Heq. simpl in Hi, Hj.
  concrete_lookups; subst; try reflexivity; discriminate Heq.
Defined.

Lemma trains2_issued : TrainTypes.keysIssued TrainFixtures.trains2.
Proof.
  intros k Hk. simpl in Hk |- *. concrete_lookups; subst; lia.
Defined.

Lemma importTypes_summary_witness :
  exists t' done failures,
    TrainTypes.importTypes TrainFixtures.keep TrainFixtures.keep Timeline.toUpperCase
      "20240304" TrainFixtures.trains2 (Some 1) TrainFixtures.typesBody
    = (t', TrainTypes.Completed 3 2 1 done failures)
    /\ List.map TrainTypes.trainNumber done = ["EXP20240304002"; "FRE20240304000"]
    /\ List.map snd failures = ["Failed to generate unique train number after 3 attempts"]
    /\ TrainTypes.numbersUnique (TrainTypes.rows t')
    /\ TrainTypes.importedStored t' done.
Proof.
  assert (Himport : exists t' done failures,
    TrainTypes.importTypes TrainFixtures.keep TrainFixtures.keep Timeline.toUpperCase
      "20240304" TrainFixtures.trains2 (Some 1) TrainFixtures.typesBody
    = (t', TrainTypes.Completed 3 2 1 done failures)
    /\ List.map TrainTypes.trainNumber done = ["EXP20240304002"; "FRE20240304000"]
    /\ List.map snd failures
       = ["Failed to generate unique train number after 3 attempts"]
    /\ forall f, In f failures ->
         TrainTypes.ownFailure TrainFixtures.keep TrainFixtures.keep (fst f) (snd f)).
  { do 3 eexists. split; [vm_compute; reflexivity|].
    split; [reflexivity|]. split; [reflexivity|].
    intros f [<- | []]. left. reflexivity. }
  destruct Himport as (t' & done & failures & Himport & Hdone & Hfailed & Hclean).
  exists t', done, failures.
  split; [exact Himport|]. split; [exact Hdone|]. split; [exact Hfailed|].
  destruct (importTypes_summary _ _ _ _ _ _ _ _ _ _ _ _ _
              trains2_unique trains2_issued Himport)
    as (_ & _ & _ & Hu & _ & _ & _ & Hstored).
  split; [exact Hu | exact (Hstored Hclean)].
Defined.

(** A freight train followed by an express train whose maximum speed is no
    32-bit integer: the second insert is refused, the transaction rolls back,
    and the freight train, reported as imported under the id 3, is not
    stored. *)
Example importTypes_rolled_back :
  exists done failures,
    TrainTypes.importTypes TrainFixtures.keep TrainFixtures.keep Timeline.toUpperCase
      "20240304" TrainFixtures.trains2 (Some 1) TrainFixtures.tooFast
    = ({| TrainTypes.rows := TrainTypes.rows TrainFixtures.trains2;
          TrainTypes.trainSeq := 3 |},
       TrainTypes.Completed 2 1 1 done failures)
    /\ List.map TrainTypes.trainId done = [3]
    /\ List.map snd failures = [Db.integerOutOfRange 3000000000].
Proof.
  do 2 eexists. split; [vm_compute; reflexivity|]. split; reflexivity.
Qed.

(** ** The cleaning of tables *)

Section CleanFacts.
Import Js Zod ZodMore.

Lemma parseItems_Forall {A} (P : A -> Prop) (elem : Parser A) :
  (forall v a, value (elem v) = Some a -> P a) ->
  forall items i l, value (parseItems elem i items) = Some l -> Forall P l.
Proof.
  intros Helem. induction items as [|x rest IH]; intros i l; simpl.
  - intros [= <-]. constructor.
  - destruct (value (elem (Some x))) as [hd|] eqn:Hhd; [|discriminate].
    destruct (value (parseItems elem (S i) rest)) as [tl|] eqn:Htl; [|discriminate].
    intros [= <-]. constructor; [eapply Helem; exact Hhd | eapply IH; exact Htl].
Qed.

(** What a body that passed [tableSchema] was parsed to. *)
Lemma tableSchema_success body req :
  safeParse (CleanTables.tableSchema body) = success req ->
  Forall (fun t => In t CleanTables.tableNames) (CleanTables.tables req)
  /\ (prop "preserveAdmin" body <> Some (JBool false) ->
      CleanTables.preserveAdmin req = true).
Proof.
  intros H. apply safeParse_success in H. destruct H as [Hv _].
  unfold CleanTables.tableSchema in Hv. destruct body; try discriminate.
  apply apP_value in Hv. destruct Hv as (g2 & references & Hv & _ & ->).
  apply apP_value in Hv. destruct Hv as (g1 & admin & Hv & Hadmin & ->).
  apply apP_value in Hv. destruct Hv as (g0 & tables & Hv & Htables & ->).
  injection Hv as <-. cbn [CleanTables.tables CleanTables.preserveAdmin].
  unfold field in Htables, Hadmin. cbn [value addPath] in Htables, Hadmin.
  split.
  - unfold minItems in Htables.
    destruct (prop "tables" _) as [[| | | | items |]|]; try discriminate.
    assert (Hitems : value (parseItems (enum CleanTables.tableNames) 0 items)
                     = Some tables).
    { destruct (length items <? 1)%nat; exact Htables. }
    eapply parseItems_Forall; [|exact Hitems].
    intros v a. apply enum_member.
  - intros Hkeep. unfold default, boolean in Hadmin.
    destruct (prop "preserveAdmin" _) as [[| b | | | |]|]; try discriminate.
    + injection Hadmin as <-. destruct b; [reflexivity | contradiction].
    + injection Hadmin as <-. reflexivity.
Qed.

Lemma sortedTables_In x tables :
  In x (CleanTables.sortedTables tables) <-> In x tables.
Proof.
  unfold CleanTables.sortedTables. rewrite in_app_iff, !filter_In.
  destruct (String.eqb x "schedules"); simpl; tauto.
Qed.

Lemma sortedTables_schedules_first tables :
  In "schedules" tables ->
  exists rest, CleanTables.sortedTables tables = "schedules" :: rest.
Proof.
  intros Hin. unfold CleanTables.sortedTables.
  assert (Hf : In "schedules"
                 (List.filter (fun a => String.eqb a "schedules") tables))
    by (apply filter_In; split; [exact Hin | reflexivity]).
  destruct (List.filter (fun a => String.eqb a "schedules") tables)
    as [|y ys] eqn:Hfilter; [destruct Hf|].
  assert (Hy : In y (List.filter (fun a => String.eqb a "schedules") tables))
    by (rewrite Hfilter; left; reflexivity).
  apply filter_In in Hy. destruct Hy as [_ Hy]. apply String.eqb_eq in Hy. subst y.
  eexists. reflexivity.
Qed.

Lemma no_schedules_no_references (d : Db.Database) :
  Db.schedules d = ∅ ->
  CleanTables.trainsInUse d = false
  /\ CleanTables.locationsInUse d = false
  /\ CleanTables.locationsReferenced d = false.
Proof.
  intros Hempty.
  unfold CleanTables.trainsInUse, CleanTables.locationsInUse,
    CleanTables.locationsReferenced.
  rewrite Hempty.
  split; [|split]; apply bool_decide_eq_false; apply map_Exists_empty.
Qed.

Lemma filter_admins_twice (table : gmap Z Auth.User) :
  filter (fun kv : Z * Auth.User => Auth.role kv.2 = Auth.Admin)
    (filter (fun kv : Z * Auth.User => Auth.role kv.2 = Auth.Admin) table)
  = filter (fun kv : Z * Auth.User => Auth.role kv.2 = Auth.Admin) table.
Proof.
  apply map_eq. intros k. apply option_eq. intros u.
  rewrite !map_lookup_filter_Some. simpl. tauto.
Qed.

Lemma cleanOne_without_schedules req st table :
  In table CleanTables.tableNames ->
  Db.schedules (CleanTables.db st) = ∅ ->
  exists st',
    CleanTables.cleanOne req st table = inl st'
    /\ Db.schedules (CleanTables.db st') = ∅
    /\ Db.scheduleSeq (CleanTables.db st') = Db.scheduleSeq (CleanTables.db st)
    /\ Db.trains (CleanTables.db st')
       = (if String.eqb "trains" table then ∅ else Db.trains (CleanTables.db st))
    /\ Db.locations (CleanTables.db st')
       = (if String.eqb "locations" table then ∅ else Db.locations (CleanTables.db st))
    /\ CleanTables.users st'
       = (if String.eqb "users" table
          then if CleanTables.preserveAdmin req
               then filter (fun kv : Z * Auth.User => Auth.role kv.2 = Auth.Admin)
                      (CleanTables.users st)
               else ∅
          else CleanTables.users st).
Proof.
  intros Hin Hempty.
  destruct (no_schedules_no_references _ Hempty) as (Htrains & Hlocs & Hrefs).
  unfold CleanTables.cleanOne. rewrite Htrains, Hlocs, Hrefs, andb_false_r.
  destruct Hin as [<- | [<- | [<- | [<- | []]]]]; simpl.
  - eexists. split; [reflexivity|]. simpl. repeat split; reflexivity.
  - eexists. split; [reflexivity|]. simpl. repeat split; try reflexivity. exact Hempty.
  - eexists. split; [reflexivity|]. simpl. repeat split; try reflexivity. exact Hempty.
  - destruct (CleanTables.preserveAdmin req);
      (eexists; split; [reflexivity|]; simpl; repeat split; try reflexivity; exact Hempty).
Qed.

Lemma cleanAll_without_schedules req : forall todo st acc,
  Forall (fun t => In t CleanTables.tableNames) todo ->
  Db.schedules (CleanTables.db st) = ∅ ->
  exists st',
    CleanTables.cleanAll req todo st acc = inl (st', (acc ++ todo)%list)
    /\ Db.schedules (CleanTables.db st') = ∅
    /\ Db.scheduleSeq (CleanTables.db st') = Db.scheduleSeq (CleanTables.db st)
    /\ Db.trains (CleanTables.db st')
       = (if existsb (String.eqb "trains") todo
          then ∅ else Db.trains (CleanTables.db st))
    /\ Db.locations (CleanTables.db st')
       = (if existsb (String.eqb "locations") todo
          then ∅ else Db.locations (CleanTables.db st))
    /\ CleanTables.users st'
       = (if existsb (String.eqb "users") todo
          then if CleanTables.preserveAdmin req
               then filter (fun kv : Z * Auth.User => Auth.role kv.2 = Auth.Admin)
                      (CleanTables.users st)
               else ∅
          else CleanTables.users st).
Proof.
  induction todo as [|x rest IH]; intros st acc Hnames Hempty.
  - exists st. simpl. rewrite app_nil_r. repeat split; try reflexivity. exact Hempty.
  - inversion Hnames as [|? ? Hx Hrest]; subst.
    destruct (cleanOne_without_schedules req st x Hx Hempty)
      as (st1 & Hone & Hempty1 & Hseq1 & Htrains1 & Hlocs1 & Husers1).
    destruct (IH st1 (acc ++ [x])%list Hrest Hempty1)
      as (st' & Hall & Hempty' & Hseq' & Htrains' & Hlocs' & Husers').
    exists st'. cbn [CleanTables.cleanAll]. rewrite Hone.
    assert (Hknown : existsb (String.eqb x) CleanTables.tableNames = true).
    { apply existsb_exists. exists x. split; [exact Hx | apply String.eqb_refl]. }
    rewrite Hknown, Hall, <- app_assoc. cbn [existsb].
    split; [reflexivity|]. split; [exact Hempty'|]. split; [congruence|].
    rewrite Htrains', Hlocs', Husers', Htrains1, Hlocs1, Husers1.
    split; [|split].
    + destruct (String.eqb "trains" x), (existsb (String.eqb "trains") rest);
        reflexivity.
    + destruct (String.eqb "locations" x), (existsb (String.eqb "locations") rest);
        reflexivity.
    + destruct (String.eqb "users" x), (existsb (String.eqb "users") rest),
        (CleanTables.preserveAdmin req); simpl;
        rewrite ?filter_admins_twice; reflexivity.
Qed.

Lemma existsb_eqb_In x l :
  existsb (String.eqb x) l = true <-> In x l.
Proof.
  rewrite existsb_exists. split.
  - intros (y & Hy & Heq). apply String.eqb_eq in Heq. subst. exact Hy.
  - intros Hin. exists x. split; [exact Hin | apply String.eqb_refl].
Qed.

Lemma existsb_eqb_not_In x l :
  existsb (String.eqb x) l = false <-> ~ In x l.
Proof.
  rewrite <- existsb_eqb_In. destruct (existsb (String.eqb x) l); split;
    congruence.
Qed.

(** Without [schedules] among the tables, the schedules and whatever they
    reference stay, and the loop runs into the table that is referenced. *)
Lemma cleanAll_trains_in_use req : forall todo st acc,
  ~ In "schedules" todo -> In "trains" todo ->
  CleanTables.trainsInUse (CleanTables.db st) = true ->
  exists e, CleanTables.cleanAll req todo st acc = inr e.
Proof.
  induction todo as [|x rest IH]; intros st acc Hnot Hin Huse; [destruct Hin|].
  cbn [CleanTables.cleanAll]. unfold CleanTables.cleanOne.
  destruct (String.eqb x "schedules") eqn:Hs.
  { apply String.eqb_eq in Hs. subst. exfalso. apply Hnot. left. reflexivity. }
  assert (Hnot' : ~ In "schedules" rest) by (intros H; apply Hnot; right; exact H).
  destruct (String.eqb x "trains") eqn:Ht.
  { rewrite Huse. destruct (CleanTables.preserveReferences req); simpl; eauto. }
  assert (Hin' : In "trains" rest).
  { destruct Hin as [-> | Hin]; [vm_compute in Ht; discriminate Ht | exact Hin]. }
  destruct (String.eqb x "locations").
  { destruct (_ && _); [eauto|].
    destruct (CleanTables.locationsReferenced _); [eauto|].
    apply IH; [exact Hnot' | exact Hin' | exact Huse]. }
  destruct (String.eqb x "users").
  { destruct (CleanTables.preserveAdmin req);
      (apply IH; [exact Hnot' | exact Hin' | exact Huse]). }
  apply IH; [exact Hnot' | exact Hin' | exact Huse].
Qed.

Lemma cleanAll_locations_referenced req : forall todo st acc,
  ~ In "schedules" todo -> In "locations" todo ->
  CleanTables.locationsReferenced (CleanTables.db st) = true ->
  exists e, CleanTables.cleanAll req todo st acc = inr e.
Proof.
  induction todo as [|x rest IH]; intros st acc Hnot Hin Huse; [destruct Hin|].
  cbn [CleanTables.cleanAll]. unfold CleanTables.cleanOne.
  destruct (String.eqb x "schedules") eqn:Hs.
  { apply String.eqb_eq in Hs. subst. exfalso. apply Hnot. left. reflexivity. }
  assert (Hnot' : ~ In "schedules" rest) by (intros H; apply Hnot; right; exact H).
  destruct (String.eqb x "trains") eqn:Ht.
  { apply String.eqb_eq in Ht. subst x.
    assert (Hin' : In "locations" rest).
    { destruct Hin as [Heq | Hin]; [discriminate Heq | exact Hin]. }
    destruct (_ && _); [eauto|].
    destruct (CleanTables.trainsInUse _); [eauto|].
    apply IH; [exact Hnot' | exact Hin' | exact Huse]. }
  destruct (String.eqb x "locations") eqn:Hl.
  { rewrite Huse. destruct (_ && _); eauto. }
  assert (Hin' : In "locations" rest).
  { destruct Hin as [-> | Hin]; [vm_compute in Hl; discriminate Hl | exact Hin]. }
  destruct (String.eqb x "users").
  { destruct (CleanTables.preserveAdmin req);
      (apply IH; [exact Hnot' | exact Hin' | exact Huse]). }
  apply IH; [exact Hnot' | exact Hin' | exact Huse].
Qed.

Lemma cleanOne_users req st table st' :
  CleanTables.cleanOne req st table = inl st' ->
  (forall k u, CleanTables.users st' !! k = Some u -> CleanTables.users st !! k = Some u)
  /\ (CleanTables.preserveAdmin req = true ->
      forall k u, CleanTables.users st !! k = Some u -> Auth.role u = Auth.Admin ->
                  CleanTables.users st' !! k = Some u).
Proof.
  unfold CleanTables.cleanOne.
  destruct (String.eqb table "schedules"); [intros [= <-]; simpl; auto|].
  destruct (String.eqb table "trains").
  { destruct (_ && _); [discriminate|].
    destruct (CleanTables.trainsInUse _); [discriminate|].
    intros [= <-]; simpl; auto. }
  destruct (String.eqb table "locations").
  { destruct (_ && _); [discriminate|].
    destruct (CleanTables.locationsReferenced _); [discriminate|].
    intros [= <-]; simpl; auto. }
  destruct (String.eqb table "users"); [|intros [= <-]; auto].
  destruct (CleanTables.preserveAdmin req); intros [= <-]; simpl.
  - split.
    + intros k u Hk. apply map_lookup_filter_Some in Hk. tauto.
    + intros _ k u Hk Hrole. apply map_lookup_filter_Some. auto.
  - split; [|discriminate]. intros k u Hk. rewrite lookup_empty in Hk. discriminate Hk.
Qed.

Lemma cleanAll_users req : forall todo st acc st' acc',
  CleanTables.cleanAll req todo st acc = inl (st', acc') ->
  (forall k u, CleanTables.users st' !! k = Some u -> CleanTables.users st !! k = Some u)
  /\ (CleanTables.preserveAdmin req = true ->
      forall k u, CleanTables.users st !! k = Some u -> Auth.role u = Auth.Admin ->
                  CleanTables.users st' !! k = Some u).
Proof.
  induction todo as [|x rest IH]; intros st acc st' acc' Hall.
  - injection Hall as <- <-. auto.
  - cbn [CleanTables.cleanAll] in Hall.
    destruct (CleanTables.cleanOne req st x) as [st1|e] eqn:Hone; [|discriminate].
    apply cleanOne_users in Hone. destruct Hone as [Hsub1 Hkeep1].
    apply IH in Hall. destruct Hall as [Hsub Hkeep].
    split; [auto|]. intros Hadmin k u Hk Hrole. auto.
Qed.

End CleanFacts.

Lemma cleanAll_schedules_first req rest st :
  CleanTables.cleanAll req ("schedules" :: rest) st []
  = CleanTables.cleanAll req rest
      {| CleanTables.db := CleanTables.withSchedules (CleanTables.db st) ∅;
         CleanTables.users := CleanTables.users st |}
      ["schedules"].
Proof. reflexivity. Qed.

(** X28. Cleaning with [schedules] among the tables always goes through,
    whatever the other tables and the flags are: the schedules are deleted
    first, so no train or location is referenced any more when its table is
    cleaned. Every table named is emptied ([users] down to the admins when
    [preserveAdmin] holds), the tables not named are left as they were, and
    the answer lists the tables, [schedules] first and the others in the order
    of the request. *)
Theorem cleanTables_with_schedules
  (st : CleanTables.Store) (userId : Z) (body : Js.Json)
  (req : CleanTables.CleanRequest)
  (Huser : userId <> 0)
  (Hparse : Zod.safeParse (CleanTables.tableSchema body) = Zod.success req)
  (Hschedules : In "schedules" (CleanTables.tables req)) :
  exists st',
    CleanTables.cleanTables st (Some userId) body
    = (st', CleanTables.Cleaned
              ("Successfully cleaned tables: "
               ++ ZodMore.join ", " (CleanTables.sortedTables (CleanTables.tables req)))
              (CleanTables.sortedTables (CleanTables.tables req)))
    /\ (exists others,
          CleanTables.sortedTables (CleanTables.tables req) = "schedules" :: others)
    /\ Db.schedules (CleanTables.db st') = ∅
    /\ Db.scheduleSeq (CleanTables.db st') = Db.scheduleSeq (CleanTables.db st)
    /\ Db.trains (CleanTables.db st')
       = (if existsb (String.eqb "trains") (CleanTables.tables req)
          then ∅ else Db.trains (CleanTables.db st))
    /\ Db.locations (CleanTables.db st')
       = (if existsb (String.eqb "locations") (CleanTables.tables req)
          then ∅ else Db.locations (CleanTables.db st))
    /\ CleanTables.users st'
       = (if existsb (String.eqb "users") (CleanTables.tables req)
          then if CleanTables.preserveAdmin req
               then filter (fun kv : Z * Auth.User => Auth.role kv.2 = Auth.Admin)
                      (CleanTables.users st)
               else ∅
          else CleanTables.users st).
Proof.
  destruct (tableSchema_success _ _ Hparse) as [Hnames _].
  destruct (sortedTables_schedules_first _ Hschedules) as [others Hsorted].
  assert (Hothers : Forall (fun t => In t CleanTables.tableNames) others).
  { apply List.Forall_forall. intros x Hx.
    apply (proj1 (List.Forall_forall _ _) Hnames x).
    apply sortedTables_In. rewrite Hsorted. right. exact Hx. }
  assert (Hmember : forall x, x <> "schedules" ->
            existsb (String.eqb x) others
            = existsb (String.eqb x) (CleanTables.tables req)).
  { intros x Hx. destruct (existsb (String.eqb x) others) eqn:Hex; symmetry.
    - apply existsb_eqb_In. apply sortedTables_In. rewrite Hsorted.
      right. apply existsb_eqb_In. exact Hex.
    - apply existsb_eqb_not_In. intros Hin.
      apply sortedTables_In in Hin. rewrite Hsorted in Hin.
      destruct Hin as [Heq | Hin]; [congruence|].
      apply existsb_eqb_In in Hin. congruence. }
  unfold CleanTables.cleanTables, Js.truthyNum.
  assert (Hid : (userId =? 0) = false) by (apply Z.eqb_neq; exact Huser).
  rewrite Hid, Hparse, Hsorted, cleanAll_schedules_first. cbn [negb].
  match goal with
  | |- context [CleanTables.cleanAll req others ?s ?acc] =>
      destruct (cleanAll_without_schedules req others s acc Hothers eq_refl)
        as (st' & Hall & Hempty & Hseq & Htrains & Hlocs & Husers)
  end.
  exists st'. rewrite Hall. cbn [app].
  split; [reflexivity|]. split; [exists others; reflexivity|].
  split; [exact Hempty|]. split; [exact Hseq|].
  rewrite <- !Hmember by discriminate.
  split; [exact Htrains|]. split; [exact Hlocs | exact Husers].
Qed.

Lemma cleanTables_with_schedules_witness :
  exists st',
    CleanTables.cleanTables CleanFixtures.store1 (Some 1) CleanFixtures.trainsAndSchedules
    = (st', CleanTables.Cleaned "Successfully cleaned tables: schedules, trains"
              ["schedules"; "trains"])
    /\ Db.schedules (CleanTables.db st') = ∅
    /\ Db.trains (CleanTables.db st') = ∅
    /\ Db.locations (CleanTables.db st') = Db.locations Fixtures.db1
    /\ CleanTables.users st' = Auth.users AdminFixtures.users0.
Proof.
  assert (Hparse : Zod.safeParse (CleanTables.tableSchema CleanFixtures.trainsAndSchedules)
                   = Zod.success {| CleanTables.tables := ["trains"; "schedules"];
                                    CleanTables.preserveAdmin := true;
                                    CleanTables.preserveReferences := true |})
    by (vm_compute; reflexivity).
  destruct (cleanTables_with_schedules CleanFixtures.store1 1 _ _ ltac:(lia) Hparse
              ltac:(simpl; tauto))
    as (st' & Hclean & _ & Hempty & _ & Htrains & Hlocs & Husers).
  exists st'. split; [exact Hclean|]. split; [exact Hempty|].
  split; [exact Htrains|]. split; [exact Hlocs | exact Husers].
Defined.

(** X29. Without [schedules] among the tables, cleaning [trains] while a
    schedule has a train, or [locations] while a schedule refers to one, is
    answered 500 and deletes nothing, also when [preserveReferences] is
    false: the check of the handler is skipped then, but the foreign keys of
    [schedules] refuse the deletion and the transaction is rolled back. *)
Theorem cleanTables_referenced_rows_refused
  (st : CleanTables.Store) (userId : Z) (body : Js.Json)
  (req : CleanTables.CleanRequest)
  (Huser : userId <> 0)
  (Hparse : Zod.safeParse (CleanTables.tableSchema body) = Zod.success req)
  (Hnot : ~ In "schedules" (CleanTables.tables req))
  (Hreferenced :
     (In "trains" (CleanTables.tables req)
      /\ CleanTables.trainsInUse (CleanTables.db st) = true)
     \/ (In "locations" (CleanTables.tables req)
         /\ CleanTables.locationsReferenced (CleanTables.db st) = true)) :
  exists details,
    CleanTables.cleanTables st (Some userId) body
    = (st, CleanTables.Failed "Failed to clean tables" details).
Proof.
  assert (Hfail : exists e,
            CleanTables.cleanAll req (CleanTables.sortedTables (CleanTables.tables req))
              st [] = inr e).
  { destruct Hreferenced as [[Hin Huse] | [Hin Huse]].
    - apply cleanAll_trains_in_use; [| |exact Huse].
      + rewrite sortedTables_In. exact Hnot.
      + rewrite sortedTables_In. exact Hin.
    - apply cleanAll_locations_referenced; [| |exact Huse].
      + rewrite sortedTables_In. exact Hnot.
      + rewrite sortedTables_In. exact Hin. }
  destruct Hfail as [e Hfail].
  unfold CleanTables.cleanTables, Js.truthyNum.
  assert (Hid : (userId =? 0) = false) by (apply Z.eqb_neq; exact Huser).
  rewrite Hid, Hparse, Hfail. exists e. reflexivity.
Qed.

Lemma cleanTables_referenced_rows_refused_witness :
  exists details,
    CleanTables.cleanTables CleanFixtures.store1 (Some 1) CleanFixtures.trainsRegardless
    = (CleanFixtures.store1, CleanTables.Failed "Failed to clean tables" details).
Proof.
  assert (Hparse : Zod.safeParse (CleanTables.tableSchema CleanFixtures.trainsRegardless)
                   = Zod.success {| CleanTables.tables := ["users"; "trains"];
                                    CleanTables.preserveAdmin := true;
                                    CleanTables.preserveReferences := false |})
    by (vm_compute; reflexivity).
  apply (cleanTables_referenced_rows_refused CleanFixtures.store1 1 _ _
           ltac:(lia) Hparse).
  - simpl. intros [H | [H | []]]; discriminate H.
  - left. split; [simpl; tauto | vm_compute; reflexivity].
Defined.

(** X30. Unless the body says [preserveAdmin: false], no request to clean
    tables deletes an admin, whatever tables it names and however it ends;
    and no request adds a user. *)
Theorem cleanTables_keeps_admins
  (st st' : CleanTables.Store) (userId : option Z) (body : Js.Json)
  (resp : CleanTables.Response)
  (Hadmin : Js.prop "preserveAdmin" body <> Some (Js.JBool false))
  (Hclean : CleanTables.cleanTables st userId body = (st', resp)) :
  (forall k u, CleanTables.users st !! k = Some u -> Auth.role u = Auth.Admin ->
               CleanTables.users st' !! k = Some u)
  /\ (forall k u, CleanTables.users st' !! k = Some u ->
                  CleanTables.users st !! k = Some u).
Proof.
  unfold CleanTables.cleanTables in Hclean.
  destruct (negb _); [injection Hclean as <- <-; auto|].
  destruct (Zod.safeParse _) as [req|errs] eqn:Hparse;
    [|injection Hclean as <- <-; auto].
  destruct (tableSchema_success _ _ Hparse) as [_ Hkeep]. specialize (Hkeep Hadmin).
  destruct (CleanTables.cleanAll req _ st []) as [[st1 cleaned]|e] eqn:Hall;
    [|injection Hclean as <- <-; auto].
  injection Hclean as <- <-.
  apply cleanAll_users in Hall. destruct Hall as [Hsub Hkept].
  split; [exact (Hkept Hkeep) | exact Hsub].
Qed.

Lemma cleanTables_keeps_admins_witness :
  exists st' resp,
    CleanTables.cleanTables CleanFixtures.store1 (Some 1) CleanFixtures.usersOnly
    = (st', resp)
    /\ CleanTables.users st' !! 1 = Some AdminFixtures.root
    /\ CleanTables.users st' !! 2 = None.
Proof.
  destruct (CleanTables.cleanTables CleanFixtures.store1 (Some 1) CleanFixtures.usersOnly)
    as [st' resp] eqn:Hclean.
  exists st', resp. split; [reflexivity|].
  destruct (cleanTables_keeps_admins CleanFixtures.store1 st' (Some 1)
              CleanFixtures.usersOnly resp ltac:(vm_compute; discriminate) Hclean)
    as [Hkept _].
  split; [apply Hkept; reflexivity|].
  vm_compute in Hclean. injection Hclean as <- _. reflexivity.
Defined.
